(** * Content automation tool: generation and validation pipeline

    A shallow embedding of the Python sources [utils.py], [writer.py],
    [topics.py] and [content_bot.py], followed by the properties of the
    pipeline that are proved about it.

    Conventions.
    - A Python [str] is a sequence of Unicode code points: [pystr] is
      [list N], one number per code point.  ASCII literals of the source
      are written [py "..."].
    - The standard [re] module is embedded as a small backtracking matcher
      ([rmatch]) with Python's priorities: alternatives left to right,
      greedy repetition, leftmost match.
    - Third-party services (the language-model backend, [json.loads], the
      Unicode tables behind [\w] and [\d]) are parameters: the classes
      [Env] and [UnicodeDB].
    - A run is a function on the trace of its events ([IO]): the calls to
      the backend, the validations and the writes, in order. *)

From Stdlib Require Import NArith ZArith QArith List String Ascii Bool Lia DecimalString.
From stdpp Require Import base option list gmap.

Set Warnings "-register-all".
Set Default Proof Using "Type".

(** ** Python strings *)

Definition char := N.
Definition pystr := list char.

Fixpoint py (s : string) : pystr :=
  match s with
  | EmptyString => []
  | String a s' => N_of_ascii a :: py s'
  end.

Definition in_range (lo hi c : char) : bool := (lo <=? c)%N && (c <=? hi)%N.
Arguments in_range (lo hi c)%_N.

Definition is_upper_AZ (c : char) : bool := in_range 65 90 c.
Definition is_lower_az (c : char) : bool := in_range 97 122 c.
Definition is_digit09 (c : char) : bool := in_range 48 57 c.

Definition HYPHEN : char := 45%N.
Definition NEWLINE : char := 10%N.
Definition QUOTE : char := 34%N.

(** [str.isspace] for one character, which is also the class [\s] of a
    [str] pattern: the code points CPython classifies as whitespace. *)
Definition isspace (c : char) : bool :=
  in_range 0x09 0x0d c || in_range 0x1c 0x20 c
  || (c =? 0x85)%N || (c =? 0xa0)%N || (c =? 0x1680)%N
  || in_range 0x2000 0x200a c
  || (c =? 0x2028)%N || (c =? 0x2029)%N || (c =? 0x202f)%N
  || (c =? 0x205f)%N || (c =? 0x3000)%N.

Fixpoint lstrip (s : pystr) : pystr :=
  match s with
  | c :: s' => if isspace c then lstrip s' else s
  | [] => []
  end.

Definition rstrip (s : pystr) : pystr := rev (lstrip (rev s)).

(** [s.strip()] *)
Definition strip (s : pystr) : pystr := rstrip (lstrip s).

(** [str.lower] on one character whose only cased letters are ASCII.  The
    sources lower-case text from which every other letter has already been
    deleted ([slugify]). *)
Definition lower_char (c : char) : char :=
  if is_upper_AZ c then (c + 32)%N else c.

Definition lower (s : pystr) : pystr := map lower_char s.

(** [s.startswith(sub)] *)
Fixpoint startswith (sub s : pystr) : bool :=
  match sub, s with
  | [], _ => true
  | a :: sub', b :: s' => (a =? b)%N && startswith sub' s'
  | _ :: _, [] => false
  end.

(** [sub in s] *)
Fixpoint str_in (sub s : pystr) : bool :=
  startswith sub s ||
  match s with
  | [] => false
  | _ :: s' => str_in sub s'
  end.

(** [s.count(sub)] for a non-empty [sub]: occurrences are counted from the
    left and do not overlap; [skip] is the number of characters of the last
    counted occurrence still to pass. *)
Fixpoint count_from (sub s : pystr) (skip : nat) : nat :=
  match s with
  | [] => 0
  | _ :: s' =>
      match skip with
      | S k => count_from sub s' k
      | O => if startswith sub s
             then S (count_from sub s' (length sub - 1))
             else count_from sub s' 0
      end
  end.

Definition str_count (sub s : pystr) : nat := count_from sub s 0.

(** [sep.join(parts)] *)
Fixpoint join (sep : pystr) (parts : list pystr) : pystr :=
  match parts with
  | [] => []
  | [p] => p
  | p :: rest => p ++ sep ++ join sep rest
  end.

(** ** Regular expressions

    The fragment of [re] the sources use.  [Cls p] is one character of a
    class, [Bnd w] the boundary [\b] for the word class [w]. *)

Inductive regex : Type :=
| Eps
| Cls (p : char -> bool)
| Cat (r1 r2 : regex)
| Alt (r1 r2 : regex)
| Star (r : regex)
| Bnd (w : char -> bool).

Definition Plus (r : regex) : regex := Cat r (Star r).

Fixpoint Lit (s : pystr) : regex :=
  match s with
  | [] => Eps
  | c :: s' => Cat (Cls (N.eqb c)) (Lit s')
  end.

Definition word_at (w : char -> bool) (o : option char) : bool :=
  match o with
  | Some c => w c
  | None => false
  end.

(** [rmatch r prev s k]: match [r] at the front of [s], the character
    before it being [prev], and hand what is left to [k]; when [k] refuses,
    backtrack into [r].  A repetition gives up an iteration that consumed
    nothing, so [length s] iterations are enough. *)
Fixpoint rmatch {A : Type} (r : regex) (prev : option char) (s : pystr)
    (k : option char -> pystr -> option A) {struct r} : option A :=
  match r with
  | Eps => k prev s
  | Cls p =>
      match s with
      | c :: s' => if p c then k (Some c) s' else None
      | [] => None
      end
  | Cat r1 r2 => rmatch r1 prev s (fun prev' s' => rmatch r2 prev' s' k)
  | Alt r1 r2 =>
      match rmatch r1 prev s k with
      | Some x => Some x
      | None => rmatch r2 prev s k
      end
  | Star r1 =>
      (fix loop (n : nat) (prev : option char) (s : pystr) {struct n} : option A :=
         match n with
         | O => k prev s
         | S n' =>
             match rmatch r1 prev s
                     (fun prev' s' =>
                        if (length s' <? length s)%nat then loop n' prev' s' else None) with
             | Some x => Some x
             | None => k prev s
             end
         end) (length s) prev s
  | Bnd w =>
      if xorb (word_at w prev) (word_at w (head s)) then k prev s else None
  end.

(** The text left after a match of [r] at the front of [s]. *)
Definition match_rest (r : regex) (prev : option char) (s : pystr) : option pystr :=
  rmatch r prev s (fun _ rest => Some rest).

(** The leftmost position at which [m] succeeds. *)
Fixpoint scan {A : Type} (m : option char -> pystr -> option A)
    (prev : option char) (s : pystr) : option A :=
  match m prev s with
  | Some x => Some x
  | None =>
      match s with
      | [] => None
      | c :: s' => scan m (Some c) s'
      end
  end.

(** [re.search(r, s)] as the matched text, [match.group(0)]. *)
Definition re_search (r : regex) (s : pystr) : option pystr :=
  scan (fun prev t =>
          match match_rest r prev t with
          | Some rest => Some (take (length t - length rest) t)
          | None => None
          end) None s.

(** [re.search] of a pattern [r0(rg)] whose only group ends it, as
    [match.group(1)]. *)
Definition re_search_group (r0 rg : regex) (s : pystr) : option pystr :=
  scan (fun prev t =>
          rmatch r0 prev t (fun prev1 t1 =>
            rmatch rg prev1 t1 (fun _ t2 =>
              Some (take (length t1 - length t2) t1)))) None s.

(** [re.sub(r, repl, s)] for a pattern that matches no empty text: matches
    are replaced left to right; [skip] counts the characters of the last
    match still to pass. *)
Fixpoint sub_from (r : regex) (repl : pystr) (prev : option char)
    (s : pystr) (skip : nat) : pystr :=
  match s with
  | [] => []
  | c :: s' =>
      match skip with
      | S k => sub_from r repl (Some c) s' k
      | O =>
          match match_rest r prev s with
          | Some rest =>
              repl ++ sub_from r repl (Some c) s' (length s - length rest - 1)
          | None => c :: sub_from r repl (Some c) s' 0
          end
      end
  end.

Definition re_sub (r : regex) (repl s : pystr) : pystr :=
  sub_from r repl None s 0.

(** [re.split(r, s)] for a pattern that matches no empty text; [cur] holds
    the current piece, last character first. *)
Fixpoint split_from (r : regex) (prev : option char) (s : pystr)
    (skip : nat) (cur : pystr) : list pystr :=
  match s with
  | [] => [rev cur]
  | c :: s' =>
      match skip with
      | S k => split_from r (Some c) s' k cur
      | O =>
          match match_rest r prev s with
          | Some rest =>
              rev cur :: split_from r (Some c) s' (length s - length rest - 1) []
          | None => split_from r (Some c) s' 0 (c :: cur)
          end
      end
  end.

Definition re_split (r : regex) (s : pystr) : list pystr :=
  split_from r None s 0 [].

(** ** utils.py *)

Module Utils.

(** [[^a-zA-Z0-9\s-]] *)
Definition slug_keep (c : char) : bool :=
  is_lower_az c || is_upper_AZ c || is_digit09 c || isspace c || (c =? HYPHEN)%N.

Definition re_not_slug_char : regex := Cls (fun c => negb (slug_keep c)).

(** [[\s-]+] *)
Definition slug_sep (c : char) : bool := isspace c || (c =? HYPHEN)%N.

Definition re_separators : regex := Plus (Cls slug_sep).

Definition slugify (text : pystr) : pystr :=
  let cleaned := lower (strip (re_sub re_not_slug_char [] text)) in
  let slug := re_sub re_separators (py "-") cleaned in
  match slug with
  | [] => py "untitled"
  | _ => slug
  end.

End Utils.

(** The class [[a-z0-9-]] of the characters of a slug. *)
Definition slug_char (c : char) : bool :=
  is_lower_az c || is_digit09 c || (c =? HYPHEN)%N.

(** The characters of an input that can reach the slug: ASCII letters,
    digits and the hyphen. *)
Definition slug_source (c : char) : bool :=
  is_lower_az c || is_upper_AZ c || is_digit09 c || (c =? HYPHEN)%N.

(** ASCII punctuation, as listed by [string.punctuation]. *)
Definition ascii_punct (c : char) : bool :=
  in_range 33 47 c || in_range 58 64 c || in_range 91 96 c || in_range 123 126 c.

(** ** Python values and exceptions *)

(** The values that can reach the pipeline: what [json.loads] builds and
    what the writer assembles (floating-point numbers are left out). *)
Inductive pyval : Type :=
| VNone
| VBool (b : bool)
| VInt (z : Z)
| VStr (s : pystr)
| VList (l : list pyval)
| VDict (d : gmap pystr pyval).

Inductive exn : Type :=
| JSONDecodeError
| AttributeError
| TypeError
| ValueError (detail : list pystr)
| ValidationError.

Inductive result (A : Type) : Type :=
| Ok (a : A)
| Raise (e : exn).
Arguments Ok {A} a.
Arguments Raise {A} e.

#[global] Instance result_ret : MRet result := fun A a => Ok a.
#[global] Instance result_bind : MBind result := fun A B f m =>
  match m with
  | Ok a => f a
  | Raise e => Raise e
  end.

(** [len(v)] *)
Definition py_len (v : pyval) : result nat :=
  match v with
  | VStr s => Ok (length s)
  | VList l => Ok (length l)
  | VDict d => Ok (size d)
  | VNone | VBool _ | VInt _ => Raise TypeError
  end.

(** [bool(v)] *)
Definition truthy (v : pyval) : bool :=
  match v with
  | VNone => false
  | VBool b => b
  | VInt z => negb (z =? 0)%Z
  | VStr s => negb (Nat.eqb (length s) 0)
  | VList l => negb (Nat.eqb (length l) 0)
  | VDict d => negb (Nat.eqb (size d) 0)
  end.

(** [d.get(key, default)] *)
Definition dict_get (d : gmap pystr pyval) (key : pystr) (dflt : pyval) : pyval :=
  match d !! key with
  | Some v => v
  | None => dflt
  end.

(** The Unicode tables of the interpreter that [\w] and [\d] consult:
    [str.isalnum] and [str.isdecimal] of one character. *)
Class UnicodeDB : Type := {
  uni_isalnum : char -> bool;
  uni_isdecimal : char -> bool
}.

(** The tables restricted to ASCII; they agree with the interpreter's on
    text made of ASCII characters. *)
Definition ascii_db : UnicodeDB := {|
  uni_isalnum := fun c => is_lower_az c || is_upper_AZ c || is_digit09 c;
  uni_isdecimal := is_digit09
|}.

(** [\w] *)
Definition word_char `{UnicodeDB} (c : char) : bool := uni_isalnum c || (c =? 95)%N.

(** [.] without [re.DOTALL], and with it *)
Definition not_newline (c : char) : bool := negb (c =? NEWLINE)%N.
Definition re_dot : regex := Cls not_newline.
Definition re_any : regex := Cls (fun _ => true).

(** [\s*] *)
Definition re_spaces : regex := Star (Cls isspace).

Definition Seq (rs : list regex) : regex := fold_right Cat Eps rs.

Fixpoint Alts (rs : list regex) : regex :=
  match rs with
  | [] => Cls (fun _ => false)
  | [r] => r
  | r :: rs' => Alt r (Alts rs')
  end.

(** A lower-case ASCII letter of a pattern compiled with [re.IGNORECASE]:
    it matches both cases of the letter and the characters the [re] module
    folds to it (dotted and dotless i, long s, the Kelvin sign). *)
Definition ci_letter (c ch : char) : bool :=
  (ch =? c)%N || (ch =? c - 32)%N
  || ((c =? 105)%N && ((ch =? 0x130)%N || (ch =? 0x131)%N))
  || ((c =? 115)%N && (ch =? 0x17f)%N)
  || ((c =? 107)%N && (ch =? 0x212a)%N).

(** A literal of lower-case letters and spaces under [re.IGNORECASE]. *)
Fixpoint LitI (s : pystr) : regex :=
  match s with
  | [] => Eps
  | c :: s' => Cat (Cls (if is_lower_az c then ci_letter c else N.eqb c)) (LitI s')
  end.

(** ** JSON Schema

    The validation keywords of draft-07 that [META_SCHEMA] uses, as the
    [jsonschema] package applies them: a keyword constrains only the
    instances of the type it is about. *)

Inductive jtype : Type := JString | JArray | JObject | JNull | JBoolean | JInteger.

Inductive schema : Type :=
  MkSchema {
    sc_type : option jtype;
    sc_properties : list (pystr * schema);
    sc_items : option schema;
    sc_minItems : option nat;
    sc_maxItems : option nat;
    sc_minLength : option nat;
    sc_maxLength : option nat;
    sc_required : list pystr;
    sc_additionalProperties : bool   (* [false]: no other property allowed *)
  }.

Definition has_type (t : jtype) (v : pyval) : bool :=
  match t, v with
  | JString, VStr _ | JArray, VList _ | JObject, VDict _
  | JNull, VNone | JBoolean, VBool _ | JInteger, VInt _ => true
  | _, _ => false
  end.

Definition at_least (bound : option nat) (n : nat) : bool :=
  match bound with
  | Some k => (k <=? n)%nat
  | None => true
  end.

Definition at_most (bound : option nat) (n : nat) : bool :=
  match bound with
  | Some k => (n <=? k)%nat
  | None => true
  end.

Definition dict_keys (d : gmap pystr pyval) : list pystr := (map_to_list d).*1.

(** [valid sc v]: whether [jsonschema.validate(instance=v, schema=sc)]
    returns (rather than raising [ValidationError]). *)
Fixpoint valid (sc : schema) (v : pyval) {struct sc} : bool :=
  match sc with
  | MkSchema ty properties items minItems maxItems minLength maxLength required
      additional =>
      match ty with
      | Some t => has_type t v
      | None => true
      end
      &&
      match v with
      | VStr s => at_least minLength (length s) && at_most maxLength (length s)
      | VList l =>
          at_least minItems (length l) && at_most maxItems (length l)
          && match items with
             | Some sub => forallb (valid sub) l
             | None => true
             end
      | VDict d =>
          forallb (fun k => bool_decide (is_Some (d !! k))) required
          && forallb (fun kv : pystr * schema =>
                        match d !! kv.1 with
                        | Some v' => valid kv.2 v'
                        | None => true
                        end) properties
          && (additional
              || forallb (fun k => bool_decide (k ∈ properties.*1)) (dict_keys d))
      | VNone | VBool _ | VInt _ => true
      end
  end.

Definition schema_of_type (t : jtype) : schema :=
  MkSchema (Some t) [] None None None None None [] true.

(** ** utils.py: the metadata schema *)

Module UtilsSchema.

Definition META_SCHEMA : schema := {|
  sc_type := Some JObject;
  sc_properties :=
    [ (py "title", schema_of_type JString);
      (py "keywords",
        {| sc_type := Some JArray; sc_properties := [];
           sc_items := Some (schema_of_type JString);
           sc_minItems := Some 5; sc_maxItems := Some 5;
           sc_minLength := None; sc_maxLength := None;
           sc_required := []; sc_additionalProperties := true |});
      (py "description",
        {| sc_type := Some JString; sc_properties := [];
           sc_items := None; sc_minItems := None; sc_maxItems := None;
           sc_minLength := Some 155; sc_maxLength := Some 160;
           sc_required := []; sc_additionalProperties := true |});
      (py "platform", schema_of_type JString);
      (py "date", schema_of_type JString);
      (py "slug", schema_of_type JString) ];
  sc_items := None;
  sc_minItems := None; sc_maxItems := None;
  sc_minLength := None; sc_maxLength := None;
  sc_required :=
    [py "title"; py "keywords"; py "description"; py "platform"; py "date"; py "slug"];
  sc_additionalProperties := false
|}.

End UtilsSchema.

(** ** The world around the program *)

(** A request to the backend, [client.responses.create(model=..., input=...,
    temperature=..., max_output_tokens=...)].  The temperature is only
    carried to the backend. *)
Record request : Type := {
  rq_model : pystr;
  rq_input : pystr;
  rq_temperature : Q;
  rq_max_output_tokens : Z
}.

Definition path := list pystr.

(** What a run does, in order.  [CheckedRules] and [CheckedSchema] record
    that the two validators of a Meta object have run and what they said;
    the other events are the calls to the backend and the writes. *)
Inductive event : Type :=
| BackendCall (rq : request) (output_text : pystr)
| CheckedRules (meta : gmap pystr pyval) (errors : list pystr)
| CheckedSchema (meta : gmap pystr pyval) (ok : bool)
| MakeDirs (dir : path)
| WriteText (file : path) (content : pystr)
| WriteJson (file : path) (payload : gmap pystr pyval).

(** What the program does not decide: the answers of the backend (which may
    depend on the earlier calls), [json.loads] ([None] for
    [JSONDecodeError]), [str()] of a value that is not a string, and the
    date of the run in ISO format. *)
Class Env : Type := {
  backend : list event -> request -> pystr;
  json_loads : pystr -> option pyval;
  str_of_value : pyval -> pystr;
  today : pystr
}.

(** A computation that extends the trace and returns or raises. *)
Definition IO (A : Type) : Type := list event -> result A * list event.

#[global] Instance IO_ret : MRet IO := fun A a tr => (Ok a, tr).
#[global] Instance IO_bind : MBind IO := fun A B f m tr =>
  match m tr with
  | (Ok a, tr') => f a tr'
  | (Raise e, tr') => (Raise e, tr')
  end.

Definition raise {A : Type} (e : exn) : IO A := fun tr => (Raise e, tr).

Definition emit (e : event) : IO unit := fun tr => (Ok tt, tr ++ [e]).

Definition lift {A : Type} (r : result A) : IO A := fun tr => (r, tr).

Definition call_backend `{Env} (rq : request) : IO pystr := fun tr =>
  let output_text := backend tr rq in
  (Ok output_text, tr ++ [BackendCall rq output_text]).

(** The body of a [for] loop run on each item in turn, until one raises. *)
Fixpoint for_each {A : Type} (items : list A) (body : A -> IO unit) : IO unit :=
  match items with
  | [] => mret tt
  | item :: rest => body item ≫= fun _ => for_each rest body
  end.

(** [f"{v}"] *)
Definition format_value `{Env} (v : pyval) : pystr :=
  match v with
  | VStr s => s
  | _ => str_of_value v
  end.

(** [f"{n}"] for an integer *)
Definition format_int (n : Z) : pystr := py (NilZero.string_of_int (Z.to_int n)).

Definition quoted (s : pystr) : pystr := QUOTE :: s ++ [QUOTE].

(** [json.dumps(strings, indent=2)] for a non-empty list of strings that
    need no escaping, as the messages of [self_check] are. *)
Definition json_dumps_strings (strings : list pystr) : pystr :=
  py "[" ++ [NEWLINE]
  ++ join (py "," ++ [NEWLINE]) (map (fun s => py "  " ++ quoted s) strings)
  ++ [NEWLINE] ++ py "]".

(** ** writer.py *)

Module Writer.

Definition REQUIRED_HEADINGS : list pystr :=
  [py "# "; py "## Hook"; py "## Context"; py "## What to do next"; py "## Conclusion"].

(** The string literal that [self_check] looks for (line 125 of the
    source): the three characters U+00E2, U+20AC, U+201D. *)
Definition DASH_LITERAL : pystr := [0xe2; 0x20ac; 0x201d]%N.

Definition ERR_EM_DASH : pystr := py "Contains em dash.".
Definition ERR_MISSING_HEADING (heading : pystr) : pystr := py "Missing heading: " ++ heading.
Definition ERR_SECTIONS : pystr := py "Not enough section headings.".
Definition ERR_CHECKLIST : pystr := py "Checklist missing.".
Definition ERR_FAKE_CLAIM : pystr := py "Potential fabricated percentage claim.".

Section SelfCheck.
Context {db : UnicodeDB}.

(** [\b(we|our team|evolvra)\b.*\b(achieved|increased|grew|boosted)\b.*\d+%]
    with [re.IGNORECASE] *)
Definition re_fake_claim : regex :=
  Seq [ Bnd word_char;
        Alts [LitI (py "we"); LitI (py "our team"); LitI (py "evolvra")];
        Bnd word_char;
        Star re_dot;
        Bnd word_char;
        Alts [LitI (py "achieved"); LitI (py "increased"); LitI (py "grew");
              LitI (py "boosted")];
        Bnd word_char;
        Star re_dot;
        Plus (Cls uni_isdecimal);
        Lit (py "%") ].

(** One iteration of the loop over [REQUIRED_HEADINGS]. *)
Definition check_heading (article : pystr) (errors : list pystr) (heading : pystr)
  : list pystr :=
  if negb (str_in heading article)
  then errors ++ [ERR_MISSING_HEADING heading]
  else errors.

Definition self_check (article_markdown : pystr) : list pystr :=
  let errors := [] in
  let errors :=
    if str_in DASH_LITERAL article_markdown then errors ++ [ERR_EM_DASH] else errors in
  let errors := fold_left (check_heading article_markdown) REQUIRED_HEADINGS errors in
  let errors :=
    if (str_count (py "## ") article_markdown <? 6)%nat
    then errors ++ [ERR_SECTIONS] else errors in
  let errors :=
    if negb (str_in (py "- [ ]") article_markdown)
       && negb (str_in (py "- ") article_markdown)
    then errors ++ [ERR_CHECKLIST] else errors in
  let fake_claim := re_search re_fake_claim article_markdown in
  let errors :=
    match fake_claim with
    | Some _ => errors ++ [ERR_FAKE_CLAIM]
    | None => errors
    end in
  errors.

(** [validate_article_structure]: the same check, for the tests. *)
Definition validate_article_structure (article_markdown : pystr) : list pystr :=
  self_check article_markdown.
End SelfCheck.

(** [[,;]] *)
Definition re_comma_semicolon : regex :=
  Cls (fun c => (c =? 44)%N || (c =? 59)%N).

Definition nonempty (s : pystr) : bool := negb (Nat.eqb (length s) 0).

Definition _extract_meta (article_markdown : pystr) : list pystr * pystr :=
  let keyword_match :=
    re_search_group (Cat (Lit (py "SEO Keywords:")) re_spaces) (Plus re_dot)
      article_markdown in
  let description_match :=
    re_search_group (Cat (Lit (py "Meta Description:")) re_spaces) (Plus re_dot)
      article_markdown in
  let keywords :=
    match keyword_match with
    | Some raw =>
        List.filter nonempty (map strip (re_split re_comma_semicolon raw))
    | None => []
    end in
  let description :=
    match description_match with
    | Some d => strip d
    | None => []
    end in
  (take 5 keywords, description).

Definition _extract_social (article_markdown : pystr) : pystr :=
  let social_match :=
    re_search_group (Cat (Lit (py "Social Snippets:")) re_spaces) (Star re_any)
      article_markdown in
  match social_match with
  | Some t => strip t
  | None => []
  end.

Definition ERR_KEYWORDS : pystr := py "Keywords must include 5 items.".
Definition ERR_DESCRIPTION : pystr := py "Description must be 155-160 characters.".
Definition ERR_TITLE : pystr := py "Title missing.".

Definition validate_meta (meta : gmap pystr pyval) : result (list pystr) :=
  let errors := [] in
  n ← py_len (dict_get meta (py "keywords") (VList []));
  let errors := if negb (Nat.eqb n 5) then errors ++ [ERR_KEYWORDS] else errors in
  m ← py_len (dict_get meta (py "description") (VStr []));
  let errors :=
    if negb ((155 <=? m)%nat && (m <=? 160)%nat)
    then errors ++ [ERR_DESCRIPTION] else errors in
  let errors :=
    if negb (truthy (dict_get meta (py "title") VNone))
    then errors ++ [ERR_TITLE] else errors in
  mret errors.

Record GenerationConfig : Type := {
  model : pystr;
  max_output_tokens : Z;
  temperature : Q
}.

(** The entries of [config.yaml] that the program reads. *)
Record Config : Type := {
  company_name : pystr;
  company_description : pystr;
  author_bio : pystr;
  style_tone_rules : pystr;
  style_banned_phrases : list pystr;
  content_pillars : list pystr;
  generation : GenerationConfig
}.

(** The package [generate_package] returns. *)
Record package : Type := {
  article : pystr;
  social : pystr;
  meta : gmap pystr pyval
}.

Definition FALLBACK_KEYWORDS : list pystr :=
  [py "content systems"; py "AI automation"; py "digital marketing";
   py "CRM workflows"; py "operations"].

Section ContentWriter.
Context {db : UnicodeDB} {env : Env}.
Variable config : Config.

Definition completion_request (prompt : pystr) : request :=
  {| rq_model := model (generation config);
     rq_input := prompt;
     rq_temperature := temperature (generation config);
     rq_max_output_tokens := max_output_tokens (generation config) |}.

Definition _request_completion (prompt : pystr) : IO pystr :=
  output_text ← call_backend (completion_request prompt);
  mret (strip output_text).

(** The part of both prompts that presents the request and the company. *)
Definition prompt_context (topic : pyval) (audience platform : pystr) (words : Z)
    (tone : pystr) : pystr :=
  py "Topic: " ++ format_value topic ++ py "
Audience: " ++ audience ++ py "
Platform: " ++ platform ++ py "
Target length: " ++ format_int words ++ py " words
Tone: " ++ tone ++ py "

Company description: " ++ company_description config ++ py "
Author bio: " ++ author_bio config ++ py "
Tone rules: " ++ style_tone_rules config ++ py "
Banned phrases: " ++ join (py ", ") (style_banned_phrases config) ++ py "
".

Definition outline_prompt (topic : pyval) (audience platform : pystr) (words : Z)
    (tone : pystr) : pystr :=
    py "
You are an expert content strategist writing for " ++ company_name config
    ++ py ". Create a detailed outline.

" ++ prompt_context topic audience platform words tone ++ py "
Requirements:
- Provide a structured outline with headings and subheadings.
- Include 3-5 section headings with subheadings.
- Include specific examples but do not invent client names or results.
- Add one mini-case or scenario relevant to Evolvra clients.
- Add a checklist titled " ++ quoted (py "What to do next") ++ py " with 5 bullet items.
- Provide 5 SEO keywords and a meta description of 155-160 characters.
- Provide 3 social snippets (LinkedIn, Facebook, Instagram caption) with CTA.
- Avoid em dashes.
Return the outline in Markdown.
".

Definition generate_outline (topic : pyval) (audience platform : pystr) (words : Z)
    (tone : pystr) : IO pystr :=
  let prompt := outline_prompt topic audience platform words tone in
  _request_completion prompt.

Definition article_prompt (outline : pystr) (topic : pyval)
    (audience platform : pystr) (words : Z) (tone : pystr) : pystr :=
    py "
You are an expert writer for " ++ company_name config
    ++ py ". Expand the outline into a full article.

" ++ prompt_context topic audience platform words tone ++ py "
Outline:
" ++ outline ++ py "

Article requirements:
- Must include Hook, Context, 3-5 sections with subheadings, examples, a mini-case scenario, a "
    ++ quoted (py "What to do next") ++ py " checklist, and a short Conclusion.
- Provide SEO keywords and meta description near the end in a clearly labeled section.
- Provide 3 social snippets at the end in a clearly labeled section.
- Avoid em dashes.
- Never invent client names or results. Use hypotheses or best practices.
- Avoid statistics unless provided in the outline.
Return the full article in Markdown.
".

Definition generate_article (outline : pystr) (topic : pyval)
    (audience platform : pystr) (words : Z) (tone : pystr) : IO pystr :=
  let prompt := article_prompt outline topic audience platform words tone in
  _request_completion prompt.

Definition revise_prompt (article_markdown : pystr) (errors : list pystr) : pystr :=
    py "
Revise the following article to fix these issues:
" ++ json_dumps_strings errors ++ py "

Rules:
- Keep the required structure and headings.
- Remove em dashes.
- Remove any fabricated claims.
- Preserve the SEO keywords and meta description if they are valid.
- Return only the revised Markdown article.

Article:
" ++ article_markdown ++ py "
".

Definition revise_article (article_markdown : pystr) (errors : list pystr) : IO pystr :=
  let prompt := revise_prompt article_markdown errors in
  _request_completion prompt.

Definition generate_package (topic : pyval) (audience platform : pystr) (words : Z)
    (tone : pystr) : IO package :=
  outline ← generate_outline topic audience platform words tone;
  article ← generate_article outline topic audience platform words tone;
  let errors := self_check article in
  article ← match errors with
            | _ :: _ => revise_article article errors
            | [] => mret article
            end;
  let '(keywords, description) := _extract_meta article in
  let social := _extract_social article in
  mret {| article := article;
          social := social;
          meta :=
            <[py "title" := topic]>
            (<[py "keywords" :=
                 VList (VStr <$> match keywords with
                                 | _ :: _ => keywords
                                 | [] => FALLBACK_KEYWORDS
                                 end)]>
            (<[py "description" := VStr description]>
            (<[py "platform" := VStr platform]>
            (<[py "slug" := VStr []]> ∅)))) |}.
End ContentWriter.

End Writer.

(** ** topics.py *)

Module Topics.

Section Topics.
Context {env : Env}.

(** [{.*}] with [re.DOTALL] *)
Definition re_braces : regex := Seq [Lit (py "{"); Star re_any; Lit (py "}")].

Definition topics_prompt (pillars : list pystr) (count : Z) : pystr :=
  py "
Generate a ranked list of " ++ format_int count ++ py " content topic ideas.
Pillars: " ++ join (py ", ") pillars ++ py "

Return JSON only in this format:
{
  " ++ quoted (py "topics") ++ py ": [
    {" ++ quoted (py "title") ++ py ": " ++ quoted (py "...") ++ py ", "
    ++ quoted (py "angle") ++ py ": " ++ quoted (py "...") ++ py "}
  ]
}
Keep angles short and practical.
Avoid em dashes.
".

Definition topics_request (pillars : list pystr) (count : Z) (model : pystr)
    (temperature : Q) : request :=
  let prompt := topics_prompt pillars count in
  {| rq_model := model; rq_input := prompt; rq_temperature := temperature;
     rq_max_output_tokens := 600 |}.

(** [payload.get("topics", [])] *)
Definition payload_topics (payload : pyval) : IO pyval :=
  match payload with
  | VDict d => mret (dict_get d (py "topics") (VList []))
  | _ => raise AttributeError
  end.

Definition generate_topics (pillars : list pystr) (count : Z) (model : pystr)
    (temperature : Q) : IO pyval :=
  output_text ← call_backend (topics_request pillars count model temperature);
  let raw := strip output_text in
  match json_loads raw with
  | Some payload => payload_topics payload
  | None =>
      match re_search re_braces raw with
      | None => mret (VList [])
      | Some group0 =>
          match json_loads group0 with
          | Some payload => payload_topics payload
          | None => raise JSONDecodeError
          end
      end
  end.
End Topics.

End Topics.

(** ** content_bot.py *)

Module ContentBot.

(** The command-line arguments the two runs read. *)
Record Args : Type := {
  topic : pystr;
  audience : pystr;
  platform : pystr;
  words : Z;
  tone : pystr;
  count : Z
}.

Section ContentBot.
Context {db : UnicodeDB} {env : Env}.

(** [get_output_dir(base_dir, topic=topic)] of utils.py, with the date of
    the run. *)
Definition get_output_dir (base_dir : pystr) (topic : pystr) : path :=
  let base_path := [base_dir; today] in
  match topic with
  | _ :: _ => base_path ++ [Utils.slugify topic]
  | [] => base_path
  end.

Definition write_outputs (base_dir : path) (article social : pystr)
    (meta : gmap pystr pyval) : IO unit :=
  emit (MakeDirs base_dir);;
  emit (WriteText (base_dir ++ [py "article.md"]) article);;
  emit (WriteText (base_dir ++ [py "social.md"]) social);;
  emit (WriteJson (base_dir ++ [py "meta.json"]) meta).

Definition validate_meta_schema (meta : gmap pystr pyval) : IO unit :=
  let ok := valid UtilsSchema.META_SCHEMA (VDict meta) in
  emit (CheckedSchema meta ok);;
  if ok then mret tt else raise ValidationError.

(** [slugify(topic)]: [re.sub] raises [TypeError] on what is not a string. *)
Definition slugify_value (topic : pyval) : IO pystr :=
  match topic with
  | VStr s => mret (Utils.slugify s)
  | _ => raise TypeError
  end.

(** The steps both runs apply to a generated package: fill in the slug and
    the date, validate, write. *)
Definition finish_package (topic : pyval) (payload : Writer.package) : IO unit :=
  slug ← slugify_value topic;
  let meta := <[py "date" := VStr today]>
              (<[py "slug" := VStr slug]> (Writer.meta payload)) in
  meta_errors ← lift (Writer.validate_meta meta);
  emit (CheckedRules meta meta_errors);;
  match meta_errors with
  | _ :: _ => raise (ValueError meta_errors)
  | [] =>
      validate_meta_schema meta;;
      let output_dir :=
        get_output_dir (py "outputs")
          match topic with VStr s => s | _ => [] end in
      write_outputs output_dir (Writer.article payload) (Writer.social payload) meta
  end.

Definition run_single (args : Args) (config : Writer.Config) : IO unit :=
  payload ← Writer.generate_package config (VStr (topic args)) (audience args)
              (platform args) (words args) (tone args);
  finish_package (VStr (topic args)) payload.

(** [for item in topics]: the items of a list, the keys of a dictionary,
    the characters of a string; other values are not iterable. *)
Definition iterate (v : pyval) : IO (list pyval) :=
  match v with
  | VList l => mret l
  | VDict d => mret (VStr <$> dict_keys d)
  | VStr s => mret ((fun c => VStr [c]) <$> s)
  | VNone | VBool _ | VInt _ => raise TypeError
  end.

(** [item.get("title", "Untitled topic")] *)
Definition item_title (item : pyval) : IO pyval :=
  match item with
  | VDict d => mret (dict_get d (py "title") (VStr (py "Untitled topic")))
  | _ => raise AttributeError
  end.

Definition run_calendar (args : Args) (config : Writer.Config) : IO unit :=
  let pillars := Writer.content_pillars config in
  topics ← Topics.generate_topics pillars (count args)
             (Writer.model (Writer.generation config))
             (Writer.temperature (Writer.generation config));
  items ← iterate topics;
  for_each items (fun item =>
    topic ← item_title item;
    payload ← Writer.generate_package config topic (audience args)
                (platform args) (words args) (tone args);
    finish_package topic payload).
End ContentBot.

End ContentBot.

(** ** content_bot.py: the entry point *)

Module EntryPoint.

(** The choices of [--calendar]. *)
Inductive calendar_choice : Type := weekly | monthly.

(** The namespace [parse_args] returns; [--topic] and [--calendar] are
    [None] unless given on the command line. *)
Record Namespace : Type := {
  topic : option pystr;
  audience : pystr;
  platform : pystr;
  words : Z;
  tone : pystr;
  calendar : option calendar_choice;
  count : Z;
  config : pystr
}.

(** What [main] asks of the machine it runs on: the text of a file ([None]
    when [open] raises), the document [yaml.safe_load] reads from a text
    ([None] when it raises; [Some None] for a document that counts as
    false, such as that of an empty file; a document that counts as true is
    taken to hold the entries the program reads), whether a path exists,
    and whether [OPENAI_API_KEY] is in the environment. *)
Class Host : Type := {
  open_text : pystr -> option pystr;
  yaml_safe_load : pystr -> option (option Writer.Config);
  path_exists : pystr -> bool;
  has_api_key : bool
}.

(** What [main] lets through: the exceptions of [load_config] and those of
    the runs. *)
Inductive uncaught : Type :=
| OSError
| YAMLError
| RunError (e : exn).

Inductive exit : Type :=
| Return (status : Z)
| Uncaught (e : uncaught).

(** How a call of [main] ends: its exit, the lines it printed, the trace. *)
Record finished : Type := {
  outcome : exit;
  printed : list pystr;
  trace : list event
}.

Definition MSG_EMPTY : pystr := py "Config not found or empty.".
Definition MSG_NO_MODE : pystr := py "Provide --topic or --calendar.".
Definition MSG_MISSING : pystr := py "Config file missing.".
Definition MSG_NO_KEY : pystr := py "Missing OPENAI_API_KEY environment variable.".

Section EntryPoint.
Context {db : UnicodeDB} {env : Env} {host : Host}.

Definition load_config (config_path : pystr) : uncaught + option Writer.Config :=
  match open_text config_path with
  | None => inl OSError
  | Some handle =>
      match yaml_safe_load handle with
      | None => inl YAMLError
      | Some document => inr document
      end
  end.

(** [bool(args.topic)] and [bool(args.calendar)] *)
Definition topic_given (args : Namespace) : bool :=
  match topic args with
  | Some (_ :: _) => true
  | _ => false
  end.

Definition calendar_given (args : Namespace) : bool :=
  match calendar args with
  | Some _ => true
  | None => false
  end.

(** The attributes of the namespace that the runs read. *)
Definition run_args (args : Namespace) : ContentBot.Args := {|
  ContentBot.topic := default [] (topic args);
  ContentBot.audience := audience args;
  ContentBot.platform := platform args;
  ContentBot.words := words args;
  ContentBot.tone := tone args;
  ContentBot.count := count args
|}.

(** [print(message); return 1] *)
Definition stop (message : pystr) (tr : list event) : finished :=
  {| outcome := Return 1; printed := [message]; trace := tr |}.

(** The two runs of [main], each if requested. *)
Definition runs (args : Namespace) (loaded : Writer.Config) : IO unit :=
  (if topic_given args then ContentBot.run_single (run_args args) loaded else mret tt);;
  (if calendar_given args then ContentBot.run_calendar (run_args args) loaded
   else mret tt).

(** [main], from the parsed arguments on.  The writer of each run reads
    the configuration file again; it is taken to find what [main] loaded. *)
Definition main (args : Namespace) (tr : list event) : finished :=
  match load_config (config args) with
  | inl e => {| outcome := Uncaught e; printed := []; trace := tr |}
  | inr None => stop MSG_EMPTY tr
  | inr (Some loaded) =>
      if negb (topic_given args) && negb (calendar_given args) then stop MSG_NO_MODE tr
      else if negb (path_exists (config args)) then stop MSG_MISSING tr
      else if negb has_api_key then stop MSG_NO_KEY tr
      else
        match runs args loaded tr with
        | (Ok _, tr') => {| outcome := Return 0; printed := []; trace := tr' |}
        | (Raise e, tr') =>
            {| outcome := Uncaught (RunError e); printed := []; trace := tr' |}
        end
  end.
End EntryPoint.

End EntryPoint.

(** * Specification vocabulary

    Functions and predicates the statements and their proofs use. *)

(** ** Runs of a character class *)

(** What a greedy repetition of the class [p] leaves of [s]. *)
Fixpoint drop_run (p : char -> bool) (s : pystr) : pystr :=
  match s with
  | c :: s' => if p c then drop_run p s' else s
  | [] => []
  end.

(** [squeeze p repl inrun s]: every run of [p]-characters of [s] becomes one
    [repl]; [inrun] tells that the run at the front has been replaced
    already. *)
Fixpoint squeeze (p : char -> bool) (repl : pystr) (inrun : bool) (s : pystr) : pystr :=
  match s with
  | [] => []
  | c :: s' =>
      if p c then (if inrun then [] else repl) ++ squeeze p repl true s'
      else c :: squeeze p repl false s'
  end.

(** The text [slugify] computes before its fallback, in terms of [squeeze]. *)
Definition slug_text (x : pystr) : pystr :=
  squeeze Utils.slug_sep (py "-") false
    (lower (strip (List.filter Utils.slug_keep x))).

(** ** The inputs of the tests *)

(** The article of [test_markdown_section_presence]. *)
Definition sample_article : pystr :=
  py "
# Title
## Hook
Opening hook.
## Context
Context section.
## Section One
Details.
## Section Two
Details.
## Section Three
Details.
## What to do next
- Do this
- Do that
## Conclusion
Wrap-up.
SEO Keywords: one, two, three, four, five
Meta Description: " ++ repeat 120%N 155 ++ py "
Social Snippets:
LinkedIn: ...
".

(** [s.replace(sub, "", 1)]: [s] without the first occurrence of [sub]. *)
Fixpoint remove_first (sub s : pystr) : pystr :=
  if startswith sub s then drop (length sub) s
  else match s with
       | [] => []
       | c :: s' => c :: remove_first sub s'
       end.

(** The em dash, U+2014. *)
Definition EM_DASH : char := 0x2014%N.

(** The sample article with an em dash in its last paragraph. *)
Definition sample_with_em_dash : pystr :=
  sample_article ++ py "A closing remark " ++ [EM_DASH] ++ py " with a dash." ++ [NEWLINE].

(** The sample article without its title line. *)
Definition sample_without_title : pystr :=
  remove_first (py "# Title" ++ [NEWLINE]) sample_article.

(** A Meta object with its six fields. *)
Definition meta_of (title : pystr) (keywords : list pystr)
    (description platform date slug : pystr) : gmap pystr pyval :=
  <[py "title" := VStr title]>
  (<[py "keywords" := VList (VStr <$> keywords)]>
  (<[py "description" := VStr description]>
  (<[py "platform" := VStr platform]>
  (<[py "date" := VStr date]>
  (<[py "slug" := VStr slug]> ∅))))).

(** The meta object of [test_meta_schema_validity]. *)
Definition sample_meta : gmap pystr pyval :=
  meta_of (py "Test") [py "one"; py "two"; py "three"; py "four"; py "five"]
    (repeat 120%N 155) (py "linkedin") (py "2024-01-02") (py "test").

(** The six keys of a Meta object. *)
Definition META_KEYS : list pystr :=
  [py "title"; py "keywords"; py "description"; py "platform"; py "date"; py "slug"].

(** ** Traces and packages *)

(** The calls to the backend in a trace. *)
Definition is_backend_call (e : event) : bool :=
  match e with
  | BackendCall _ _ => true
  | _ => false
  end.

Definition backend_calls (tr : list event) : nat :=
  length (List.filter is_backend_call tr).

(** The values [len] accepts. *)
Definition sized (v : pyval) : bool :=
  match v with
  | VStr _ | VList _ | VDict _ => true
  | VNone | VBool _ | VInt _ => false
  end.

(** The meta object [generate_package] assembles for an article. *)
Definition package_of (topic : pyval) (platform article : pystr) : Writer.package :=
  let keywords := (Writer._extract_meta article).1 in
  let description := (Writer._extract_meta article).2 in
  {| Writer.article := article;
     Writer.social := Writer._extract_social article;
     Writer.meta :=
       <[py "title" := topic]>
       (<[py "keywords" :=
            VList (VStr <$> match keywords with
                            | _ :: _ => keywords
                            | [] => Writer.FALLBACK_KEYWORDS
                            end)]>
       (<[py "description" := VStr description]>
       (<[py "platform" := VStr platform]>
       (<[py "slug" := VStr []]> ∅)))) |}.

(** ** A reference JSON loader

    An instance of [json.loads] for the examples: it reads the JSON texts
    made of objects, arrays, strings with the short escapes, integers,
    [true], [false] and [null], and rejects every other text. *)

Definition json_ws (c : char) : bool :=
  (c =? 32)%N || (c =? 9)%N || (c =? 10)%N || (c =? 13)%N.

Fixpoint skip_ws (s : pystr) : pystr :=
  match s with
  | c :: s' => if json_ws c then skip_ws s' else s
  | [] => []
  end.

Definition unescape (c : char) : option char :=
  if (c =? 34)%N || (c =? 92)%N || (c =? 47)%N then Some c
  else if (c =? 98)%N then Some 8%N
  else if (c =? 102)%N then Some 12%N
  else if (c =? 110)%N then Some 10%N
  else if (c =? 114)%N then Some 13%N
  else if (c =? 116)%N then Some 9%N
  else None.

(** The rest of a string literal, after its opening quote. *)
Fixpoint parse_string (s acc : pystr) : option (pystr * pystr) :=
  match s with
  | [] => None
  | c :: rest =>
      if (c =? QUOTE)%N then Some (rev acc, rest)
      else if (c =? 92)%N then
        match rest with
        | e :: rest' =>
            match unescape e with
            | Some d => parse_string rest' (d :: acc)
            | None => None
            end
        | [] => None
        end
      else if (c <? 32)%N then None
      else parse_string rest (c :: acc)
  end.

Fixpoint parse_digits (s : pystr) (acc : Z) : Z * pystr :=
  match s with
  | c :: rest =>
      if is_digit09 c then parse_digits rest (10 * acc + Z.of_N (c - 48))%Z
      else (acc, s)
  | [] => (acc, [])
  end.

(** An integer: an optional sign, then [0] or digits without a leading
    zero; a fraction or an exponent is refused. *)
Definition parse_int (s : pystr) : option (pyval * pystr) :=
  let '(neg, body) :=
    match s with
    | c :: rest => if (c =? HYPHEN)%N then (true, rest) else (false, s)
    | [] => (false, s)
    end in
  match body with
  | d :: rest =>
      if is_digit09 d then
        let '(n, rest') :=
          if (d =? 48)%N then (0%Z, rest) else parse_digits body 0%Z in
        match rest' with
        | c :: _ =>
            if is_digit09 c || (c =? 46)%N || (c =? 101)%N || (c =? 69)%N
            then None
            else Some (VInt (if neg then - n else n)%Z, rest')
        | [] => Some (VInt (if neg then - n else n)%Z, rest')
        end
      else None
  | [] => None
  end.

Inductive jmode : Type :=
| JValue
| JMembers (d : gmap pystr pyval)
| JElements (acc : list pyval).

Fixpoint parse_json (fuel : nat) (mode : jmode) (s : pystr) : option (pyval * pystr) :=
  match fuel with
  | O => None
  | S fuel' =>
      match mode with
      | JValue =>
          match skip_ws s with
          | [] => None
          | c :: s1 =>
              if (c =? 123)%N then
                match skip_ws s1 with
                | c' :: s2 =>
                    if (c' =? 125)%N then Some (VDict ∅, s2)
                    else parse_json fuel' (JMembers ∅) s1
                | [] => None
                end
              else if (c =? 91)%N then
                match skip_ws s1 with
                | c' :: s2 =>
                    if (c' =? 93)%N then Some (VList [], s2)
                    else parse_json fuel' (JElements []) s1
                | [] => None
                end
              else if (c =? QUOTE)%N then
                match parse_string s1 [] with
                | Some (str, rest) => Some (VStr str, rest)
                | None => None
                end
              else if startswith (py "true") (c :: s1) then Some (VBool true, drop 3 s1)
              else if startswith (py "false") (c :: s1) then Some (VBool false, drop 4 s1)
              else if startswith (py "null") (c :: s1) then Some (VNone, drop 3 s1)
              else parse_int (c :: s1)
          end
      | JMembers d =>
          match skip_ws s with
          | c :: s1 =>
              if (c =? QUOTE)%N then
                match parse_string s1 [] with
                | Some (key, s2) =>
                    match skip_ws s2 with
                    | c2 :: s3 =>
                        if (c2 =? 58)%N then
                          match parse_json fuel' JValue s3 with
                          | Some (v, s4) =>
                              match skip_ws s4 with
                              | c4 :: s5 =>
                                  if (c4 =? 44)%N
                                  then parse_json fuel' (JMembers (<[key := v]> d)) s5
                                  else if (c4 =? 125)%N
                                  then Some (VDict (<[key := v]> d), s5)
                                  else None
                              | [] => None
                              end
                          | None => None
                          end
                        else None
                    | [] => None
                    end
                | None => None
                end
              else None
          | [] => None
          end
      | JElements acc =>
          match parse_json fuel' JValue s with
          | Some (v, s1) =>
              match skip_ws s1 with
              | c :: s2 =>
                  if (c =? 44)%N then parse_json fuel' (JElements (acc ++ [v])) s2
                  else if (c =? 93)%N then Some (VList (acc ++ [v]), s2)
                  else None
              | [] => None
              end
          | None => None
          end
      end
  end.

Definition json_loads_basic (s : pystr) : option pyval :=
  match parse_json (2 * length s + 2) JValue s with
  | Some (v, rest) =>
      match skip_ws rest with
      | [] => Some v
      | _ :: _ => None
      end
  | None => None
  end.

(** The environment of the examples: a scripted backend, the reference
    loader, a fixed date; the topics of the examples are strings, so that
    [str()] of another value is never asked for. *)
Definition demo_env (script : list event -> request -> pystr) : Env := {|
  backend := script;
  json_loads := json_loads_basic;
  str_of_value := fun _ => py "<value>";
  today := py "2024-01-02"
|}.

Definition demo_config : Writer.Config := {|
  Writer.company_name := py "Evolvra";
  Writer.company_description := py "Automation studio";
  Writer.author_bio := py "The Evolvra team";
  Writer.style_tone_rules := py "plain";
  Writer.style_banned_phrases := [py "game changer"; py "synergy"];
  Writer.content_pillars := [py "AI automation"; py "CRM workflows"];
  Writer.generation :=
    {| Writer.model := py "gpt-4o-mini"; Writer.max_output_tokens := 2000;
       Writer.temperature := 0.7%Q |}
|}.

(** ** The order of validation and writing

    Where a run stands for the item it is working on: nothing validated
    yet, the rule-based validator passed on [m], the schema validator
    passed after it on the same [m], or the run stopped on a failed
    validation with the exception it raises. *)
Inductive phase : Type :=
| Idle
| RulesPassed (m : gmap pystr pyval)
| SchemaPassed (m : gmap pystr pyval)
| Stopped (e : exn).

(** The events each phase admits.  A check event carries what the validator
    really answers; the schema validator runs only after the rules passed;
    directories and files are written only after both passed, and the Meta
    written is the validated one; nothing follows a failed validation. *)
Inductive step : phase -> event -> phase -> Prop :=
| step_call rq out :
    step Idle (BackendCall rq out) Idle
| step_next_item m rq out :
    step (SchemaPassed m) (BackendCall rq out) Idle
| step_rules_pass m :
    Writer.validate_meta m = Ok [] ->
    step Idle (CheckedRules m []) (RulesPassed m)
| step_rules_fail m e es :
    Writer.validate_meta m = Ok (e :: es) ->
    step Idle (CheckedRules m (e :: es)) (Stopped (ValueError (e :: es)))
| step_schema_pass m :
    valid UtilsSchema.META_SCHEMA (VDict m) = true ->
    step (RulesPassed m) (CheckedSchema m true) (SchemaPassed m)
| step_schema_fail m :
    valid UtilsSchema.META_SCHEMA (VDict m) = false ->
    step (RulesPassed m) (CheckedSchema m false) (Stopped ValidationError)
| step_mkdir m dir :
    step (SchemaPassed m) (MakeDirs dir) (SchemaPassed m)
| step_write_text m file content :
    step (SchemaPassed m) (WriteText file content) (SchemaPassed m)
| step_write_json m file :
    step (SchemaPassed m) (WriteJson file m) (SchemaPassed m).

Inductive steps : phase -> list event -> phase -> Prop :=
| steps_nil ph : steps ph [] ph
| steps_cons ph e ph' tr ph'' :
    step ph e ph' -> steps ph' tr ph'' -> steps ph (e :: tr) ph''.

(** The phases in which a run may start on an item. *)
Definition between_items (ph : phase) : Prop :=
  match ph with
  | Idle | SchemaPassed _ => True
  | RulesPassed _ | Stopped _ => False
  end.

(** The events that create a directory or write a file. *)
Definition is_output (e : event) : bool :=
  match e with
  | MakeDirs _ | WriteText _ _ | WriteJson _ _ => true
  | _ => false
  end.

(** The outcome of a run against the phase its trace ends in: a run that
    returns has validated and written its last item, if any; a run stopped
    by a validator raises what the validator raised. *)
Definition outcome_fits (r : result unit) (ph : phase) : Prop :=
  match r, ph with
  | _, (Idle | SchemaPassed _) => True
  | Raise e, Stopped e' => e = e'
  | _, _ => False
  end.

(** Every Meta written in [new] passes both validators, and was checked by
    the rule-based one, then by the schema one, before anything was
    written for it. *)
Definition writes_validated (new : list event) : Prop :=
  forall pre file m post,
    new = pre ++ WriteJson file m :: post ->
    Writer.validate_meta m = Ok []
    /\ valid UtilsSchema.META_SCHEMA (VDict m) = true
    /\ exists before outputs,
         pre = before ++ CheckedRules m [] :: CheckedSchema m true :: outputs
         /\ Forall (fun e => is_output e = true) outputs.

(** A rule-based check that reports errors is the last event of the run,
    which raises [ValueError] with these errors. *)
Definition rule_failure_is_final (new : list event) (r : result unit) : Prop :=
  forall pre m e es post,
    new = pre ++ CheckedRules m (e :: es) :: post ->
    post = [] /\ r = Raise (ValueError (e :: es))
    /\ Writer.validate_meta m = Ok (e :: es).

(** ** Scripted runs *)

(** A backend that answers the outline request with a short outline and
    every later request with [article]. *)
Definition scripted_backend (article : pystr) (tr : list event) (rq : request) : pystr :=
  match backend_calls tr with
  | O => py "1. Hook 2. Context 3. Sections"
  | S _ => article
  end.

Definition demo_args : ContentBot.Args := {|
  ContentBot.topic := py "My Topic";
  ContentBot.audience := py "Business owners and marketing leads";
  ContentBot.platform := py "linkedin";
  ContentBot.words := 1200;
  ContentBot.tone := py "smart, friendly, practical";
  ContentBot.count := 4
|}.

(** What a run has written: the files, in order. *)
Definition written_files (tr : list event) : list path :=
  flat_map (fun e => match e with
                     | WriteText file _ | WriteJson file _ => [file]
                     | _ => []
                     end) tr.

(** ** The end-to-end scenario *)

(** [s.find(sub)], with [None] for [-1]. *)
Fixpoint str_find (sub s : pystr) : option nat :=
  if startswith sub s then Some 0
  else match s with
       | [] => None
       | _ :: s' => option_map S (str_find sub s')
       end.

(** The longest prefix of [s] made of characters of the class [p]. *)
Fixpoint take_run (p : char -> bool) (s : pystr) : pystr :=
  match s with
  | c :: s' => if p c then c :: take_run p s' else []
  | [] => []
  end.

(** The text of [s] up to the end of its first line. *)
Definition first_line (s : pystr) : pystr := take_run not_newline s.

(** What follows the first occurrence of [label] in [article], blanks and
    line breaks skipped, up to the end of the line. *)
Definition labelled_text (label article : pystr) : option pystr :=
  match str_find label article with
  | Some n => Some (first_line (lstrip (drop (n + length label) article)))
  | None => None
  end.

(** A term of a list separated by commas: neither blank nor holding a
    comma or a semicolon. *)
Definition is_term (t : pystr) : bool :=
  forallb (fun c => negb ((c =? 44)%N || (c =? 59)%N)) t
  && Writer.nonempty (strip t).

(** The complete article of the end-to-end scenario: the five headings, at
    least seven section markers, a bullet, a keywords line of five
    comma-separated terms, a description line of 155 characters, the social
    section. *)
Definition complete_article (article : pystr) (terms : list pystr)
    (description : pystr) : Prop :=
  forallb (fun h => str_in h article) Writer.REQUIRED_HEADINGS = true
  /\ 7 <= str_count (py "## ") article
  /\ str_in (py "- ") article = true
  /\ labelled_text (py "SEO Keywords:") article = Some (join (py ",") terms)
  /\ length terms = 5
  /\ forallb is_term terms = true
  /\ labelled_text (py "Meta Description:") article = Some description
  /\ length description = 155
  /\ str_in (py "Social Snippets:") article = true.

(** The sample article with a sentence that claims a result. *)
Definition sample_with_claim : pystr :=
  sample_article ++ py "We increased revenue by 40% last year." ++ [NEWLINE].

(** The character before the position that follows the literal [l]. *)
Fixpoint prev_after (l : pystr) (prev : option char) : option char :=
  match l with
  | [] => prev
  | c :: l' => prev_after l' (Some c)
  end.

(** [re.split] by a class of separators, as a recursion on the text. *)
Fixpoint split_cls (q : char -> bool) (s cur : pystr) : list pystr :=
  match s with
  | [] => [rev cur]
  | c :: s' => if q c then rev cur :: split_cls q s' [] else split_cls q s' (c :: cur)
  end.

(** A backend for calendar runs: the first answer is [topics_text], every
    later one is [article]. *)
Definition calendar_backend (topics_text article : pystr) (tr : list event)
    (rq : request) : pystr :=
  match backend_calls tr with
  | O => topics_text
  | S _ => article
  end.

(** Two topics, as JSON. *)
Definition two_topics : pystr :=
  py "{" ++ quoted (py "topics") ++ py ": [{" ++ quoted (py "title") ++ py ": "
  ++ quoted (py "First Topic") ++ py ", " ++ quoted (py "angle") ++ py ": "
  ++ quoted (py "a") ++ py "}, {" ++ quoted (py "title") ++ py ": "
  ++ quoted (py "Second Topic") ++ py ", " ++ quoted (py "angle") ++ py ": "
  ++ quoted (py "b") ++ py "}]}".


(** ** The messages of [self_check] *)

(** Every message [self_check] can report, in the order of its checks. *)
Definition ALL_MESSAGES : list pystr :=
  [Writer.ERR_EM_DASH]
  ++ map Writer.ERR_MISSING_HEADING Writer.REQUIRED_HEADINGS
  ++ [Writer.ERR_SECTIONS; Writer.ERR_CHECKLIST; Writer.ERR_FAKE_CLAIM].

(** ** Extracted metadata *)

(** A keyword as [_extract_meta] returns it: not empty, trimmed, on one
    line, without comma or semicolon. *)
Definition clean_keyword (k : pystr) : Prop :=
  k <> [] /\ strip k = k
  /\ Forall (fun c => c <> NEWLINE /\ c <> 44%N /\ c <> 59%N) k.

(** ** The Meta of a run *)

(** The keywords [generate_package] puts in the Meta for an article. *)
Definition package_keywords (article : pystr) : list pystr :=
  match (Writer._extract_meta article).1 with
  | [] => Writer.FALLBACK_KEYWORDS
  | _ :: _ => (Writer._extract_meta article).1
  end.

(** The Meta a run validates and writes for a topic and an article. *)
Definition run_meta `{Env} (topic platform article : pystr) : gmap pystr pyval :=
  meta_of topic (package_keywords article) (Writer._extract_meta article).2
    platform today (Utils.slugify topic).

(** Whether a run ended on the exception of the schema validator. *)
Definition raises_validation_error (r : result unit) : bool :=
  match r with
  | Raise ValidationError => true
  | _ => false
  end.

(** The events of a successful item: both validations, then the directory
    and the three files. *)
Definition item_events (m : gmap pystr pyval) (dir : path) (article social : pystr)
    : list event :=
  [CheckedRules m []; CheckedSchema m true; MakeDirs dir;
   WriteText (dir ++ [py "article.md"]) article;
   WriteText (dir ++ [py "social.md"]) social;
   WriteJson (dir ++ [py "meta.json"]) m].

(** One item of the calendar. *)
Definition calendar_item `{UnicodeDB} `{Env} (args : ContentBot.Args) (config : Writer.Config)
    (item : pyval) : IO unit :=
  ContentBot.item_title item ≫= fun topic =>
  Writer.generate_package config topic (ContentBot.audience args)
    (ContentBot.platform args) (ContentBot.words args) (ContentBot.tone args)
  ≫= ContentBot.finish_package topic.

(** A list of topics, as opposed to another JSON value. *)
Definition is_list (v : pyval) : bool :=
  match v with
  | VList _ => true
  | _ => false
  end.

(** The items of [two_topics]. *)
Definition two_topic_items : list pyval :=
  [VDict (<[py "title" := VStr (py "First Topic")]>
            (<[py "angle" := VStr (py "a")]> ∅));
   VDict (<[py "title" := VStr (py "Second Topic")]>
            (<[py "angle" := VStr (py "b")]> ∅))].

(** ** The span of braces *)

(** The last success of [k] on a suffix of [s], trying the shortest suffix
    first: what a greedy [.*] followed by [k] finds. *)
Fixpoint last_success {A : Type} (k : pystr -> option A) (s : pystr) : option A :=
  match s with
  | [] => k []
  | c :: s' =>
      match last_success k s' with
      | Some x => Some x
      | None => k s
      end
  end.

Definition OPEN_BRACE : char := 123%N.
Definition CLOSE_BRACE : char := 125%N.

(** What follows a closing brace at the front of [t]. *)
Definition after_close (t : pystr) : option pystr :=
  if startswith [CLOSE_BRACE] t then Some (drop 1 t) else None.

(** ** The files of a calendar *)

(** The three files of an item, under the directory of its slug. *)
Definition item_files `{Env} (slug : pystr) : list path :=
  let dir := [py "outputs"; today; slug] in
  [dir ++ [py "article.md"]; dir ++ [py "social.md"]; dir ++ [py "meta.json"]].

(** The slug of the title of a calendar item. *)
Definition item_slug (item : pyval) : pystr :=
  match item with
  | VDict d =>
      match dict_get d (py "title") (VStr (py "Untitled topic")) with
      | VStr s => Utils.slugify s
      | _ => []
      end
  | _ => []
  end.

(** Two topics whose titles differ and whose slugs agree. *)
Definition clashing_items : list pyval :=
  [VDict (<[py "title" := VStr (py "AI & CRM")]> ∅);
   VDict (<[py "title" := VStr (py "AI CRM!")]> ∅)].

(** ** The entry point *)

(** The exit of [main] as the result of its runs. *)
Definition run_result (x : EntryPoint.exit) : result unit :=
  match x with
  | EntryPoint.Uncaught (EntryPoint.RunError e) => Raise e
  | _ => Ok tt
  end.

(** What [main] can print. *)
Definition GUARD_MESSAGES : list pystr :=
  [EntryPoint.MSG_EMPTY; EntryPoint.MSG_NO_MODE; EntryPoint.MSG_MISSING;
   EntryPoint.MSG_NO_KEY].

(** A host with one configuration file, [config.yaml], and the key set. *)
Definition demo_host : EntryPoint.Host := {|
  EntryPoint.open_text := fun p =>
    if bool_decide (p = py "config.yaml") then Some (py "company: ...") else None;
  EntryPoint.yaml_safe_load := fun _ => Some (Some demo_config);
  EntryPoint.path_exists := fun p => bool_decide (p = py "config.yaml");
  EntryPoint.has_api_key := true
|}.

(** The namespace of an empty command line, and that of [--topic "My Topic"]
    with a configuration file that does not exist. *)
Definition default_namespace : EntryPoint.Namespace := {|
  EntryPoint.topic := None;
  EntryPoint.audience := py "Business owners and marketing leads";
  EntryPoint.platform := py "linkedin";
  EntryPoint.words := 1200;
  EntryPoint.tone := py "smart, friendly, practical";
  EntryPoint.calendar := None;
  EntryPoint.count := 4;
  EntryPoint.config := py "config.yaml"
|}.

Definition topic_without_config : EntryPoint.Namespace := {|
  EntryPoint.topic := Some (py "My Topic");
  EntryPoint.audience := py "Business owners and marketing leads";
  EntryPoint.platform := py "linkedin";
  EntryPoint.words := 1200;
  EntryPoint.tone := py "smart, friendly, practical";
  EntryPoint.calendar := None;
  EntryPoint.count := 4;
  EntryPoint.config := py "missing.yaml"
|}.

(** The titles of [clashing_items], as JSON. *)
Definition clashing_topics : pystr :=
  py "{" ++ quoted (py "topics") ++ py ": [{" ++ quoted (py "title") ++ py ": "
  ++ quoted (py "AI & CRM") ++ py "}, {" ++ quoted (py "title") ++ py ": "
  ++ quoted (py "AI CRM!") ++ py "}]}".

(** * Properties *)

(** ** Characters and strings *)

Ltac bool_to_prop :=
  repeat match goal with
    | H : _ = false |- _ => apply not_true_iff_false in H
    | |- _ = false => apply not_true_iff_false
    end;
  rewrite ?negb_true_iff, ?orb_true_iff, ?andb_true_iff,
    ?N.leb_le, ?N.eqb_eq in *.

Ltac char_facts :=
  unfold Utils.slug_keep, Utils.slug_sep, isspace, lower_char, is_upper_AZ,
    is_lower_az, is_digit09, in_range, HYPHEN in *.

Lemma lstrip_id s : Forall (fun c => isspace c = false) s -> lstrip s = s.
Proof. destruct 1 as [|c s Hc _]; simpl; [reflexivity | now rewrite Hc]. Qed.

Lemma strip_id s : Forall (fun c => isspace c = false) s -> strip s = s.
Proof.
  intros H. unfold strip, rstrip. rewrite (lstrip_id s H).
  rewrite lstrip_id; [apply rev_involutive | now apply Forall_rev].
Qed.

Lemma lstrip_all_space s : Forall (fun c => isspace c = true) s -> lstrip s = [].
Proof. induction 1 as [|c s Hc _ IH]; simpl; [reflexivity | now rewrite Hc]. Qed.

Lemma strip_all_space s : Forall (fun c => isspace c = true) s -> strip s = [].
Proof. intros H. unfold strip. now rewrite (lstrip_all_space s H). Qed.

Lemma lower_id s : Forall (fun c => is_upper_AZ c = false) s -> lower s = s.
Proof.
  induction 1 as [|c s Hc _ IH]; simpl; [reflexivity|].
  unfold lower_char. rewrite Hc. now f_equal.
Qed.

(** ** Substitution by the matcher *)

(** Deleting the characters of a class is filtering by its complement. *)
Lemma sub_from_cls_delete q prev s :
  sub_from (Cls q) [] prev s 0 = List.filter (fun c => negb (q c)) s.
Proof.
  revert prev. induction s as [|c s IH]; intros prev; simpl; [reflexivity|].
  unfold match_rest. simpl. destruct (q c); simpl.
  - replace (S (length s) - length s - 1) with 0 by lia. apply IH.
  - f_equal. apply IH.
Qed.

Lemma rmatch_star_cls_step {A} p prev c s (k : option char -> pystr -> option A) :
  rmatch (Star (Cls p)) prev (c :: s) k =
  if p c then
    match rmatch (Star (Cls p)) (Some c) s k with
    | Some x => Some x
    | None => k prev (c :: s)
    end
  else k prev (c :: s).
Proof.
  cbn [rmatch length]. destruct (p c); [|reflexivity].
  now rewrite (proj2 (Nat.ltb_lt (length s) (S (length s))) (Nat.lt_succ_diag_r _)).
Qed.

Lemma rmatch_star_cls_nil {A} p prev (k : option char -> pystr -> option A) :
  rmatch (Star (Cls p)) prev [] k = k prev [].
Proof. reflexivity. Qed.

Lemma match_rest_star_cls p prev s :
  match_rest (Star (Cls p)) prev s = Some (drop_run p s).
Proof.
  unfold match_rest. revert prev.
  induction s as [|c s IH]; intros prev; [reflexivity|].
  rewrite rmatch_star_cls_step. cbn [drop_run]. destruct (p c); [|reflexivity].
  now rewrite IH.
Qed.

Lemma match_rest_plus_cls p prev s :
  match_rest (Plus (Cls p)) prev s =
  match s with
  | c :: s' => if p c then Some (drop_run p s') else None
  | [] => None
  end.
Proof.
  destruct s as [|c s]; [reflexivity|].
  unfold match_rest, Plus. cbn [rmatch]. destruct (p c); [|reflexivity].
  apply match_rest_star_cls.
Qed.

Lemma drop_run_length p s : length (drop_run p s) <= length s.
Proof. induction s as [|c s IH]; simpl; [lia|]. destruct (p c); simpl; lia. Qed.

Lemma squeeze_true_drop_run p repl s :
  squeeze p repl true s = squeeze p repl false (drop_run p s).
Proof.
  induction s as [|c s IH]; simpl; [reflexivity|].
  destruct (p c) eqn:E; simpl; [apply IH | now rewrite E].
Qed.

Lemma sub_from_plus_skip p repl prev s :
  sub_from (Plus (Cls p)) repl prev s (length s - length (drop_run p s))
  = sub_from (Plus (Cls p)) repl prev (drop_run p s) 0.
Proof.
  revert prev. induction s as [|c s IH]; intros prev; [reflexivity|].
  cbn [drop_run]. destruct (p c) eqn:E.
  - pose proof (drop_run_length p s).
    replace (length (c :: s) - length (drop_run p s))
      with (S (length s - length (drop_run p s))) by (simpl; lia).
    cbn [sub_from]. rewrite IH.
    (* the matcher of a class ignores the previous character *)
    clear. generalize (drop_run p s) as t. intros t.
    destruct t as [|d t]; [reflexivity|].
    cbn [sub_from]. now rewrite !match_rest_plus_cls.
  - now replace (length (c :: s) - length (c :: s)) with 0 by lia.
Qed.

Lemma sub_from_plus_prev p repl prev prev' s :
  sub_from (Plus (Cls p)) repl prev s 0 = sub_from (Plus (Cls p)) repl prev' s 0.
Proof.
  destruct s as [|d t]; [reflexivity|].
  cbn [sub_from]. now rewrite !match_rest_plus_cls.
Qed.

Lemma sub_from_plus_squeeze p repl prev s :
  sub_from (Plus (Cls p)) repl prev s 0 = squeeze p repl false s.
Proof.
  remember (length s) as n eqn:Hn. revert s prev Hn.
  induction n as [n IH] using lt_wf_ind. intros s prev ->.
  destruct s as [|c s]; [reflexivity|].
  cbn [sub_from squeeze]. rewrite match_rest_plus_cls.
  destruct (p c) eqn:E.
  - f_equal. pose proof (drop_run_length p s).
    replace (length (c :: s) - length (drop_run p s) - 1)
      with (length s - length (drop_run p s)) by (simpl; lia).
    rewrite sub_from_plus_skip, squeeze_true_drop_run.
    apply (IH (length (drop_run p s))); [simpl; lia | reflexivity].
  - f_equal. apply (IH (length s)); [simpl; lia | reflexivity].
Qed.

Lemma re_sub_delete q s :
  re_sub (Cls q) [] s = List.filter (fun c => negb (q c)) s.
Proof. apply sub_from_cls_delete. Qed.

Lemma re_sub_squeeze p repl s :
  re_sub (Plus (Cls p)) repl s = squeeze p repl false s.
Proof. apply sub_from_plus_squeeze. Qed.

Lemma squeeze_Forall (Q : char -> Prop) p repl b s :
  Forall Q repl ->
  Forall (fun c => p c = false -> Q c) s ->
  Forall Q (squeeze p repl b s).
Proof.
  intros Hr Hs. revert b. induction Hs as [|c s Hc _ IH]; intros b; simpl; [constructor|].
  destruct (p c) eqn:E.
  - apply Forall_app. split; [destruct b; [constructor | exact Hr] | apply IH].
  - constructor; [now apply Hc | apply IH].
Qed.

(** Squeezing with a replacement that is one character of the class is
    idempotent. *)
Lemma squeeze_squeeze p h s :
  p h = true ->
  (forall b, squeeze p [h] b (squeeze p [h] true s) = squeeze p [h] true s)
  /\ squeeze p [h] false (squeeze p [h] false s) = squeeze p [h] false s.
Proof.
  intros Hh. induction s as [|c s [IHt IHf]]; [split; reflexivity|].
  simpl. destruct (p c) eqn:E; simpl.
  - split; [exact IHt|]. rewrite Hh. simpl. f_equal. apply IHt.
  - rewrite E. split; [intros _|]; f_equal; exact IHf.
Qed.

(** ** utils.py: [slugify] *)

Lemma slug_char_keep c :
  slug_char c = true ->
  Utils.slug_keep c = true /\ isspace c = false /\ is_upper_AZ c = false.
Proof.
  unfold slug_char. char_facts. intros H. repeat split; bool_to_prop; lia.
Qed.

Lemma keep_lower_char c :
  Utils.slug_keep c = true ->
  Utils.slug_sep (lower_char c) = false -> slug_char (lower_char c) = true.
Proof.
  unfold slug_char. char_facts. intros H.
  destruct ((65 <=? c)%N && (c <=? 90)%N) eqn:E; intros H'; bool_to_prop; lia.
Qed.

Lemma keep_not_source_space c :
  Utils.slug_keep c = true -> slug_source c = false -> isspace c = true.
Proof.
  unfold slug_source. char_facts. intros H H'. bool_to_prop. lia.
Qed.

Lemma Forall_filter_bool (f : char -> bool) s :
  Forall (fun c => f c = true) (List.filter f s).
Proof.
  induction s as [|c s IH]; simpl; [constructor|].
  destruct (f c) eqn:E; [constructor|]; assumption.
Qed.

Lemma filter_id (f : char -> bool) s :
  Forall (fun c => f c = true) s -> List.filter f s = s.
Proof. induction 1 as [|c s Hc _ IH]; simpl; [|rewrite Hc, IH]; reflexivity. Qed.

Lemma Forall_lstrip (Q : char -> Prop) s : Forall Q s -> Forall Q (lstrip s).
Proof.
  induction 1 as [|c s Hc Hs IH]; simpl; [constructor|].
  destruct (isspace c); [exact IH | now constructor].
Qed.

Lemma Forall_strip (Q : char -> Prop) s : Forall Q s -> Forall Q (strip s).
Proof.
  intros H. unfold strip, rstrip.
  apply Forall_rev, Forall_lstrip, Forall_rev, Forall_lstrip, H.
Qed.

(** The text [slugify] squeezes, before the fallback. *)
Lemma slugify_unfold x :
  Utils.slugify x =
  match slug_text x with
  | [] => py "untitled"
  | _ => slug_text x
  end.
Proof.
  unfold Utils.slugify, Utils.re_not_slug_char, Utils.re_separators, slug_text.
  rewrite re_sub_delete, re_sub_squeeze.
  erewrite filter_ext; [reflexivity|]. intros c. apply negb_involutive.
Qed.

Lemma slug_text_charset x : Forall (fun c => slug_char c = true) (slug_text x).
Proof.
  apply squeeze_Forall; [repeat constructor|].
  unfold lower. apply Forall_map, Forall_strip.
  eapply Forall_impl; [apply Forall_filter_bool|].
  intros c Hc. now apply keep_lower_char.
Qed.

(** What every result of [slugify] looks like. *)
Lemma slugify_shape x :
  let y := Utils.slugify x in
  Forall (fun c => slug_char c = true) y
  /\ squeeze Utils.slug_sep (py "-") false y = y
  /\ y <> [].
Proof.
  cbv zeta. rewrite slugify_unfold.
  pose proof (slug_text_charset x) as Hc.
  pose proof (proj2 (squeeze_squeeze Utils.slug_sep HYPHEN
    (lower (strip (List.filter Utils.slug_keep x))) eq_refl)) as Hs.
  change [HYPHEN] with (py "-") in Hs. fold (slug_text x) in Hs.
  destruct (slug_text x) as [|c y] eqn:E.
  - repeat split; [repeat constructor | discriminate].
  - repeat split; [exact Hc | exact Hs | discriminate].
Qed.

Lemma slugify_fixed y :
  Forall (fun c => slug_char c = true) y ->
  squeeze Utils.slug_sep (py "-") false y = y ->
  y <> [] ->
  Utils.slugify y = y.
Proof.
  intros Hc Hs Hne. rewrite slugify_unfold. unfold slug_text.
  rewrite filter_id, strip_id, lower_id, Hs.
  - destruct y; [contradiction | reflexivity].
  - eapply Forall_impl; [exact Hc|]. intros c H. apply (slug_char_keep c H).
  - eapply Forall_impl; [exact Hc|]. intros c H. apply (slug_char_keep c H).
  - eapply Forall_impl; [exact Hc|]. intros c H. apply (slug_char_keep c H).
Qed.

Lemma slugify_idempotent x : Utils.slugify (Utils.slugify x) = Utils.slugify x.
Proof.
  destruct (slugify_shape x) as (Hc & Hs & Hne). now apply slugify_fixed.
Qed.

Lemma slugify_fallback x :
  forallb (fun c => negb (slug_source c)) x = true ->
  Utils.slugify x = py "untitled".
Proof.
  intros H. rewrite slugify_unfold. unfold slug_text.
  rewrite strip_all_space; [reflexivity|].
  rewrite forallb_forall in H. apply List.Forall_forall. intros c Hc.
  apply filter_In in Hc as [Hin Hk].
  apply keep_not_source_space; [exact Hk|].
  apply negb_true_iff, H, Hin.
Qed.

(** ** writer.py: the sample article of [tests/test_basic.py] *)

Example sample_article_passes :
  Writer.self_check (db := ascii_db) sample_article = [].
Proof. vm_compute. reflexivity. Qed.

Example sample_article_meta :
  Writer._extract_meta sample_article =
  ([py "one"; py "two"; py "three"; py "four"; py "five"], repeat 120%N 155).
Proof. vm_compute. reflexivity. Qed.

(** ** writer.py: [self_check] *)

Section SelfCheckFacts.
Context {db : UnicodeDB}.

Lemma check_headings_In article hs acc e :
  In e (fold_left (Writer.check_heading article) hs acc) <->
  In e acc \/
  exists h, In h hs /\ str_in h article = false /\ e = Writer.ERR_MISSING_HEADING h.
Proof.
  revert acc. induction hs as [|h hs IH]; intros acc; simpl.
  - split; [auto | intros [H | (h & [] & _)]; exact H].
  - rewrite IH. unfold Writer.check_heading.
    destruct (str_in h article) eqn:E; simpl.
    + split; [intros [H | (h' & H1 & H2 & H3)]; eauto 7|].
      intros [H | (h' & [<- | H1] & H2 & H3)]; [auto | congruence | eauto 7].
    + rewrite in_app_iff. simpl. split.
      * intros [[H | [<- | []]] | (h' & H1 & H2 & H3)]; eauto 8.
      * intros [H | (h' & [<- | H1] & H2 & H3)]; [auto | subst; auto | eauto 8].
Qed.

Lemma In_append_if (b : bool) (l : list pystr) x e :
  In e (if b then l ++ [x] else l) <-> In e l \/ (e = x /\ b = true).
Proof.
  destruct b; rewrite ?in_app_iff; simpl; intuition congruence.
Qed.

Lemma In_append_match {B} (o : option B) (l : list pystr) x e :
  In e (match o with Some _ => l ++ [x] | None => l end) <->
  In e l \/ (e = x /\ o <> None).
Proof.
  destruct o; rewrite ?in_app_iff; simpl; intuition congruence.
Qed.

(** The errors [self_check] reports, one disjunct per check. *)
Lemma self_check_In article e :
  In e (Writer.self_check article) <->
  (e = Writer.ERR_EM_DASH /\ str_in Writer.DASH_LITERAL article = true)
  \/ (exists h, In h Writer.REQUIRED_HEADINGS /\ str_in h article = false
                /\ e = Writer.ERR_MISSING_HEADING h)
  \/ (e = Writer.ERR_SECTIONS /\ str_count (py "## ") article < 6)
  \/ (e = Writer.ERR_CHECKLIST /\ str_in (py "- [ ]") article = false
      /\ str_in (py "- ") article = false)
  \/ (e = Writer.ERR_FAKE_CLAIM
      /\ re_search Writer.re_fake_claim article <> None).
Proof.
  unfold Writer.self_check. cbv zeta.
  rewrite In_append_match, !In_append_if, check_headings_In, In_append_if.
  rewrite andb_true_iff, !negb_true_iff, Nat.ltb_lt. simpl (In e []).
  tauto.
Qed.

Lemma self_check_nil article :
  Writer.self_check article = [] <->
  str_in Writer.DASH_LITERAL article = false
  /\ forallb (fun h => str_in h article) Writer.REQUIRED_HEADINGS = true
  /\ 6 <= str_count (py "## ") article
  /\ (str_in (py "- [ ]") article = true \/ str_in (py "- ") article = true)
  /\ re_search Writer.re_fake_claim article = None.
Proof.
  split.
  - intros H.
    assert (Hin : forall e, ~ In e (Writer.self_check article))
      by (intros e; rewrite H; intros []).
    repeat split.
    + destruct (str_in Writer.DASH_LITERAL article) eqn:E; [|reflexivity].
      exfalso. apply (Hin Writer.ERR_EM_DASH), self_check_In. auto.
    + apply forallb_forall. intros h Hh.
      destruct (str_in h article) eqn:E; [reflexivity|].
      exfalso. apply (Hin (Writer.ERR_MISSING_HEADING h)), self_check_In. eauto 7.
    + destruct (le_lt_dec 6 (str_count (py "## ") article)) as [Hl|Hl]; [exact Hl|].
      exfalso. apply (Hin Writer.ERR_SECTIONS), self_check_In. auto.
    + destruct (str_in (py "- [ ]") article) eqn:E1; [auto|].
      destruct (str_in (py "- ") article) eqn:E2; [auto|].
      exfalso. apply (Hin Writer.ERR_CHECKLIST), self_check_In. auto 7.
    + destruct (re_search Writer.re_fake_claim article) eqn:E; [|reflexivity].
      exfalso. apply (Hin Writer.ERR_FAKE_CLAIM), self_check_In.
      do 4 right. split; [reflexivity | congruence].
  - intros (Hd & Hh & Hs & Hc & Hf).
    destruct (Writer.self_check article) as [|e es] eqn:E; [reflexivity|].
    exfalso.
    assert (Hin : In e (Writer.self_check article)) by (rewrite E; left; reflexivity).
    apply self_check_In in Hin.
    rewrite forallb_forall in Hh.
    destruct Hin as [[_ H] | [(h & H1 & H2 & _) | [[_ H] | [(_ & H1 & H2) | [_ H]]]]].
    + congruence.
    + rewrite (Hh h H1) in H2. discriminate.
    + lia.
    + destruct Hc; congruence.
    + congruence.
Qed.

(** The em-dash error is reported exactly when the literal of the source
    occurs in the article. *)
Lemma self_check_dash_literal article :
  In Writer.ERR_EM_DASH (Writer.self_check article) <->
  str_in Writer.DASH_LITERAL article = true.
Proof.
  rewrite self_check_In. split; [|auto].
  intros [[_ H] | [(h & _ & _ & H) | [[H _] | [[H _] | [H _]]]]];
    [exact H | | discriminate H ..].
  discriminate H.
Qed.

(** A required heading that is absent is reported, naming it. *)
Lemma self_check_missing_heading article h :
  In h Writer.REQUIRED_HEADINGS ->
  str_in h article = false ->
  In (Writer.ERR_MISSING_HEADING h) (Writer.self_check article).
Proof. intros H1 H2. apply self_check_In. eauto 7. Qed.

Lemma ERR_MISSING_HEADING_inj h h' :
  Writer.ERR_MISSING_HEADING h = Writer.ERR_MISSING_HEADING h' -> h = h'.
Proof. unfold Writer.ERR_MISSING_HEADING. apply app_inv_head. Qed.

Lemma self_check_heading_iff article h :
  In h Writer.REQUIRED_HEADINGS ->
  (In (Writer.ERR_MISSING_HEADING h) (Writer.self_check article) <->
   str_in h article = false).
Proof.
  intros Hh. split; [|now apply self_check_missing_heading].
  rewrite self_check_In.
  intros [[H _] | [(h' & _ & H2 & H3) | [[H _] | [[H _] | [H _]]]]];
    [discriminate H | | discriminate H ..].
  apply ERR_MISSING_HEADING_inj in H3. now subst.
Qed.
End SelfCheckFacts.

(** ** Substrings *)

Lemma startswith_spec sub s :
  startswith sub s = true <-> exists post, s = sub ++ post.
Proof.
  revert s. induction sub as [|a sub IH]; intros s; simpl.
  - split; [eauto | reflexivity].
  - destruct s as [|b s].
    + split; [discriminate | intros (post & H); discriminate H].
    + rewrite andb_true_iff, N.eqb_eq, IH. split.
      * intros (-> & post & ->). eauto.
      * intros (post & H). injection H as -> ->. eauto.
Qed.

Lemma str_in_spec sub s :
  str_in sub s = true <-> exists pre post, s = pre ++ sub ++ post.
Proof.
  induction s as [|c s IH]; simpl; rewrite orb_true_iff, startswith_spec.
  - split.
    + intros [(post & H) | H]; [exists [], post; exact H | discriminate H].
    + intros (pre & post & H). left. destruct pre; [eauto | discriminate H].
  - rewrite IH. split.
    + intros [(post & H) | (pre & post & ->)]; [exists [], post; exact H|].
      exists (c :: pre), post. reflexivity.
    + intros ([|d pre] & post & H); [left; eauto|].
      injection H as -> ->. right. eauto.
Qed.

Lemma str_in_app_l sub pre s : str_in sub s = true -> str_in sub (pre ++ s) = true.
Proof.
  rewrite !str_in_spec. intros (p & q & ->). exists (pre ++ p), q.
  now rewrite <- app_assoc.
Qed.

(** Every section marker [## ] ends with the title marker [# ]. *)
Lemma section_marker_has_title_marker article :
  str_in (py "## ") article = true -> str_in (py "# ") article = true.
Proof.
  rewrite !str_in_spec. intros (pre & post & ->).
  exists (pre ++ py "#"), post. now rewrite <- app_assoc.
Qed.

(** An article with a section marker is never reported to miss its title. *)
Lemma title_check_subsumed {db : UnicodeDB} article :
  str_in (py "## ") article = true ->
  ~ In (Writer.ERR_MISSING_HEADING (py "# ")) (Writer.self_check article).
Proof.
  intros H. rewrite self_check_heading_iff by (left; reflexivity).
  now rewrite (section_marker_has_title_marker _ H).
Qed.

(** Each of the four named sections is reported once its marker is taken
    out of the sample article. *)
Lemma self_check_detects_named_sections {db : UnicodeDB} h :
  In h [py "## Hook"; py "## Context"; py "## What to do next"; py "## Conclusion"] ->
  In (Writer.ERR_MISSING_HEADING h) (Writer.self_check (remove_first h sample_article)).
Proof.
  intros Hh. apply self_check_missing_heading.
  - right. exact Hh.
  - repeat (destruct Hh as [<- | Hh]; [vm_compute; reflexivity|]). destruct Hh.
Qed.

(** C1 (the code departs from the claim). The check of [self_check] looks
    for the three-character literal of the source, not for the em dash
    U+2014: the sample article extended with a sentence that contains an em
    dash is reported without the em-dash error, whatever the other checks
    say, and a text made of the literal alone, which holds no em dash, is
    reported with it. *)
Theorem self_check_misses_em_dash (db : UnicodeDB) :
  (str_in [EM_DASH] sample_with_em_dash = true
   /\ ~ In Writer.ERR_EM_DASH (Writer.self_check sample_with_em_dash))
  /\ (str_in [EM_DASH] Writer.DASH_LITERAL = false
      /\ In Writer.ERR_EM_DASH (Writer.self_check Writer.DASH_LITERAL)).
Proof.
  split; split.
  - vm_compute. reflexivity.
  - rewrite self_check_dash_literal. vm_compute. discriminate.
  - vm_compute. reflexivity.
  - rewrite self_check_dash_literal. vm_compute. reflexivity.
Qed.

(** C2 (the code departs from the claim). The sample article of the tests
    passes [self_check]; with its title line [# Title] removed it still
    passes, so that no message names the heading [# ]: the marker [# ] is
    found inside every [## ] section marker. *)
Theorem self_check_title_removal_undetected :
  Writer.self_check (db := ascii_db) sample_article = []
  /\ str_in (py "# Title") sample_without_title = false
  /\ Writer.self_check (db := ascii_db) sample_without_title = []
  /\ forall db : UnicodeDB,
       ~ In (Writer.ERR_MISSING_HEADING (py "# "))
            (Writer.self_check (db := db) sample_without_title).
Proof.
  split; [vm_compute; reflexivity|].
  split; [vm_compute; reflexivity|].
  split; [vm_compute; reflexivity|].
  intros db. apply title_check_subsumed. vm_compute. reflexivity.
Qed.

(** ** utils.py: [META_SCHEMA] *)

Example sample_meta_valid : valid UtilsSchema.META_SCHEMA (VDict sample_meta) = true.
Proof. vm_compute. reflexivity. Qed.

Lemma meta_of_lookup title kws desc platform date slug :
  let m := meta_of title kws desc platform date slug in
  m !! py "title" = Some (VStr title)
  /\ m !! py "keywords" = Some (VList (VStr <$> kws))
  /\ m !! py "description" = Some (VStr desc)
  /\ m !! py "platform" = Some (VStr platform)
  /\ m !! py "date" = Some (VStr date)
  /\ m !! py "slug" = Some (VStr slug).
Proof. cbv zeta. unfold meta_of. repeat split; by simplify_map_eq. Qed.

Lemma meta_of_lookup_other title kws desc platform date slug k :
  k ∉ META_KEYS -> meta_of title kws desc platform date slug !! k = None.
Proof.
  intros Hk. unfold meta_of.
  rewrite !lookup_insert_ne, lookup_empty; [done | ..];
    intros <-; apply Hk; unfold META_KEYS; set_solver.
Qed.

Lemma valid_string_inv v :
  valid (schema_of_type JString) v = true -> exists s, v = VStr s.
Proof. destruct v; try discriminate. eauto. Qed.

Lemma valid_strings_inv l :
  forallb (valid (schema_of_type JString)) l = true ->
  exists ss : list pystr, l = VStr <$> ss.
Proof.
  induction l as [|v l IH]; [exists []; reflexivity|].
  cbn [forallb]. rewrite andb_true_iff. intros [Hv Hl].
  destruct (valid_string_inv v Hv) as (s & ->), (IH Hl) as (ss & ->).
  exists (s :: ss). reflexivity.
Qed.

Lemma valid_strings ss : forallb (valid (schema_of_type JString)) (VStr <$> ss) = true.
Proof. induction ss as [|s ss IH]; [reflexivity | exact IH]. Qed.

Lemma dict_keys_spec (d : gmap pystr pyval) k : k ∈ dict_keys d <-> is_Some (d !! k).
Proof.
  unfold dict_keys. rewrite list_elem_of_fmap. split.
  - intros ([k' v] & -> & H). apply elem_of_map_to_list in H. eauto.
  - intros (v & H). exists (k, v). split; [reflexivity | now apply elem_of_map_to_list].
Qed.

Lemma forallb_In_true {A} (f : A -> bool) l x :
  forallb f l = true -> In x l -> f x = true.
Proof. intros H. now apply forallb_forall. Qed.

Lemma meta_keys_closed (d : gmap pystr pyval) :
  forallb (fun k => bool_decide (k ∈ META_KEYS)) (dict_keys d) = true <->
  forall k, is_Some (d !! k) -> k ∈ META_KEYS.
Proof.
  rewrite forallb_forall. split.
  - intros H k Hk. apply dict_keys_spec, list_elem_of_In, H in Hk.
    now apply bool_decide_eq_true in Hk.
  - intros H k Hk. apply bool_decide_eq_true, H, dict_keys_spec, list_elem_of_In, Hk.
Qed.

(** Validation against [META_SCHEMA] succeeds exactly on the objects made of
    the six fields, all strings but the five keywords, with a description of
    155 to 160 characters. *)
Lemma valid_META_SCHEMA_iff d :
  valid UtilsSchema.META_SCHEMA (VDict d) = true <->
  exists title kws desc platform date slug,
    d = meta_of title kws desc platform date slug
    /\ length kws = 5 /\ 155 <= length desc <= 160.
Proof.
  split.
  - unfold UtilsSchema.META_SCHEMA.
    cbn [valid has_type forallb fst snd fmap list_fmap andb orb].
    fold META_KEYS.
    rewrite !andb_true_iff, !bool_decide_eq_true, meta_keys_closed.
    intros (((Ht & Hk & Hd & Hp & Hdt & Hs & _) & H1 & H2 & H3 & H4 & H5 & H6 & _) & Hclosed).
    destruct Ht as (vt & Et), Hk as (vk & Ek), Hd as (vd & Ed), Hp as (vp & Ep),
      Hdt as (vdt & Edt), Hs as (vs & Es).
    rewrite Et in H1. rewrite Ek in H2. rewrite Ed in H3. rewrite Ep in H4.
    rewrite Edt in H5. rewrite Es in H6.
    apply valid_string_inv in H1 as (title & ->).
    apply valid_string_inv in H4 as (platform & ->).
    apply valid_string_inv in H5 as (date & ->).
    apply valid_string_inv in H6 as (slug & ->).
    destruct vd as [| | |desc| |]; try discriminate H3.
    destruct vk as [| | | |l|]; try discriminate H2.
    cbn [valid has_type at_least at_most andb] in H2, H3.
    rewrite !andb_true_iff in H2. rewrite !andb_true_iff in H3.
    rewrite !Nat.leb_le in H2. rewrite !Nat.leb_le in H3.
    destruct H2 as ([Hl1 Hl2] & Hitems), H3 as (Hd1 & Hd2).
    apply valid_strings_inv in Hitems as (kws & ->).
    rewrite length_fmap in Hl1, Hl2.
    exists title, kws, desc, platform, date, slug. split; [|lia].
    apply map_eq. intros k.
    destruct (meta_of_lookup title kws desc platform date slug)
      as (L1 & L2 & L3 & L4 & L5 & L6).
    destruct (decide (k ∈ META_KEYS)) as [Hin | Hout].
    + unfold META_KEYS in Hin. rewrite !elem_of_cons in Hin.
      destruct Hin as [-> | [-> | [-> | [-> | [-> | [-> | Hin]]]]]];
        [congruence .. | now apply elem_of_nil in Hin].
    + rewrite meta_of_lookup_other by exact Hout.
      destruct (d !! k) eqn:E; [|reflexivity].
      exfalso. apply Hout, Hclosed. eauto.
  - intros (title & kws & desc & platform & date & slug & -> & Hk & Hd1 & Hd2).
    destruct (meta_of_lookup title kws desc platform date slug)
      as (L1 & L2 & L3 & L4 & L5 & L6).
    unfold UtilsSchema.META_SCHEMA.
    cbn [valid has_type forallb fst snd fmap list_fmap andb orb].
    fold META_KEYS.
    rewrite L1, L2, L3, L4, L5, L6.
    cbn [valid has_type at_least at_most andb schema_of_type].
    rewrite length_fmap, valid_strings, Hk.
    rewrite !andb_true_iff, !bool_decide_eq_true, meta_keys_closed, !Nat.leb_le.
    repeat split; eauto.
    intros k Hsome. destruct (decide (k ∈ META_KEYS)) as [Hin | Hout]; [exact Hin|].
    rewrite meta_of_lookup_other in Hsome by exact Hout.
    now destruct Hsome.
Qed.

Lemma meta_of_lookup_key title kws desc platform date slug k :
  In k META_KEYS -> is_Some (meta_of title kws desc platform date slug !! k).
Proof.
  destruct (meta_of_lookup title kws desc platform date slug)
    as (L1 & L2 & L3 & L4 & L5 & L6).
  intros [<- | [<- | [<- | [<- | [<- | [<- | []]]]]]]; eauto.
Qed.

(** C5. A Meta object with the six required keys and no other, five string
    keywords and a description of 155 to 160 characters validates against
    [META_SCHEMA]; it no longer does once a required key is removed, a key
    is added, the keywords are 4 or 6, or the description has 154 or 161
    characters. *)
Theorem meta_schema_acceptance title kws desc platform date slug :
  length kws = 5 ->
  155 <= length desc <= 160 ->
  let m := meta_of title kws desc platform date slug in
  valid UtilsSchema.META_SCHEMA (VDict m) = true
  /\ (forall k, In k (sc_required UtilsSchema.META_SCHEMA) ->
        valid UtilsSchema.META_SCHEMA (VDict (delete k m)) = false)
  /\ (forall k v, m !! k = None ->
        valid UtilsSchema.META_SCHEMA (VDict (<[k := v]> m)) = false)
  /\ (forall kws', length kws' = 4 \/ length kws' = 6 ->
        valid UtilsSchema.META_SCHEMA
          (VDict (meta_of title kws' desc platform date slug)) = false)
  /\ (forall desc', length desc' = 154 \/ length desc' = 161 ->
        valid UtilsSchema.META_SCHEMA
          (VDict (meta_of title kws desc' platform date slug)) = false).
Proof.
  intros Hk Hd m. split; [|split; [|split; [|split]]].
  - apply valid_META_SCHEMA_iff. exists title, kws, desc, platform, date, slug. auto.
  - intros k Hin. apply not_true_iff_false. intros Hv.
    apply valid_META_SCHEMA_iff in Hv as (t & ks & d & p & dt & s & E & _).
    destruct (meta_of_lookup_key t ks d p dt s k Hin) as (v & Hv).
    rewrite <- E, lookup_delete_eq in Hv. discriminate Hv.
  - intros k v Hnone. apply not_true_iff_false. intros Hv.
    apply valid_META_SCHEMA_iff in Hv as (t & ks & d & p & dt & s & E & _).
    assert (Hout : k ∉ META_KEYS).
    { intros Hin. apply list_elem_of_In in Hin.
      destruct (meta_of_lookup_key title kws desc platform date slug k Hin) as (w & Hw).
      fold m in Hw. congruence. }
    pose proof (meta_of_lookup_other t ks d p dt s k Hout) as Hl.
    rewrite <- E, lookup_insert_eq in Hl. discriminate Hl.
  - intros kws' Hlen. apply not_true_iff_false. intros Hv.
    apply valid_META_SCHEMA_iff in Hv as (t & ks & d & p & dt & s & E & Hks & _).
    pose proof (proj1 (proj2 (meta_of_lookup title kws' desc platform date slug))) as L.
    pose proof (proj1 (proj2 (meta_of_lookup t ks d p dt s))) as L'.
    cbv zeta in L, L'. rewrite E, L' in L. injection L as L.
    apply (f_equal length) in L. rewrite !length_fmap in L. lia.
  - intros desc' Hlen. apply not_true_iff_false. intros Hv.
    apply valid_META_SCHEMA_iff in Hv as (t & ks & d & p & dt & s & E & _ & Hds).
    pose proof (proj1 (proj2 (proj2 (meta_of_lookup title kws desc' platform date slug)))) as L.
    pose proof (proj1 (proj2 (proj2 (meta_of_lookup t ks d p dt s)))) as L'.
    cbv zeta in L, L'. rewrite E, L' in L. injection L as L. subst d. lia.
Qed.

Lemma meta_schema_acceptance_witness :
  valid UtilsSchema.META_SCHEMA (VDict sample_meta) = true.
Proof.
  refine (proj1 (meta_schema_acceptance (py "Test")
            [py "one"; py "two"; py "three"; py "four"; py "five"]
            (repeat 120%N 155) (py "linkedin") (py "2024-01-02") (py "test") _ _)).
  - reflexivity.
  - rewrite repeat_length. lia.
Defined.

(** ** utils.py: the claims on [slugify] *)

(** C7 (counterexample). A run of hyphens is made of punctuation only, and
    its slug is a hyphen, not the placeholder. *)
Lemma slugify_hyphens_not_placeholder :
  forallb ascii_punct (py "---") = true
  /\ Utils.slugify (py "---") = py "-"
  /\ Utils.slugify (py "---") <> py "untitled".
Proof. split; [|split]; [vm_compute; reflexivity .. | vm_compute; discriminate]. Qed.

(** C7 (amended). [slugify] is idempotent; its result is never empty and
    made of the characters [a-z0-9-] only; it is the placeholder [untitled]
    for every input without an ASCII letter, digit or hyphen; and
    [slugify("Hello World!")] is [hello-world]. *)
Theorem slugify_spec (x : pystr) :
  Utils.slugify (Utils.slugify x) = Utils.slugify x
  /\ Forall (fun c => slug_char c = true) (Utils.slugify x)
  /\ Utils.slugify x <> []
  /\ (forallb (fun c => negb (slug_source c)) x = true ->
      Utils.slugify x = py "untitled")
  /\ Utils.slugify (py "Hello World!") = py "hello-world".
Proof.
  destruct (slugify_shape x) as (Hc & _ & Hne).
  split; [apply slugify_idempotent|].
  split; [exact Hc|]. split; [exact Hne|].
  split; [apply slugify_fallback | vm_compute; reflexivity].
Qed.

Lemma slugify_spec_witness : Utils.slugify (py "?!  (...)") = py "untitled".
Proof.
  exact (proj1 (proj2 (proj2 (proj2 (slugify_spec (py "?!  (...)"))))) eq_refl).
Defined.

(** ** writer.py: [validate_meta] *)

(** C10 (counterexample). A meta dictionary whose keywords are [None]:
    [len] raises. *)
Lemma validate_meta_raises :
  Writer.validate_meta (<[py "keywords" := VNone]> sample_meta) = Raise TypeError.
Proof. vm_compute. reflexivity. Qed.

Lemma validate_meta_sized meta n m :
  py_len (dict_get meta (py "keywords") (VList [])) = Ok n ->
  py_len (dict_get meta (py "description") (VStr [])) = Ok m ->
  Writer.validate_meta meta =
  Ok ((if Nat.eqb n 5 then [] else [Writer.ERR_KEYWORDS])
      ++ (if (155 <=? m) && (m <=? 160) then [] else [Writer.ERR_DESCRIPTION])
      ++ (if truthy (dict_get meta (py "title") VNone) then [] else [Writer.ERR_TITLE])).
Proof.
  intros Hn Hm. unfold Writer.validate_meta. rewrite Hn. cbn [mbind result_bind].
  rewrite Hm. cbn [mbind result_bind].
  destruct (Nat.eqb n 5), ((155 <=? m) && (m <=? 160)),
    (truthy (dict_get meta (py "title") VNone)); reflexivity.
Qed.

Lemma py_len_sized v : sized v = true -> exists n, py_len v = Ok n.
Proof. destruct v; try discriminate; simpl; eauto. Qed.

(** C10 (amended). On every meta dictionary whose keywords and description,
    when present, have a length, [validate_meta] returns: its result is the
    list of the applicable errors among the three, in this order; absent
    keywords count as no keyword and absent description as the empty string,
    so that each is reported, and an absent or empty title is reported. *)
Theorem validate_meta_total meta :
  (forall v, meta !! py "keywords" = Some v -> sized v = true) ->
  (forall v, meta !! py "description" = Some v -> sized v = true) ->
  exists n m,
    py_len (dict_get meta (py "keywords") (VList [])) = Ok n
    /\ py_len (dict_get meta (py "description") (VStr [])) = Ok m
    /\ Writer.validate_meta meta =
       Ok ((if Nat.eqb n 5 then [] else [Writer.ERR_KEYWORDS])
           ++ (if (155 <=? m) && (m <=? 160) then [] else [Writer.ERR_DESCRIPTION])
           ++ (if truthy (dict_get meta (py "title") VNone)
               then [] else [Writer.ERR_TITLE]))
    /\ (meta !! py "keywords" = None -> n = 0)
    /\ (meta !! py "description" = None -> m = 0)
    /\ (meta !! py "title" = None \/ meta !! py "title" = Some (VStr []) ->
        truthy (dict_get meta (py "title") VNone) = false).
Proof.
  intros Hk Hd.
  assert (Hk' : sized (dict_get meta (py "keywords") (VList [])) = true).
  { unfold dict_get. destruct (meta !! py "keywords") eqn:E; [now apply Hk | reflexivity]. }
  assert (Hd' : sized (dict_get meta (py "description") (VStr [])) = true).
  { unfold dict_get. destruct (meta !! py "description") eqn:E; [now apply Hd | reflexivity]. }
  destruct (py_len_sized _ Hk') as (n & Hn), (py_len_sized _ Hd') as (m & Hm).
  exists n, m. split; [exact Hn|]. split; [exact Hm|].
  split; [now apply validate_meta_sized|].
  unfold dict_get in *. repeat split.
  - intros E. rewrite E in Hn. now injection Hn.
  - intros E. rewrite E in Hm. now injection Hm.
  - intros [E | E]; now rewrite E.
Qed.

Lemma validate_meta_total_witness :
  Writer.validate_meta (delete (py "keywords") sample_meta) = Ok [Writer.ERR_KEYWORDS].
Proof.
  destruct (validate_meta_total (delete (py "keywords") sample_meta))
    as (n & m & Hn & Hm & Hv & _).
  - intros v. vm_compute. discriminate.
  - intros v Hv. vm_compute in Hv. injection Hv as <-. reflexivity.
  - rewrite Hv. vm_compute in Hn, Hm. injection Hn as <-. injection Hm as <-.
    reflexivity.
Defined.

(** ** writer.py: [generate_package] *)

Section PackageFacts.
Context {db : UnicodeDB} {env : Env}.
Variable config : Writer.Config.

Lemma backend_calls_app tr tr' :
  backend_calls (tr ++ tr') = backend_calls tr + backend_calls tr'.
Proof. unfold backend_calls. now rewrite List.filter_app, length_app. Qed.

(** One completion is one call, answered by the backend and trimmed. *)
Lemma request_completion_run prompt tr :
  Writer._request_completion config prompt tr =
  (Ok (strip (backend tr (Writer.completion_request config prompt))),
   tr ++ [BackendCall (Writer.completion_request config prompt)
            (backend tr (Writer.completion_request config prompt))]).
Proof. reflexivity. Qed.

Lemma generate_package_run topic audience platform words tone tr :
  let rq1 := Writer.completion_request config
               (Writer.outline_prompt config topic audience platform words tone) in
  let out1 := backend tr rq1 in
  let tr1 := tr ++ [BackendCall rq1 out1] in
  let rq2 := Writer.completion_request config
               (Writer.article_prompt config (strip out1) topic audience platform
                  words tone) in
  let out2 := backend tr1 rq2 in
  let tr2 := tr1 ++ [BackendCall rq2 out2] in
  let errors := Writer.self_check (strip out2) in
  let rq3 := Writer.completion_request config
               (Writer.revise_prompt (strip out2) errors) in
  let out3 := backend tr2 rq3 in
  Writer.generate_package config topic audience platform words tone tr =
  match errors with
  | [] => (Ok (package_of topic platform (strip out2)), tr2)
  | _ :: _ =>
      (Ok (package_of topic platform (strip out3)), tr2 ++ [BackendCall rq3 out3])
  end.
Proof.
  cbv zeta. unfold Writer.generate_package, Writer.generate_outline,
    Writer.generate_article, Writer.revise_article.
  unfold mbind at 1, IO_bind at 1. rewrite request_completion_run.
  unfold mbind at 1, IO_bind at 1. rewrite request_completion_run.
  destruct (Writer.self_check _) as [|e errors] eqn:E.
  - unfold mbind, IO_bind, mret, IO_ret, package_of.
    destruct (Writer._extract_meta _) as [keywords description]. reflexivity.
  - unfold mbind at 1, IO_bind at 1. rewrite request_completion_run.
    unfold mret, IO_ret, package_of.
    destruct (Writer._extract_meta _) as [keywords description]. reflexivity.
Qed.
End PackageFacts.

(** C4. Whatever the backend answers, [generate_package] calls it for the
    outline and for the article, and then for a revision exactly when
    [self_check] reports errors on the article: with no error the package
    holds the article and the run made two calls; otherwise the third call
    is the one of [revise_article] on the failing article and its errors,
    the package holds the trimmed text of that answer, and the run made
    three calls. *)
Theorem generate_package_revision (db : UnicodeDB) (env : Env) (config : Writer.Config)
    (topic : pyval) (audience platform : pystr) (words : Z) (tone : pystr)
    (tr : list event) :
  exists outline article0 tr1 tr2 pkg tr',
    Writer.generate_outline config topic audience platform words tone tr
      = (Ok outline, tr1)
    /\ Writer.generate_article config outline topic audience platform words tone tr1
      = (Ok article0, tr2)
    /\ Writer.generate_package config topic audience platform words tone tr
      = (Ok pkg, tr')
    /\ match Writer.self_check article0 with
       | [] =>
           tr' = tr2 /\ Writer.article pkg = article0
           /\ backend_calls tr' = backend_calls tr + 2
       | _ :: _ =>
           exists rq out,
             rq = Writer.completion_request config
                    (Writer.revise_prompt article0 (Writer.self_check article0))
             /\ out = backend tr2 rq
             /\ tr' = tr2 ++ [BackendCall rq out]
             /\ Writer.revise_article config article0 (Writer.self_check article0) tr2
                = (Ok (strip out), tr')
             /\ Writer.article pkg = strip out
             /\ backend_calls tr' = backend_calls tr + 3
       end.
Proof.
  pose proof (generate_package_run config topic audience platform words tone tr) as Hrun.
  cbv zeta in Hrun.
  set (rq1 := Writer.completion_request config
                (Writer.outline_prompt config topic audience platform words tone)) in *.
  set (out1 := backend tr rq1) in *.
  set (tr1 := tr ++ [BackendCall rq1 out1]) in *.
  set (rq2 := Writer.completion_request config
                (Writer.article_prompt config (strip out1) topic audience platform
                   words tone)) in *.
  set (out2 := backend tr1 rq2) in *.
  set (tr2 := tr1 ++ [BackendCall rq2 out2]) in *.
  assert (Hcalls : backend_calls tr2 = backend_calls tr + 2).
  { unfold tr2, tr1. rewrite !backend_calls_app. cbn. lia. }
  exists (strip out1), (strip out2), tr1, tr2.
  destruct (Writer.self_check (strip out2)) as [|e errors] eqn:E.
  - eexists _, _. split; [reflexivity|]. split; [reflexivity|].
    split; [exact Hrun|]. auto.
  - eexists _, _. split; [reflexivity|]. split; [reflexivity|].
    split; [exact Hrun|].
    eexists _, _. split; [reflexivity|]. split; [reflexivity|].
    split; [reflexivity|]. split; [reflexivity|]. split; [reflexivity|].
    rewrite backend_calls_app, Hcalls. cbn. lia.
Qed.

(** C9. The keywords of the package are the extracted ones, at most five,
    or the five fallback keywords when none was extracted: between one and
    five in all, and one to four extracted keywords are passed on as they
    are, which [validate_meta] then reports. *)
Theorem generate_package_keywords (db : UnicodeDB) (env : Env) (config : Writer.Config)
    (topic : pyval) (audience platform : pystr) (words : Z) (tone : pystr)
    (tr : list event) :
  exists pkg tr' kws,
    Writer.generate_package config topic audience platform words tone tr
      = (Ok pkg, tr')
    /\ let extracted := (Writer._extract_meta (Writer.article pkg)).1 in
       length extracted <= 5
       /\ kws = match extracted with
                | [] => Writer.FALLBACK_KEYWORDS
                | _ :: _ => extracted
                end
       /\ Writer.meta pkg !! py "keywords" = Some (VList (VStr <$> kws))
       /\ 1 <= length kws <= 5
       /\ exists errors,
            Writer.validate_meta (Writer.meta pkg) = Ok errors
            /\ (In Writer.ERR_KEYWORDS errors <-> length kws <> 5).
Proof.
  pose proof (generate_package_run config topic audience platform words tone tr) as Hrun.
  cbv zeta in Hrun.
  assert (Hpkg : exists article tr',
    Writer.generate_package config topic audience platform words tone tr
    = (Ok (package_of topic platform article), tr')).
  { destruct (Writer.self_check _); eauto. }
  clear Hrun. destruct Hpkg as (article & tr' & Hpkg).
  exists (package_of topic platform article), tr',
    (match (Writer._extract_meta article).1 with
     | [] => Writer.FALLBACK_KEYWORDS
     | _ :: _ => (Writer._extract_meta article).1
     end).
  split; [exact Hpkg|]. cbv zeta.
  change (Writer.article (package_of topic platform article)) with article.
  unfold package_of. cbn [Writer.meta].
  remember ((Writer._extract_meta article).1) as extracted eqn:Hex.
  assert (Hlen : length extracted <= 5).
  { rewrite Hex. unfold Writer._extract_meta. cbn [fst]. rewrite length_take.
    apply Nat.le_min_l. }
  split; [exact Hlen|]. split; [reflexivity|].
  set (kws := match extracted with
              | [] => Writer.FALLBACK_KEYWORDS
              | _ :: _ => extracted
              end).
  assert (Hkws : 1 <= length kws <= 5).
  { unfold kws, Writer.FALLBACK_KEYWORDS.
    destruct extracted as [|k ks]; cbn [length] in *; lia. }
  clearbody kws. clear Hex.
  set (m := <[py "title" := topic]>
              (<[py "keywords" := VList (VStr <$> kws)]>
                 (<[py "description" := VStr (Writer._extract_meta article).2]>
                    (<[py "platform" := VStr platform]>
                       (<[py "slug" := VStr []]> (∅ : gmap pystr pyval)))))).
  assert (Hlookup : m !! py "keywords" = Some (VList (VStr <$> kws)))
    by (unfold m; by simplify_map_eq).
  assert (Hdesc : m !! py "description" = Some (VStr (Writer._extract_meta article).2))
    by (unfold m; by simplify_map_eq).
  clearbody m.
  split; [exact Hlookup|]. split; [exact Hkws|].
  eexists. split.
  { apply (validate_meta_sized m (length kws)
             (length (Writer._extract_meta article).2)).
    - unfold dict_get. rewrite Hlookup. cbn [py_len]. now rewrite length_fmap.
    - unfold dict_get. now rewrite Hdesc. }
  rewrite !in_app_iff.
    destruct (Nat.eqb_spec (length kws) 5) as [Heq | Hne].
    + split; [|intros Hc; contradiction].
      intros [[] | [H | H]]; exfalso; revert H.
      * destruct (_ && _); [intros [] | intros [H | []]].
        vm_compute in H. discriminate H.
      * destruct (truthy _); [intros [] | intros [H | []]].
        vm_compute in H. discriminate H.
    + split; [intros _; exact Hne | intros _; left; left; reflexivity].
Qed.

(** ** The reference loader on examples *)

Example json_loads_basic_topics :
  json_loads_basic
    (py "{" ++ quoted (py "topics") ++ py ": [{" ++ quoted (py "title") ++ py ": "
     ++ quoted (py "A") ++ py ", " ++ quoted (py "angle") ++ py ": "
     ++ quoted (py "b") ++ py "}], " ++ quoted (py "n") ++ py ": -12}")
  = Some (VDict (<[py "topics" :=
                     VList [VDict (<[py "title" := VStr (py "A")]>
                                   (<[py "angle" := VStr (py "b")]> ∅))]]>
                 (<[py "n" := VInt (-12)]> ∅))).
Proof. vm_compute. reflexivity. Qed.

Example json_loads_basic_rejects :
  json_loads_basic (py "{topics: none}") = None
  /\ json_loads_basic (py "[1, 2,]") = None
  /\ json_loads_basic (py "{} {}") = None.
Proof. repeat split; vm_compute; reflexivity. Qed.

(** ** topics.py: [generate_topics] *)

Lemma generate_topics_run (env : Env) pillars count model temperature tr :
  let rq := Topics.topics_request pillars count model temperature in
  let raw := strip (backend tr rq) in
  let tr' := tr ++ [BackendCall rq (backend tr rq)] in
  Topics.generate_topics pillars count model temperature tr =
  match json_loads raw with
  | Some payload => Topics.payload_topics payload tr'
  | None =>
      match re_search Topics.re_braces raw with
      | None => (Ok (VList []), tr')
      | Some group0 =>
          match json_loads group0 with
          | Some payload => Topics.payload_topics payload tr'
          | None => (Raise JSONDecodeError, tr')
          end
      end
  end.
Proof.
  cbv zeta. unfold Topics.generate_topics, mbind, IO_bind, call_backend.
  destruct (json_loads _); [reflexivity|].
  destruct (re_search _ _); [|reflexivity].
  destruct (json_loads _); reflexivity.
Qed.

(** Without a brace-delimited span in the answer, the topics are empty. *)
Lemma generate_topics_no_braces (env : Env) pillars count model temperature tr :
  let raw := strip (backend tr (Topics.topics_request pillars count model temperature)) in
  json_loads raw = None ->
  re_search Topics.re_braces raw = None ->
  (Topics.generate_topics pillars count model temperature tr).1 = Ok (VList []).
Proof.
  cbv zeta. intros H1 H2. rewrite generate_topics_run. cbv zeta.
  now rewrite H1, H2.
Qed.

(** C3 (the code departs from the claim). When the answer of the backend is
    not JSON and the span from its first [{] to its last [}] is not JSON
    either, the second [json.loads], which no handler guards, raises:
    [generate_topics] propagates [JSONDecodeError] instead of returning the
    empty sequence. *)
Theorem generate_topics_reparse_raises (env : Env) pillars count model temperature tr
    group0 :
  let raw := strip (backend tr (Topics.topics_request pillars count model temperature)) in
  json_loads raw = None ->
  re_search Topics.re_braces raw = Some group0 ->
  json_loads group0 = None ->
  (Topics.generate_topics pillars count model temperature tr).1 = Raise JSONDecodeError.
Proof.
  cbv zeta. intros H1 H2 H3. rewrite generate_topics_run. cbv zeta.
  now rewrite H1, H2, H3.
Qed.

Lemma generate_topics_reparse_raises_witness :
  (Topics.generate_topics
     (env := demo_env (fun _ _ => py "Here you go: {topics: none}"))
     [py "AI automation"] 4 (py "gpt-4o-mini") 0.7%Q []).1
  = Raise JSONDecodeError.
Proof.
  apply (generate_topics_reparse_raises
           (demo_env (fun _ _ => py "Here you go: {topics: none}"))
           [py "AI automation"] 4 (py "gpt-4o-mini") 0.7%Q []
           (py "{topics: none}")); vm_compute; reflexivity.
Defined.

(** An answer that is JSON but not an object: [payload.get] raises. *)
Example generate_topics_not_an_object :
  (Topics.generate_topics (env := demo_env (fun _ _ => py "[1, 2]"))
     [py "AI automation"] 4 (py "gpt-4o-mini") 0.7%Q []).1
  = Raise AttributeError.
Proof. vm_compute. reflexivity. Qed.

(** An answer with no brace at all: no topic. *)
Example generate_topics_plain_text :
  (Topics.generate_topics (env := demo_env (fun _ _ => py "no ideas today"))
     [py "AI automation"] 4 (py "gpt-4o-mini") 0.7%Q []).1
  = Ok (VList []).
Proof. vm_compute. reflexivity. Qed.

(** ** content_bot.py: validation before writing *)

Lemma steps_app ph tr ph' tr' ph'' :
  steps ph tr ph' -> steps ph' tr' ph'' -> steps ph (tr ++ tr') ph''.
Proof.
  induction 1 as [|ph e ph1 tr ph2 Hs _ IH]; intros H; [exact H|].
  simpl. econstructor; [exact Hs | exact (IH H)].
Qed.

Lemma steps_one ph e ph' : step ph e ph' -> steps ph [e] ph'.
Proof. intros H. econstructor; [exact H | constructor]. Qed.

Section RunFacts.
Context {db : UnicodeDB} {env : Env}.

(** What the common tail of both runs does with a generated package. *)
Lemma finish_package_run topic payload tr :
  ContentBot.finish_package topic payload tr =
  match topic with
  | VStr s =>
      let meta := <[py "date" := VStr today]>
                  (<[py "slug" := VStr (Utils.slugify s)]> (Writer.meta payload)) in
      match Writer.validate_meta meta with
      | Raise e => (Raise e, tr)
      | Ok (e :: es) =>
          (Raise (ValueError (e :: es)), tr ++ [CheckedRules meta (e :: es)])
      | Ok [] =>
          if valid UtilsSchema.META_SCHEMA (VDict meta) then
            let dir := ContentBot.get_output_dir (py "outputs") s in
            (Ok tt,
             tr ++ [CheckedRules meta []; CheckedSchema meta true; MakeDirs dir;
                    WriteText (dir ++ [py "article.md"]) (Writer.article payload);
                    WriteText (dir ++ [py "social.md"]) (Writer.social payload);
                    WriteJson (dir ++ [py "meta.json"]) meta])
          else
            (Raise ValidationError,
             tr ++ [CheckedRules meta []; CheckedSchema meta false])
      end
  | _ => (Raise TypeError, tr)
  end.
Proof.
  unfold ContentBot.finish_package.
  destruct topic as [| | |s| |]; try reflexivity.
  cbn [ContentBot.slugify_value]. unfold mbind at 1, IO_bind at 1, mret at 1, IO_ret at 1.
  cbv zeta. unfold mbind at 1, IO_bind at 1, lift.
  destruct (Writer.validate_meta _) as [[|e es]|e]; [| |reflexivity].
  - unfold ContentBot.validate_meta_schema, ContentBot.write_outputs.
    unfold mbind, IO_bind, emit, mret, IO_ret, raise. cbv zeta.
    destruct (valid _ _); cbn; rewrite <- ?app_assoc; reflexivity.
  - unfold mbind, IO_bind, emit, raise. reflexivity.
Qed.

(** The events of [finish_package] follow the order of validation. *)
Lemma finish_package_steps topic payload tr :
  exists new ph,
    ContentBot.finish_package topic payload tr
      = ((ContentBot.finish_package topic payload tr).1, tr ++ new)
    /\ steps Idle new ph
    /\ match (ContentBot.finish_package topic payload tr).1 with
       | Ok _ => exists m, ph = SchemaPassed m
       | Raise e => ph = Idle \/ ph = Stopped e
       end.
Proof.
  rewrite finish_package_run.
  destruct topic as [| | |s| |];
    try (exists [], Idle; rewrite app_nil_r;
         split; [reflexivity | split; [constructor | cbn; auto]]).
  cbv zeta.
  destruct (Writer.validate_meta _) as [[|e es]|e] eqn:Ev.
  - destruct (valid _ _) eqn:Es.
    + eexists _, _. split; [reflexivity|]. split; [|cbn; eauto].
      repeat (first [exact Ev | exact Es | econstructor]).
    + eexists _, _. split; [reflexivity|]. split; [|cbn; eauto].
      repeat (first [exact Ev | exact Es | econstructor]).
  - eexists _, _. split; [reflexivity|]. split; [|cbn; eauto].
    repeat (first [exact Ev | econstructor]).
  - exists [], Idle. rewrite app_nil_r.
    split; [reflexivity | split; [constructor | cbn; auto]].
Qed.

Lemma IO_bind_run {A B} (m : IO A) (f : A -> IO B) tr :
  (m ≫= f) tr =
  match m tr with
  | (Ok a, tr') => f a tr'
  | (Raise e, tr') => (Raise e, tr')
  end.
Proof. reflexivity. Qed.

Lemma steps_calls ph new :
  between_items ph ->
  Forall (fun e => is_backend_call e = true) new ->
  steps ph new (match new with [] => ph | _ :: _ => Idle end).
Proof.
  intros Hph Hnew. revert ph Hph.
  induction Hnew as [|e new He _ IH]; intros ph Hph; [constructor|].
  destruct e; try discriminate He.
  apply steps_cons with (ph' := Idle).
  - destruct ph; try contradiction; constructor.
  - specialize (IH Idle I). destruct new; exact IH.
Qed.

(** [generate_package] only calls the backend, and does so. *)
Lemma generate_package_calls config topic audience platform words tone tr :
  exists pkg new,
    Writer.generate_package config topic audience platform words tone tr
      = (Ok pkg, tr ++ new)
    /\ Forall (fun e => is_backend_call e = true) new
    /\ new <> [].
Proof.
  rewrite generate_package_run. cbv zeta.
  destruct (Writer.self_check _).
  - eexists _, _. rewrite <- app_assoc. split; [reflexivity|].
    split; [repeat constructor | discriminate].
  - eexists _, _. rewrite <- !app_assoc. split; [reflexivity|].
    split; [repeat constructor | discriminate].
Qed.

(** One item of a run: generate the package, then validate and write. *)
Lemma item_steps config topic audience platform words tone ph tr :
  between_items ph ->
  let run := (Writer.generate_package config topic audience platform words tone
                ≫= ContentBot.finish_package topic) in
  exists new ph',
    run tr = ((run tr).1, tr ++ new)
    /\ steps ph new ph'
    /\ outcome_fits (run tr).1 ph'
    /\ match (run tr).1 with
       | Ok _ => exists m, ph' = SchemaPassed m
       | Raise _ => True
       end.
Proof.
  intros Hph. cbv zeta. rewrite IO_bind_run.
  destruct (generate_package_calls config topic audience platform words tone tr)
    as (pkg & calls & -> & Hcalls & Hne).
  destruct (finish_package_steps topic pkg (tr ++ calls)) as (new & ph' & E & Hs & Hr).
  exists (calls ++ new), ph'. rewrite app_assoc.
  split; [exact E|]. split.
  - eapply steps_app; [|exact Hs].
    pose proof (steps_calls ph calls Hph Hcalls) as H.
    destruct calls; [contradiction | exact H].
  - destruct (ContentBot.finish_package topic pkg (tr ++ calls)).1 as [[]|e].
    + destruct Hr as (m & ->). cbn. eauto.
    + destruct Hr as [-> | ->]; cbn; auto.
Qed.

Lemma run_single_steps args config tr :
  exists new ph,
    ContentBot.run_single args config tr
      = ((ContentBot.run_single args config tr).1, tr ++ new)
    /\ steps Idle new ph
    /\ outcome_fits (ContentBot.run_single args config tr).1 ph.
Proof.
  destruct (item_steps config (VStr (ContentBot.topic args)) (ContentBot.audience args)
              (ContentBot.platform args) (ContentBot.words args) (ContentBot.tone args)
              Idle tr I) as (new & ph & E & Hs & Hr & _).
  exists new, ph. auto.
Qed.

Lemma for_each_steps config args items ph tr :
  between_items ph ->
  let body := fun item =>
    ContentBot.item_title item ≫= fun topic =>
    Writer.generate_package config topic (ContentBot.audience args)
      (ContentBot.platform args) (ContentBot.words args) (ContentBot.tone args)
    ≫= ContentBot.finish_package topic in
  exists new ph',
    for_each items body tr = ((for_each items body tr).1, tr ++ new)
    /\ steps ph new ph'
    /\ outcome_fits (for_each items body tr).1 ph'.
Proof.
  cbv zeta. revert ph tr. induction items as [|item items IH]; intros ph tr Hph.
  - exists [], ph. rewrite app_nil_r. split; [reflexivity|].
    split; [constructor|]. destruct ph; try contradiction; exact I.
  - cbn [for_each]. rewrite IO_bind_run. rewrite IO_bind_run.
    destruct item as [| | | | |d];
      try (exists [], ph; rewrite app_nil_r; split; [reflexivity|];
           split; [constructor|]; destruct ph; try contradiction; exact I).
    cbn [ContentBot.item_title]. unfold mret, IO_ret. cbn beta iota.
    set (topic := dict_get d (py "title") (VStr (py "Untitled topic"))).
    destruct (item_steps config topic (ContentBot.audience args)
                (ContentBot.platform args) (ContentBot.words args)
                (ContentBot.tone args) ph tr Hph) as (new & ph1 & E & Hs & Hr & Hok).
    cbv zeta in E, Hr, Hok. rewrite E.
    destruct ((Writer.generate_package config topic (ContentBot.audience args)
                 (ContentBot.platform args) (ContentBot.words args)
                 (ContentBot.tone args) ≫= ContentBot.finish_package topic) tr).1
      as [[]|e].
    + destruct Hok as (m & ->).
      destruct (IH (SchemaPassed m) (tr ++ new) I) as (new' & ph2 & E' & Hs' & Hr').
      exists (new ++ new'), ph2. rewrite app_assoc.
      split; [exact E'|]. split; [eapply steps_app; eassumption | exact Hr'].
    + exists new, ph1. auto.
Qed.

Lemma generate_topics_calls pillars count model temperature tr :
  exists rq out,
    Topics.generate_topics pillars count model temperature tr
      = ((Topics.generate_topics pillars count model temperature tr).1,
         tr ++ [BackendCall rq out]).
Proof.
  rewrite generate_topics_run. cbv zeta. eexists _, _.
  destruct (json_loads _) as [[]|]; try reflexivity.
  destruct (re_search _ _); [|reflexivity].
  destruct (json_loads _) as [[]|]; reflexivity.
Qed.

Lemma run_calendar_steps args config tr :
  exists new ph,
    ContentBot.run_calendar args config tr
      = ((ContentBot.run_calendar args config tr).1, tr ++ new)
    /\ steps Idle new ph
    /\ outcome_fits (ContentBot.run_calendar args config tr).1 ph.
Proof.
  unfold ContentBot.run_calendar. cbv zeta. rewrite IO_bind_run.
  destruct (generate_topics_calls (Writer.content_pillars config) (ContentBot.count args)
              (Writer.model (Writer.generation config))
              (Writer.temperature (Writer.generation config)) tr) as (rq & out & E).
  rewrite E.
  destruct (Topics.generate_topics _ _ _ _ tr).1 as [topics|e].
  - rewrite IO_bind_run.
    assert (Hiter : (exists items, ContentBot.iterate topics (tr ++ [BackendCall rq out])
                       = (Ok items, tr ++ [BackendCall rq out]))
                    \/ ContentBot.iterate topics (tr ++ [BackendCall rq out])
                       = (Raise TypeError, tr ++ [BackendCall rq out])).
    { destruct topics; cbn; eauto. }
    destruct Hiter as [(items & ->) | ->].
    + destruct (for_each_steps config args items Idle (tr ++ [BackendCall rq out]) I)
        as (new & ph & E' & Hs & Hr).
      cbv zeta in E', Hr. exists (BackendCall rq out :: new), ph.
      rewrite <- app_assoc in E'. cbn [app] in E'.
      split; [exact E'|]. split; [|exact Hr].
      econstructor; [constructor | exact Hs].
    + exists [BackendCall rq out], Idle. split; [reflexivity|].
      split; [apply steps_one; constructor | exact I].
  - exists [BackendCall rq out], Idle. split; [reflexivity|].
    split; [apply steps_one; constructor | exact I].
Qed.
End RunFacts.

(** Along the order of validation, a Meta is written only after both
    validators passed on it. *)
Lemma steps_write_validated ph new ph' :
  steps ph new ph' ->
  forall pre file m post,
    new = pre ++ WriteJson file m :: post ->
    (ph = SchemaPassed m /\ Forall (fun e => is_output e = true) pre)
    \/ (ph = RulesPassed m
        /\ valid UtilsSchema.META_SCHEMA (VDict m) = true
        /\ exists outputs,
             pre = CheckedSchema m true :: outputs
             /\ Forall (fun e => is_output e = true) outputs)
    \/ (Writer.validate_meta m = Ok []
        /\ valid UtilsSchema.META_SCHEMA (VDict m) = true
        /\ exists before outputs,
             pre = before ++ CheckedRules m [] :: CheckedSchema m true :: outputs
             /\ Forall (fun e => is_output e = true) outputs).
Proof.
  induction 1 as [ph | ph e ph1 tr ph2 Hstep Hsteps IH]; intros pre file m post E.
  - destruct pre; discriminate E.
  - destruct pre as [|e' pre].
    + injection E as -> _. inversion Hstep; subst. left. split; [reflexivity | constructor].
    + injection E as <- E.
      destruct (IH pre file m post E)
        as [[-> Hout] | [(-> & Hv & outputs & -> & Hout) | (Hr & Hv & a & c & -> & Hout)]].
      * inversion Hstep; subst.
        -- right. left. eauto 6.
        -- left. split; [reflexivity | constructor; [reflexivity | exact Hout]].
        -- left. split; [reflexivity | constructor; [reflexivity | exact Hout]].
        -- left. split; [reflexivity | constructor; [reflexivity | exact Hout]].
      * inversion Hstep; subst. right. right.
        split; [assumption|]. split; [exact Hv|]. exists [], outputs. auto.
      * right. right. split; [exact Hr|]. split; [exact Hv|].
        exists (e :: a), c. auto.
Qed.

Lemma steps_writes_validated new ph : steps Idle new ph -> writes_validated new.
Proof.
  intros Hs pre file m post E.
  destruct (steps_write_validated _ _ _ Hs pre file m post E)
    as [[H _] | [[H _] | H]]; [discriminate H .. | exact H].
Qed.

Lemma steps_stopped e new ph : steps (Stopped e) new ph -> new = [] /\ ph = Stopped e.
Proof. inversion 1 as [|? ? ? ? ? Hstep]; subst; [auto | inversion Hstep]. Qed.

Lemma steps_rule_failure ph new ph' r :
  steps ph new ph' ->
  outcome_fits r ph' ->
  rule_failure_is_final new r.
Proof.
  induction 1 as [ph | ph e0 ph1 tr ph2 Hstep Hsteps IH]; intros Hr pre m e es post E.
  - destruct pre; discriminate E.
  - destruct pre as [|e' pre].
    + injection E as -> ->. inversion Hstep; subst.
      apply steps_stopped in Hsteps as [-> ->].
      destruct r; cbn in Hr; [contradiction | subst; auto].
    + injection E as <- E. exact (IH Hr pre m e es post E).
Qed.

(** C8. In [run_single] and in [run_calendar] alike, the events of a run
    follow the order of validation: for each item the rule-based validator
    runs first; when it reports errors the run raises [ValueError] at once,
    with no schema validation and no write after it; the schema validator
    runs only on a Meta that passed the rules; and directories and files
    are written only after both passed, so that every Meta written passes
    [validate_meta] and [META_SCHEMA]. *)
Theorem runs_validate_before_writing (db : UnicodeDB) (env : Env)
    (args : ContentBot.Args) (config : Writer.Config) (tr : list event) :
  (exists new ph,
     ContentBot.run_single args config tr
       = ((ContentBot.run_single args config tr).1, tr ++ new)
     /\ steps Idle new ph
     /\ outcome_fits (ContentBot.run_single args config tr).1 ph
     /\ writes_validated new
     /\ rule_failure_is_final new (ContentBot.run_single args config tr).1)
  /\ (exists new ph,
        ContentBot.run_calendar args config tr
          = ((ContentBot.run_calendar args config tr).1, tr ++ new)
        /\ steps Idle new ph
        /\ outcome_fits (ContentBot.run_calendar args config tr).1 ph
        /\ writes_validated new
        /\ rule_failure_is_final new (ContentBot.run_calendar args config tr).1).
Proof.
  split.
  - destruct (run_single_steps args config tr) as (new & ph & E & Hs & Hr).
    exists new, ph. split; [exact E|]. split; [exact Hs|]. split; [exact Hr|].
    split; [eapply steps_writes_validated, Hs | eapply steps_rule_failure; eassumption].
  - destruct (run_calendar_steps args config tr) as (new & ph & E & Hs & Hr).
    exists new, ph. split; [exact E|]. split; [exact Hs|]. split; [exact Hr|].
    split; [eapply steps_writes_validated, Hs | eapply steps_rule_failure; eassumption].
Qed.

(** ** The runs on examples *)

(** The sample article as the answer of the backend: validated, then
    written under [outputs/<date>/<slug>]. *)
Example run_single_sample :
  let run := ContentBot.run_single (db := ascii_db)
               (env := demo_env (scripted_backend sample_article))
               demo_args demo_config [] in
  run.1 = Ok tt
  /\ backend_calls run.2 = 2
  /\ written_files run.2 =
     [ [py "outputs"; py "2024-01-02"; py "my-topic"; py "article.md"];
       [py "outputs"; py "2024-01-02"; py "my-topic"; py "social.md"];
       [py "outputs"; py "2024-01-02"; py "my-topic"; py "meta.json"] ].
Proof. vm_compute. repeat split. Qed.

(** An article without its metadata lines: one revision, which changes
    nothing here, then the rule-based validator stops the run and nothing is
    written. *)
Example run_single_without_meta :
  let run := ContentBot.run_single (db := ascii_db)
               (env := demo_env (scripted_backend (py "# Title")))
               demo_args demo_config [] in
  run.1 = Raise (ValueError [Writer.ERR_DESCRIPTION])
  /\ backend_calls run.2 = 3
  /\ written_files run.2 = [].
Proof. vm_compute. repeat split. Qed.

(** A calendar of two topics: one call for the topics, two per article,
    and the three files of each article. *)
Example run_calendar_two_topics :
  let run := ContentBot.run_calendar (db := ascii_db)
               (env := demo_env (calendar_backend two_topics sample_article))
               demo_args demo_config [] in
  run.1 = Ok tt
  /\ backend_calls run.2 = 5
  /\ written_files run.2 =
     [ [py "outputs"; py "2024-01-02"; py "first-topic"; py "article.md"];
       [py "outputs"; py "2024-01-02"; py "first-topic"; py "social.md"];
       [py "outputs"; py "2024-01-02"; py "first-topic"; py "meta.json"];
       [py "outputs"; py "2024-01-02"; py "second-topic"; py "article.md"];
       [py "outputs"; py "2024-01-02"; py "second-topic"; py "social.md"];
       [py "outputs"; py "2024-01-02"; py "second-topic"; py "meta.json"] ].
Proof. vm_compute. repeat split. Qed.

(** Topics that are not JSON and hold no brace: an empty calendar. *)
Example run_calendar_no_topics :
  let run := ContentBot.run_calendar (db := ascii_db)
               (env := demo_env (calendar_backend (py "no ideas today") sample_article))
               demo_args demo_config [] in
  run.1 = Ok tt /\ backend_calls run.2 = 1 /\ written_files run.2 = [].
Proof. vm_compute. repeat split. Qed.

(** ** writer.py: the end-to-end scenario *)

Example sample_labelled_text :
  labelled_text (py "SEO Keywords:") sample_article
    = Some (join (py ",") [py "one"; py " two"; py " three"; py " four"; py " five"])
  /\ labelled_text (py "Meta Description:") sample_article = Some (repeat 120%N 155).
Proof. split; vm_compute; reflexivity. Qed.

(** C6 (counterexample). The sample article followed by a sentence that
    claims a percentage has every part of the scenario, and [self_check]
    reports it. *)
Lemma complete_article_flagged :
  complete_article sample_with_claim
    [py "one"; py " two"; py " three"; py " four"; py " five"] (repeat 120%N 155)
  /\ Writer.self_check (db := ascii_db) sample_with_claim = [Writer.ERR_FAKE_CLAIM].
Proof.
  split; [|vm_compute; reflexivity].
  unfold complete_article.
  split; [vm_compute; reflexivity|].
  split; [vm_compute; lia|].
  repeat (split; [vm_compute; reflexivity|]). vm_compute. reflexivity.
Qed.

(** ** Searching for a labelled line *)

Lemma rmatch_Lit {A} l prev t (k : option char -> pystr -> option A) :
  rmatch (Lit l) prev t k =
  if startswith l t then k (prev_after l prev) (drop (length l) t) else None.
Proof.
  revert prev t. induction l as [|c l IH]; intros prev t; [reflexivity|].
  cbn [Lit rmatch startswith prev_after length].
  destruct t as [|a t]; [reflexivity|].
  destruct (N.eqb_spec c a) as [<- | Hne]; [|reflexivity].
  cbn [andb drop]. apply IH.
Qed.

Lemma rmatch_star_cls_some {A} q prev s (f : pystr -> A) :
  rmatch (Star (Cls q)) prev s (fun _ t => Some (f t)) = Some (f (drop_run q s)).
Proof.
  revert prev. induction s as [|c s IH]; intros prev; [reflexivity|].
  rewrite rmatch_star_cls_step. cbn [drop_run].
  destruct (q c); [now rewrite IH | reflexivity].
Qed.

Lemma rmatch_plus_cls {A} q prev c s (k : option char -> pystr -> option A) :
  rmatch (Plus (Cls q)) prev (c :: s) k =
  if q c then rmatch (Star (Cls q)) (Some c) s k else None.
Proof. reflexivity. Qed.

Lemma rmatch_spaces {A} t prev (k : option char -> pystr -> option A) x :
  (forall p, k p (lstrip t) = Some x) ->
  rmatch re_spaces prev t k = Some x.
Proof.
  unfold re_spaces. revert prev. induction t as [|c t IH]; intros prev Hk.
  - apply Hk.
  - rewrite rmatch_star_cls_step. cbn [lstrip] in Hk.
    destruct (isspace c); [now rewrite (IH (Some c) Hk) | apply Hk].
Qed.

Lemma take_drop_run q s :
  take (length s - length (drop_run q s)) s = take_run q s.
Proof.
  induction s as [|c s IH]; [reflexivity|].
  cbn [drop_run take_run]. destruct (q c).
  - pose proof (drop_run_length q s).
    replace (length (c :: s) - length (drop_run q s))
      with (S (length s - length (drop_run q s))) by (cbn [length]; lia).
    cbn [take]. now rewrite IH.
  - now replace (length (c :: s) - length (c :: s)) with 0 by lia.
Qed.

Lemma lstrip_head t c rest : lstrip t = c :: rest -> isspace c = false.
Proof.
  induction t as [|a t IH]; [discriminate|]. cbn [lstrip].
  destruct (isspace a) eqn:E; [exact IH | intros [= <- _]; exact E].
Qed.

Lemma space_newline c : isspace c = false -> not_newline c = true.
Proof.
  unfold not_newline, NEWLINE. intros H.
  destruct (N.eqb_spec c 10) as [-> | _]; [discriminate H | reflexivity].
Qed.

(** The group of [label\s*(.+)] matched where the label stands. *)
Lemma group_at_label label t prev c rest :
  lstrip t = c :: rest ->
  rmatch (Cat (Lit label) re_spaces) prev (label ++ t)
    (fun prev1 t1 =>
       rmatch (Plus re_dot) prev1 t1
         (fun _ t2 => Some (take (length t1 - length t2) t1)))
  = Some (first_line (c :: rest)).
Proof.
  intros Hl. cbn [rmatch]. rewrite rmatch_Lit.
  assert (Hs : startswith label (label ++ t) = true)
    by (apply startswith_spec; eauto).
  rewrite Hs, drop_app_length.
  apply rmatch_spaces. intros p. rewrite Hl.
  pose proof (space_newline c (lstrip_head t c rest Hl)) as Hc.
  unfold re_dot. rewrite rmatch_plus_cls, Hc.
  rewrite (rmatch_star_cls_some not_newline (Some c) rest
             (fun t2 => take (length (c :: rest) - length t2) (c :: rest))).
  f_equal. unfold first_line. cbn [take_run]. rewrite Hc.
  pose proof (drop_run_length not_newline rest).
  replace (length (c :: rest) - length (drop_run not_newline rest))
    with (S (length rest - length (drop_run not_newline rest))) by (cbn [length]; lia).
  cbn [take]. now rewrite take_drop_run.
Qed.

Lemma str_find_drop sub s n :
  str_find sub s = Some n -> drop n s = sub ++ drop (n + length sub) s.
Proof.
  revert n. induction s as [|c s IH]; intros n; cbn [str_find].
  - destruct (startswith sub []) eqn:E; [|discriminate].
    intros [= <-]. apply startswith_spec in E as (post & E).
    destruct sub; [reflexivity | discriminate E].
  - destruct (startswith sub (c :: s)) eqn:E.
    + intros [= <-]. apply startswith_spec in E as (post & E).
      rewrite E. cbn [drop plus]. now rewrite drop_app_length.
    + destruct (str_find sub s) as [n'|]; [|discriminate].
      intros [= <-]. cbn [drop plus]. now apply IH.
Qed.

Lemma scan_find {A} (m : option char -> pystr -> option A) sub s n prev x :
  (forall p t, startswith sub t = false -> m p t = None) ->
  str_find sub s = Some n ->
  (forall p, m p (drop n s) = Some x) ->
  scan m prev s = Some x.
Proof.
  intros Hfail. revert n prev. induction s as [|c s IH]; intros n prev; cbn [str_find].
  - destruct (startswith sub []) eqn:E; [|discriminate].
    intros [= <-] Hm. cbn [scan]. specialize (Hm prev). cbn [drop] in Hm.
    now rewrite Hm.
  - destruct (startswith sub (c :: s)) eqn:E.
    + intros [= <-] Hm. cbn [scan]. specialize (Hm prev). cbn [drop] in Hm.
      now rewrite Hm.
    + destruct (str_find sub s) as [n'|] eqn:Ef; [|discriminate].
      intros [= <-] Hm. cbn [scan]. rewrite (Hfail prev (c :: s) E).
      now apply (IH n').
Qed.

Lemma scan_absent {A} (m : option char -> pystr -> option A) sub s prev :
  (forall p t, startswith sub t = false -> m p t = None) ->
  str_find sub s = None ->
  scan m prev s = None.
Proof.
  intros Hfail. revert prev. induction s as [|c s IH]; intros prev; cbn [str_find scan].
  - destruct (startswith sub []) eqn:E; [discriminate|]. intros _.
    now rewrite (Hfail prev [] E).
  - destruct (startswith sub (c :: s)) eqn:E; [discriminate|].
    destruct (str_find sub s) eqn:Ef; [discriminate|]. intros _.
    rewrite (Hfail prev (c :: s) E). now apply IH.
Qed.

Lemma first_line_nonempty s : first_line s <> [] -> exists c rest, s = c :: rest.
Proof. destruct s; [intros H; now contradiction H | eauto]. Qed.

(** [re.search(label\s*(.+))] finds the text that follows the first
    occurrence of the label, when there is such a text. *)
Lemma re_search_group_labelled label article x :
  labelled_text label article = Some x ->
  x <> [] ->
  re_search_group (Cat (Lit label) re_spaces) (Plus re_dot) article = Some x.
Proof.
  unfold labelled_text. destruct (str_find label article) as [n|] eqn:Ef; [|discriminate].
  intros [= <-] Hne.
  destruct (first_line_nonempty _ Hne) as (c & rest & Hl).
  unfold re_search_group. apply (scan_find _ label article n); [|exact Ef|].
  - intros p t Hs. cbn [rmatch]. now rewrite rmatch_Lit, Hs.
  - intros p. rewrite (str_find_drop _ _ _ Ef), Hl. now apply group_at_label.
Qed.

Lemma re_search_group_absent label rg article :
  str_find label article = None ->
  re_search_group (Cat (Lit label) re_spaces) rg article = None.
Proof.
  intros Ef. unfold re_search_group. apply (scan_absent _ label); [|exact Ef].
  intros p t Hs. cbn [rmatch]. now rewrite rmatch_Lit, Hs.
Qed.

(** ** Splitting the keywords *)

Lemma split_from_cls q prev s cur :
  split_from (Cls q) prev s 0 cur = split_cls q s cur.
Proof.
  revert prev cur. induction s as [|c s IH]; intros prev cur; [reflexivity|].
  cbn [split_from split_cls]. unfold match_rest. cbn [rmatch].
  destruct (q c); [|apply IH].
  replace (length (c :: s) - length s - 1) with 0 by (cbn [length]; lia).
  now rewrite IH.
Qed.

Lemma split_cls_free q t s cur :
  forallb (fun c => negb (q c)) t = true ->
  split_cls q (t ++ s) cur = split_cls q s (rev t ++ cur).
Proof.
  revert cur. induction t as [|c t IH]; intros cur; [reflexivity|].
  cbn [forallb app split_cls rev]. rewrite andb_true_iff, negb_true_iff.
  intros [-> Ht]. rewrite (IH _ Ht), <- app_assoc. reflexivity.
Qed.

Lemma split_cls_join q sep terms cur t :
  q sep = true ->
  Forall (fun t => forallb (fun c => negb (q c)) t = true) (t :: terms) ->
  split_cls q (join [sep] (t :: terms)) cur = (rev cur ++ t) :: terms.
Proof.
  intros Hsep. revert t cur. induction terms as [|t' terms IH]; intros t cur Hall.
  - cbn [join]. rewrite <- (app_nil_r t) at 1.
    rewrite split_cls_free by (now inversion Hall).
    cbn [split_cls]. now rewrite rev_app_distr, rev_involutive.
  - change (join [sep] (t :: t' :: terms))
      with (t ++ sep :: join [sep] (t' :: terms)).
    rewrite split_cls_free by (now inversion Hall).
    cbn [split_cls]. rewrite Hsep, rev_app_distr, rev_involutive.
    f_equal. rewrite (IH t' []) by (now inversion Hall). reflexivity.
Qed.

Lemma is_term_inv t :
  is_term t = true ->
  forallb (fun c => negb ((c =? 44)%N || (c =? 59)%N)) t = true
  /\ Writer.nonempty (strip t) = true.
Proof. unfold is_term. now rewrite andb_true_iff. Qed.

Lemma re_split_terms terms :
  terms <> [] ->
  forallb is_term terms = true ->
  re_split Writer.re_comma_semicolon (join (py ",") terms) = terms.
Proof.
  intros Hne Hterms. destruct terms as [|t terms]; [contradiction|].
  unfold re_split, Writer.re_comma_semicolon. rewrite split_from_cls.
  change (py ",") with [44%N].
  rewrite (split_cls_join _ 44%N terms [] t); [reflexivity | reflexivity |].
  rewrite forallb_forall in Hterms. apply List.Forall_forall. intros x Hx.
  apply (is_term_inv x (Hterms x Hx)).
Qed.

Lemma filter_nonempty_terms terms :
  forallb is_term terms = true ->
  List.filter Writer.nonempty (map strip terms) = map strip terms.
Proof.
  induction terms as [|t terms IH]; [reflexivity|].
  cbn [forallb map List.filter]. rewrite andb_true_iff. intros [Ht Hts].
  rewrite (proj2 (is_term_inv t Ht)), (IH Hts). reflexivity.
Qed.

Section ScenarioFacts.
Context {db : UnicodeDB}.

(** C6 (amended). An article with the five required headings, at least
    seven section markers, a bullet, a first [SEO Keywords:] label followed
    by a line of five comma-separated terms, a first [Meta Description:]
    label followed by a line of 155 characters and a social section, that
    holds neither the literal [self_check] bans nor a match of the
    fabricated-claim pattern, passes [self_check]; and [_extract_meta]
    returns the five terms and the description, trimmed. *)
Theorem complete_article_checked article terms description :
  complete_article article terms description ->
  str_in Writer.DASH_LITERAL article = false ->
  re_search Writer.re_fake_claim article = None ->
  Writer.self_check article = []
  /\ Writer._extract_meta article = (map strip terms, strip description).
Proof.
  intros (Hhead & Hcount & Hbullet & Hkw & Hlen & Hterms & Hdesc & Hdlen & _) Hdash Hfake.
  split.
  - apply self_check_nil. repeat split; auto. lia.
  - unfold Writer._extract_meta.
    assert (Hne : terms <> []) by (destruct terms; [discriminate Hlen | discriminate]).
    rewrite (re_search_group_labelled _ _ _ Hkw).
    + rewrite (re_search_group_labelled _ _ _ Hdesc)
        by (destruct description; [discriminate Hdlen | discriminate]).
      rewrite (re_split_terms terms Hne Hterms), (filter_nonempty_terms terms Hterms).
      rewrite take_ge by (rewrite length_map; lia). reflexivity.
    + destruct terms as [|t terms]; [contradiction|].
      cbn [forallb] in Hterms. apply andb_true_iff in Hterms as [Ht _].
      apply is_term_inv in Ht as [_ Ht].
      destruct t as [|c t]; [discriminate Ht|].
      destruct terms; discriminate.
Qed.
End ScenarioFacts.

Lemma complete_article_checked_witness :
  Writer.self_check (db := ascii_db) sample_article = []
  /\ Writer._extract_meta sample_article =
     ([py "one"; py "two"; py "three"; py "four"; py "five"], repeat 120%N 155).
Proof.
  refine (complete_article_checked (db := ascii_db) sample_article
            [py "one"; py " two"; py " three"; py " four"; py " five"]
            (repeat 120%N 155) _ _ _).
  - unfold complete_article.
    split; [vm_compute; reflexivity|].
    split; [vm_compute; lia|].
    repeat (split; [vm_compute; reflexivity|]). vm_compute. reflexivity.
  - vm_compute. reflexivity.
  - vm_compute. reflexivity.
Defined.

(** * Further properties of the sources *)

(** ** Where a match hands over *)

(** A successful match ends in a success of its continuation, on what is
    left of the text. *)
Lemma rmatch_continues {A} r :
  forall prev s (k : option char -> pystr -> option A) x,
    rmatch r prev s k = Some x ->
    exists p s', s' `suffix_of` s /\ k p s' = Some x.
Proof.
  induction r as [|q|r1 IH1 r2 IH2|r1 IH1 r2 IH2|r IH|w]; intros prev s k x H.
  - exists prev, s. split; [reflexivity | exact H].
  - cbn [rmatch] in H. destruct s as [|c s]; [discriminate|].
    destruct (q c); [|discriminate].
    exists (Some c), s. split; [apply suffix_cons_r; reflexivity | exact H].
  - cbn [rmatch] in H. apply IH1 in H as (p1 & s1 & Hs1 & H).
    apply IH2 in H as (p2 & s2 & Hs2 & H).
    exists p2, s2. split; [etrans; eassumption | exact H].
  - cbn [rmatch] in H. destruct (rmatch r1 prev s k) as [y|] eqn:E.
    + injection H as ->. now apply IH1 in E.
    + now apply IH2 in H.
  - cbn [rmatch] in H. revert H. generalize (length s) as n. intros n.
    revert prev s. induction n as [|n IHn]; intros prev s H.
    + exists prev, s. split; [reflexivity | exact H].
    + destruct (rmatch r prev s
                  (fun prev' s' =>
                     if (length s' <? length s)%nat
                     then (fix loop (n : nat) (prev : option char) (s : pystr)
                             {struct n} : option A :=
                             match n with
                             | O => k prev s
                             | S n' =>
                                 match rmatch r prev s
                                         (fun prev' s' =>
                                            if (length s' <? length s)%nat
                                            then loop n' prev' s' else None) with
                                 | Some x => Some x
                                 | None => k prev s
                                 end
                             end) n prev' s'
                     else None)) as [y|] eqn:E.
      * injection H as ->. apply IH in E as (p1 & s1 & Hs1 & E).
        destruct (length s1 <? length s)%nat; [|discriminate].
        apply IHn in E as (p2 & s2 & Hs2 & E).
        exists p2, s2. split; [etrans; eassumption | exact E].
      * exists prev, s. split; [reflexivity | exact H].
  - cbn [rmatch] in H. destruct (xorb _ _); [|discriminate].
    exists prev, s. split; [reflexivity | exact H].
Qed.

Lemma scan_found {A} (m : option char -> pystr -> option A) prev s x :
  scan m prev s = Some x ->
  exists p t, t `suffix_of` s /\ m p t = Some x.
Proof.
  revert prev. induction s as [|c s IH]; intros prev; cbn [scan].
  - destruct (m prev []) eqn:E; [|discriminate].
    intros [= <-]. exists prev, []. split; [reflexivity | exact E].
  - destruct (m prev (c :: s)) eqn:E.
    + intros [= <-]. exists prev, (c :: s). split; [reflexivity | exact E].
    + intros H. apply IH in H as (p & t & Ht & H).
      exists p, t. split; [now apply suffix_cons_r | exact H].
Qed.

(** The last piece of a sequence is matched somewhere in the text. *)
Lemma rmatch_Seq_last {A} rs r :
  forall prev s (k : option char -> pystr -> option A) x,
    rmatch (Seq (rs ++ [r])) prev s k = Some x ->
    exists p s', s' `suffix_of` s /\ rmatch r p s' k = Some x.
Proof.
  induction rs as [|r0 rs IH]; intros prev s k x H.
  - exists prev, s. split; [reflexivity | exact H].
  - change (Seq ((r0 :: rs) ++ [r])) with (Cat r0 (Seq (rs ++ [r]))) in H.
    cbn [rmatch] in H. apply rmatch_continues in H as (p1 & s1 & Hs1 & H).
    apply IH in H as (p2 & s2 & Hs2 & H).
    exists p2, s2. split; [etrans; eassumption | exact H].
Qed.

Lemma suffix_str_in sub t s :
  t `suffix_of` s -> startswith sub t = true -> str_in sub s = true.
Proof.
  intros (pre & ->) H. apply str_in_app_l.
  destruct t; cbn [str_in]; now rewrite H.
Qed.

(** X1. [self_check] reports a fabricated percentage claim only on an
    article that holds a percent sign, whatever the Unicode tables say. *)
Theorem fake_claim_needs_percent (db : UnicodeDB) (article : pystr) :
  In Writer.ERR_FAKE_CLAIM (Writer.self_check article) ->
  str_in (py "%") article = true.
Proof.
  rewrite self_check_In.
  intros [[H _] | [(h & _ & _ & H) | [[H _] | [[H _] | [_ H]]]]];
    try (vm_compute in H; discriminate H).
  destruct (re_search Writer.re_fake_claim article) as [m|] eqn:E; [|contradiction].
  clear H. unfold re_search in E.
  apply scan_found in E as (p & t & Ht & E).
  destruct (match_rest Writer.re_fake_claim p t) as [rest|] eqn:Em; [|discriminate].
  clear E. unfold match_rest, Writer.re_fake_claim in Em.
  apply (rmatch_Seq_last
           [Bnd word_char;
            Alts [LitI (py "we"); LitI (py "our team"); LitI (py "evolvra")];
            Bnd word_char; Star re_dot; Bnd word_char;
            Alts [LitI (py "achieved"); LitI (py "increased"); LitI (py "grew");
                  LitI (py "boosted")];
            Bnd word_char; Star re_dot; Plus (Cls uni_isdecimal)]
           (Lit (py "%"))) in Em as (p' & s' & Hs' & Em).
  rewrite rmatch_Lit in Em.
  destruct (startswith (py "%") s') eqn:Es; [|discriminate].
  eapply suffix_str_in; [|exact Es]. etrans; eassumption.
Qed.

Lemma fake_claim_needs_percent_witness :
  str_in (py "%") sample_with_claim = true.
Proof.
  apply (fake_claim_needs_percent ascii_db sample_with_claim).
  vm_compute. left. reflexivity.
Defined.

(** ** writer.py: more on [self_check] *)

Lemma check_headings_closed article hs acc :
  fold_left (Writer.check_heading article) hs acc =
  acc ++ flat_map (fun h => if str_in h article
                            then [] else [Writer.ERR_MISSING_HEADING h]) hs.
Proof.
  revert acc. induction hs as [|h hs IH]; intros acc; cbn [fold_left flat_map].
  - now rewrite app_nil_r.
  - rewrite IH. unfold Writer.check_heading.
    destruct (str_in h article); cbn [negb app]; [reflexivity|].
    now rewrite <- app_assoc.
Qed.

Lemma sublist_missing_headings article hs :
  sublist (flat_map (fun h => if str_in h article
                              then [] else [Writer.ERR_MISSING_HEADING h]) hs)
          (map Writer.ERR_MISSING_HEADING hs).
Proof.
  induction hs as [|h hs IH]; cbn [flat_map map]; [constructor|].
  destruct (str_in h article); cbn [app]; [now apply sublist_cons | now apply sublist_skip].
Qed.

Lemma sublist_if (b : bool) (x : pystr) : sublist (if b then [x] else []) [x].
Proof. destruct b; [reflexivity | apply sublist_nil_l]. Qed.

(** X2. Whatever the article, the errors of [self_check] are taken from its
    nine messages, in the order of the checks and each at most once: never
    more than nine errors, never twice the same. *)
Theorem self_check_messages (db : UnicodeDB) (article : pystr) :
  sublist (Writer.self_check article) ALL_MESSAGES
  /\ NoDup (Writer.self_check article)
  /\ length (Writer.self_check article) <= 9.
Proof.
  assert (Hsub : sublist (Writer.self_check article) ALL_MESSAGES).
  { unfold Writer.self_check, ALL_MESSAGES. cbv zeta.
    rewrite check_headings_closed.
    set (hs := flat_map _ Writer.REQUIRED_HEADINGS).
    assert (Hhs : sublist hs (map Writer.ERR_MISSING_HEADING Writer.REQUIRED_HEADINGS))
      by apply sublist_missing_headings.
    clearbody hs.
    assert (H1 : sublist ((if str_in Writer.DASH_LITERAL article
                           then [] ++ [Writer.ERR_EM_DASH] else []) ++ hs)
                   ([Writer.ERR_EM_DASH]
                    ++ map Writer.ERR_MISSING_HEADING Writer.REQUIRED_HEADINGS)).
    { apply sublist_app; [|exact Hhs].
      destruct (str_in _ _); [reflexivity | apply sublist_nil_l]. }
    set (e1 := (if str_in Writer.DASH_LITERAL article
                then [] ++ [Writer.ERR_EM_DASH] else []) ++ hs) in *.
    clearbody e1.
    assert (H2 : forall (b : bool) (l ms : list pystr) (x : pystr),
               sublist l ms -> sublist (if b then l ++ [x] else l) (ms ++ [x])).
    { intros b l ms x Hl. destruct b.
      - apply sublist_app; [exact Hl | reflexivity].
      - rewrite <- (app_nil_r l). apply sublist_app; [exact Hl | apply sublist_nil_l]. }
    change ([Writer.ERR_EM_DASH]
            ++ map Writer.ERR_MISSING_HEADING Writer.REQUIRED_HEADINGS
            ++ [Writer.ERR_SECTIONS; Writer.ERR_CHECKLIST; Writer.ERR_FAKE_CLAIM])
      with (((([Writer.ERR_EM_DASH]
               ++ map Writer.ERR_MISSING_HEADING Writer.REQUIRED_HEADINGS)
              ++ [Writer.ERR_SECTIONS]) ++ [Writer.ERR_CHECKLIST])
            ++ [Writer.ERR_FAKE_CLAIM]).
    destruct (re_search Writer.re_fake_claim article).
    - apply sublist_app; [|reflexivity]. apply H2, H2, H1.
    - apply sublist_inserts_r. apply H2, H2, H1. }
  split; [exact Hsub|]. split.
  - eapply sublist_NoDup; [|exact Hsub].
    apply (bool_decide_unpack _). vm_compute. exact I.
  - apply sublist_length in Hsub. exact Hsub.
Qed.

Lemma str_in_prefix sub ext s : str_in (sub ++ ext) s = true -> str_in sub s = true.
Proof.
  rewrite !str_in_spec. intros (pre & post & ->).
  exists pre, (ext ++ post). now rewrite <- app_assoc.
Qed.

(** X3. The checklist error depends on the bullet marker [- ] alone: the
    test for [- [ ]] never changes the answer, since every checklist item
    starts with a bullet. *)
Theorem checklist_error_iff (db : UnicodeDB) (article : pystr) :
  In Writer.ERR_CHECKLIST (Writer.self_check article) <->
  str_in (py "- ") article = false.
Proof.
  rewrite self_check_In. split.
  - intros [[H _] | [(h & _ & _ & H) | [[H _] | [(_ & _ & H) | [H _]]]]];
      try (vm_compute in H; discriminate H). exact H.
  - intros H. do 3 right. left. split; [reflexivity|]. split; [|exact H].
    destruct (str_in (py "- [ ]") article) eqn:E; [|reflexivity].
    apply (str_in_prefix (py "- ") (py "[ ]")) in E. congruence.
Qed.

Lemma count_from_absent sub s skip : str_in sub s = false -> count_from sub s skip = 0.
Proof.
  revert skip. induction s as [|c s IH]; intros skip; [reflexivity|].
  cbn [str_in count_from]. rewrite orb_false_iff. intros [H1 H2].
  destruct skip; [rewrite H1|]; now apply IH.
Qed.


(** X4. The title heading [# ] is reported missing only on an article
    without any section marker: the four named sections and the lack of
    sections are then reported with it. *)
Theorem missing_title_implies_all (db : UnicodeDB) (article : pystr) :
  In (Writer.ERR_MISSING_HEADING (py "# ")) (Writer.self_check article) ->
  str_count (py "## ") article = 0
  /\ (forall h, In h Writer.REQUIRED_HEADINGS ->
        In (Writer.ERR_MISSING_HEADING h) (Writer.self_check article))
  /\ In Writer.ERR_SECTIONS (Writer.self_check article).
Proof.
  rewrite self_check_heading_iff by (left; reflexivity). intros Htitle.
  assert (Hsec : str_in (py "## ") article = false).
  { destruct (str_in (py "## ") article) eqn:E; [|reflexivity].
    apply section_marker_has_title_marker in E. congruence. }
  assert (Hcount : str_count (py "## ") article = 0)
    by (now apply count_from_absent).
  split; [exact Hcount|]. split.
  - intros h Hh. apply self_check_missing_heading; [exact Hh|].
    destruct (str_in h article) eqn:E; [|reflexivity].
    destruct Hh as [<- | [<- | [<- | [<- | [<- | []]]]]]; [congruence | ..].
    + apply (str_in_prefix (py "## ") (py "Hook")) in E. congruence.
    + apply (str_in_prefix (py "## ") (py "Context")) in E. congruence.
    + apply (str_in_prefix (py "## ") (py "What to do next")) in E. congruence.
    + apply (str_in_prefix (py "## ") (py "Conclusion")) in E. congruence.
  - apply self_check_In. do 2 right. left. split; [reflexivity|]. rewrite Hcount. lia.
Qed.

Lemma missing_title_implies_all_witness :
  In Writer.ERR_SECTIONS (Writer.self_check (db := ascii_db) (py "Plain text.")).
Proof.
  apply (missing_title_implies_all ascii_db (py "Plain text.")).
  vm_compute. left. reflexivity.
Defined.

(** ** Trimming *)

Lemma lstrip_decompose s :
  exists w, s = w ++ lstrip s /\ Forall (fun c => isspace c = true) w.
Proof.
  induction s as [|c s (w & E & Hw)]; [exists []; split; [reflexivity | constructor]|].
  cbn [lstrip]. destruct (isspace c) eqn:Ec.
  - exists (c :: w). split; [cbn [app]; now rewrite <- E | now constructor].
  - exists []. split; [reflexivity | constructor].
Qed.

Lemma lstrip_fixed s :
  match s with c :: _ => isspace c = false | [] => True end -> lstrip s = s.
Proof. destruct s as [|c s]; [reflexivity|]. cbn [lstrip]. now intros ->. Qed.

Lemma lstrip_idem s : lstrip (lstrip s) = lstrip s.
Proof.
  apply lstrip_fixed. destruct (lstrip s) as [|c rest] eqn:E; [exact I|].
  exact (lstrip_head s c rest E).
Qed.

(** [rstrip] keeps a prefix. *)
Lemma rstrip_decompose s :
  exists w, s = rstrip s ++ w /\ Forall (fun c => isspace c = true) w.
Proof.
  unfold rstrip. destruct (lstrip_decompose (rev s)) as (w & E & Hw).
  exists (rev w). split; [|now apply Forall_rev].
  rewrite <- rev_app_distr, <- E. symmetry. apply rev_involutive.
Qed.

Lemma strip_idem s : strip (strip s) = strip s.
Proof.
  unfold strip. set (u := lstrip s).
  assert (Hu : match u with c :: _ => isspace c = false | [] => True end).
  { unfold u. destruct (lstrip s) as [|c rest] eqn:E; [exact I|].
    exact (lstrip_head s c rest E). }
  assert (Hl : lstrip (rstrip u) = rstrip u).
  { apply lstrip_fixed. destruct (rstrip_decompose u) as (w & E & _).
    destruct (rstrip u) as [|c r]; [exact I|].
    rewrite E in Hu. exact Hu. }
  rewrite Hl. unfold rstrip. rewrite rev_involutive, lstrip_idem. reflexivity.
Qed.

Lemma strip_lstrip s : strip (lstrip s) = strip s.
Proof. unfold strip. now rewrite lstrip_idem. Qed.

(** ** writer.py: what [_extract_meta] and [_extract_social] return *)

Lemma take_run_Forall q s : Forall (fun c => q c = true) (take_run q s).
Proof.
  induction s as [|c s IH]; cbn [take_run]; [constructor|].
  destruct (q c) eqn:E; [now constructor | constructor].
Qed.

(** The group [(.+)] is the rest of a line, and is not empty. *)
Lemma group_dot_plus p1 t1 g :
  rmatch (Plus re_dot) p1 t1 (fun _ t2 => Some (take (length t1 - length t2) t1))
    = Some g ->
  g = first_line t1 /\ g <> [].
Proof.
  destruct t1 as [|c rest]; [discriminate|].
  unfold re_dot. rewrite rmatch_plus_cls.
  destruct (not_newline c) eqn:Hc; [|discriminate].
  rewrite (rmatch_star_cls_some not_newline (Some c) rest
             (fun t2 => take (length (c :: rest) - length t2) (c :: rest))).
  intros [= <-]. unfold first_line. cbn [take_run length]. rewrite Hc.
  pose proof (drop_run_length not_newline rest).
  replace (S (length rest) - length (drop_run not_newline rest))
    with (S (length rest - length (drop_run not_newline rest))) by lia.
  cbn [take]. rewrite take_drop_run. split; [reflexivity | discriminate].
Qed.

Lemma re_search_group_line r0 article g :
  re_search_group r0 (Plus re_dot) article = Some g ->
  g <> [] /\ Forall (fun c => not_newline c = true) g.
Proof.
  unfold re_search_group. intros H.
  apply scan_found in H as (p & t & _ & H).
  apply rmatch_continues in H as (p1 & t1 & _ & H).
  apply group_dot_plus in H as [-> Hne].
  split; [exact Hne | apply take_run_Forall].
Qed.

Lemma split_cls_pieces (P : char -> Prop) q s cur :
  Forall P s -> Forall (fun c => P c /\ q c = false) cur ->
  Forall (Forall (fun c => P c /\ q c = false)) (split_cls q s cur).
Proof.
  intros Hs. revert cur. induction Hs as [|c s Hc _ IH]; intros cur Hcur.
  - cbn [split_cls]. constructor; [now apply Forall_rev | constructor].
  - cbn [split_cls]. destruct (q c) eqn:E.
    + constructor; [now apply Forall_rev | apply IH; constructor].
    + apply IH. constructor; [split; assumption | exact Hcur].
Qed.

Lemma not_newline_spec c : not_newline c = true <-> c <> NEWLINE.
Proof.
  unfold not_newline. rewrite negb_true_iff. split.
  - intros H ->. now rewrite N.eqb_refl in H.
  - intros H. now apply N.eqb_neq.
Qed.

(** X5. Whatever the article, [_extract_meta] returns at most five
    keywords, each of them non-empty, trimmed, on one line and free of
    commas and semicolons, and a description that is trimmed and on one
    line. *)
Theorem extract_meta_clean (article : pystr) :
  let keywords := (Writer._extract_meta article).1 in
  let description := (Writer._extract_meta article).2 in
  length keywords <= 5
  /\ Forall clean_keyword keywords
  /\ strip description = description
  /\ Forall (fun c => c <> NEWLINE) description.
Proof.
  cbv zeta. unfold Writer._extract_meta. cbn [fst snd].
  split; [rewrite length_take; apply Nat.le_min_l|]. split; [|split].
  - apply Forall_take.
    destruct (re_search_group _ _ article) as [raw|] eqn:E; [|constructor].
    apply re_search_group_line in E as [_ Hline].
    unfold re_split, Writer.re_comma_semicolon. rewrite split_from_cls.
    pose proof (split_cls_pieces (fun c => not_newline c = true)
                  (fun c => (c =? 44)%N || (c =? 59)%N) raw [] Hline
                  (List.Forall_nil _)) as Hpieces.
    induction Hpieces as [|piece pieces Hp _ IH]; [constructor|].
    cbn [map List.filter].
    destruct (Writer.nonempty (strip piece)) eqn:En; [|exact IH].
    constructor; [|exact IH].
    split; [|split].
    + intros Hnil. rewrite Hnil in En. discriminate En.
    + apply strip_idem.
    + apply Forall_strip. eapply Forall_impl; [exact Hp|].
      intros c [Hc Hq]. cbv beta in Hq. apply orb_false_iff in Hq as [H1 H2].
      rewrite N.eqb_neq in H1, H2. apply not_newline_spec in Hc. auto.
  - destruct (re_search_group _ _ article); [apply strip_idem | reflexivity].
  - destruct (re_search_group _ _ article) as [d|] eqn:E; [|constructor].
    apply re_search_group_line in E as [_ Hline].
    apply Forall_strip. eapply Forall_impl; [exact Hline|].
    intros c Hc. now apply not_newline_spec.
Qed.

(** X6. Without the label [SEO Keywords:] no keyword is extracted, and
    without the label [Meta Description:] the description is empty. *)
Theorem extract_meta_absent (article : pystr) :
  (str_in (py "SEO Keywords:") article = false ->
   (Writer._extract_meta article).1 = [])
  /\ (str_in (py "Meta Description:") article = false ->
      (Writer._extract_meta article).2 = []).
Proof.
  assert (Hfind : forall label, str_in label article = false ->
                                str_find label article = None).
  { intros label. induction article as [|c s IH]; cbn [str_in str_find].
    - rewrite orb_false_r. now intros ->.
    - rewrite orb_false_iff. intros [-> H]. now rewrite (IH H). }
  unfold Writer._extract_meta. cbn [fst snd]. split; intros H.
  - now rewrite (re_search_group_absent _ _ _ (Hfind _ H)).
  - now rewrite (re_search_group_absent _ _ _ (Hfind _ H)).
Qed.

Lemma extract_meta_absent_witness :
  (Writer._extract_meta (py "# Title")).1 = [].
Proof.
  apply (proj1 (extract_meta_absent (py "# Title"))). vm_compute. reflexivity.
Defined.

Lemma rmatch_Cat {A} r1 r2 prev s (k : option char -> pystr -> option A) :
  rmatch (Cat r1 r2) prev s k = rmatch r1 prev s (fun p s' => rmatch r2 p s' k).
Proof. reflexivity. Qed.

Lemma drop_run_all s : drop_run (fun _ => true) s = [].
Proof. induction s as [|c s IH]; [reflexivity | exact IH]. Qed.

(** X7. [_extract_social] returns all the text that follows the first
    [Social Snippets:] label, trimmed, and the empty string when the
    article has no such label. *)
Theorem extract_social_spec (article : pystr) :
  Writer._extract_social article =
  match str_find (py "Social Snippets:") article with
  | Some n => strip (drop (n + 16) article)
  | None => []
  end.
Proof.
  unfold Writer._extract_social.
  destruct (str_find (py "Social Snippets:") article) as [n|] eqn:Ef.
  - assert (E : re_search_group (Cat (Lit (py "Social Snippets:")) re_spaces)
                  (Star re_any) article = Some (lstrip (drop (n + 16) article))).
    { unfold re_search_group.
      apply (scan_find _ (py "Social Snippets:") article n); [|exact Ef|].
      - intros p t Hs. cbn [rmatch]. now rewrite rmatch_Lit, Hs.
      - intros p. rewrite (str_find_drop _ _ _ Ef).
        change (length (py "Social Snippets:")) with 16.
        set (t := drop (n + 16) article).
        rewrite rmatch_Cat, rmatch_Lit.
        assert (Hs : startswith (py "Social Snippets:") (py "Social Snippets:" ++ t) = true)
          by (apply startswith_spec; eauto).
        rewrite Hs, drop_app_length.
        apply rmatch_spaces. intros p'. cbv beta. unfold re_any.
        rewrite (rmatch_star_cls_some (fun _ => true) p' (lstrip t)
                   (fun t2 => take (length (lstrip t) - length t2) (lstrip t))).
        rewrite drop_run_all. cbn [length]. rewrite Nat.sub_0_r, firstn_all.
        reflexivity. }
    rewrite E. apply strip_lstrip.
  - now rewrite (re_search_group_absent _ _ _ Ef).
Qed.

(** ** The two validators on a Meta object *)

Lemma meta_of_inj t k d p dt s t' k' d' p' dt' s' :
  meta_of t k d p dt s = meta_of t' k' d' p' dt' s' ->
  t = t' /\ length k = length k' /\ d = d'.
Proof.
  intros E.
  destruct (meta_of_lookup t k d p dt s) as (L1 & L2 & L3 & _).
  destruct (meta_of_lookup t' k' d' p' dt' s') as (L1' & L2' & L3' & _).
  rewrite E in L1, L2, L3.
  rewrite L1' in L1. rewrite L2' in L2. rewrite L3' in L3.
  injection L1 as ->. injection L3 as ->. injection L2 as L2.
  apply (f_equal length) in L2. rewrite !length_fmap in L2. auto.
Qed.

Lemma valid_meta_of_iff t k d p dt s :
  valid UtilsSchema.META_SCHEMA (VDict (meta_of t k d p dt s)) = true <->
  length k = 5 /\ 155 <= length d <= 160.
Proof.
  rewrite valid_META_SCHEMA_iff. split.
  - intros (t' & k' & d' & p' & dt' & s' & E & Hk & Hd).
    apply meta_of_inj in E as (_ & Hl & ->). lia.
  - intros [Hk Hd]. exists t, k, d, p, dt, s. auto.
Qed.

Lemma validate_meta_of t k d p dt s :
  Writer.validate_meta (meta_of t k d p dt s) =
  Ok ((if Nat.eqb (length k) 5 then [] else [Writer.ERR_KEYWORDS])
      ++ (if (155 <=? length d) && (length d <=? 160)
          then [] else [Writer.ERR_DESCRIPTION])
      ++ (if negb (Nat.eqb (length t) 0) then [] else [Writer.ERR_TITLE])).
Proof.
  destruct (meta_of_lookup t k d p dt s) as (L1 & L2 & L3 & _).
  rewrite (validate_meta_sized _ (length k) (length d)).
  - unfold dict_get. now rewrite L1.
  - unfold dict_get. rewrite L2. cbn [py_len]. now rewrite length_fmap.
  - unfold dict_get. now rewrite L3.
Qed.

Lemma meta_rules_iff t k d p dt s :
  Writer.validate_meta (meta_of t k d p dt s) = Ok [] <->
  valid UtilsSchema.META_SCHEMA (VDict (meta_of t k d p dt s)) = true /\ t <> [].
Proof.
  rewrite validate_meta_of, valid_meta_of_iff. split.
  - intros H.
    destruct (Nat.eqb_spec (length k) 5) as [Hk|]; [|cbn [app] in H; discriminate H].
    destruct ((155 <=? length d) && (length d <=? 160)) eqn:Hd;
      [|cbn [app] in H; discriminate H].
    apply andb_true_iff in Hd as [H1 H2]. apply Nat.leb_le in H1, H2.
    destruct t; [cbn [app length Nat.eqb negb] in H; discriminate H|].
    repeat split; [assumption | lia | lia | discriminate].
  - intros [[Hk [H1 H2]] Ht].
    rewrite Hk. apply Nat.leb_le in H1, H2. rewrite H1, H2.
    destruct t; [contradiction | reflexivity].
Qed.

(** X8. On a Meta object with its six fields, the rule-based validator
    passes exactly when the schema validator passes and the title is not
    empty: the schema accepts an empty title, [validate_meta] does not. *)
Theorem rules_agree_with_schema (title : pystr) (keywords : list pystr)
    (description platform date slug : pystr) :
  let m := meta_of title keywords description platform date slug in
  Writer.validate_meta m = Ok [] <->
  valid UtilsSchema.META_SCHEMA (VDict m) = true /\ title <> [].
Proof. apply meta_rules_iff. Qed.

(** ** content_bot.py: what a run does with a package *)

Section OutcomeFacts.
Context {db : UnicodeDB} {env : Env}.

(** The Meta of a package, once the orchestrator has set slug and date. *)
Lemma finished_meta topic platform article date slug :
  <[py "date" := VStr date]>
    (<[py "slug" := VStr slug]>
       (Writer.meta (package_of (VStr topic) platform article)))
  = meta_of topic (package_keywords article) (Writer._extract_meta article).2
      platform date slug.
Proof.
  unfold package_of, meta_of, package_keywords. cbn [Writer.meta].
  apply map_eq. intros i. rewrite !lookup_insert.
  repeat case_decide; subst; try reflexivity; try discriminate.
Qed.

(** On the package of an article, the tail of a run either validates and
    writes, or stops on the rule-based validator. *)
Lemma finish_package_of topic platform article tr :
  let pkg := package_of (VStr topic) platform article in
  let m := run_meta topic platform article in
  let dir := ContentBot.get_output_dir (py "outputs") topic in
  ContentBot.finish_package (VStr topic) pkg tr =
  match Writer.validate_meta m with
  | Ok [] =>
      (Ok tt,
       tr ++ [CheckedRules m []; CheckedSchema m true; MakeDirs dir;
              WriteText (dir ++ [py "article.md"]) article;
              WriteText (dir ++ [py "social.md"]) (Writer._extract_social article);
              WriteJson (dir ++ [py "meta.json"]) m])
  | Ok (e :: es) => (Raise (ValueError (e :: es)), tr ++ [CheckedRules m (e :: es)])
  | Raise e => (Raise e, tr)
  end.
Proof.
  cbv zeta. rewrite finish_package_run. cbv zeta. rewrite finished_meta.
  fold (run_meta topic platform article).
  destruct (Writer.validate_meta (run_meta topic platform article))
    as [[|e es]|e] eqn:Ev; try reflexivity.
  unfold run_meta in Ev. apply meta_rules_iff in Ev as [Hv _].
  unfold run_meta. now rewrite Hv.
Qed.
End OutcomeFacts.

Section OutcomeFacts2.
Context {db : UnicodeDB} {env : Env}.

(** [generate_package] returns the package of an article after two or
    three calls to the backend. *)
Lemma generate_package_of config topic audience platform words tone tr :
  exists article calls,
    Writer.generate_package config topic audience platform words tone tr
      = (Ok (package_of topic platform article), tr ++ calls)
    /\ Forall (fun e => is_backend_call e = true) calls
    /\ 2 <= length calls <= 3.
Proof.
  rewrite generate_package_run. cbv zeta.
  destruct (Writer.self_check _).
  - eexists _, _. rewrite <- app_assoc. split; [reflexivity|].
    split; [repeat constructor | cbn; lia].
  - eexists _, _. rewrite <- !app_assoc. split; [reflexivity|].
    split; [repeat constructor | cbn; lia].
Qed.

Lemma backend_calls_all calls :
  Forall (fun e => is_backend_call e = true) calls -> backend_calls calls = length calls.
Proof.
  unfold backend_calls. induction 1 as [|e calls He _ IH]; [reflexivity|].
  cbn [List.filter]. rewrite He. cbn [length]. now rewrite IH.
Qed.

Lemma validate_run_meta topic platform article :
  exists errors,
    Writer.validate_meta (run_meta topic platform article) = Ok errors
    /\ incl errors [Writer.ERR_KEYWORDS; Writer.ERR_DESCRIPTION; Writer.ERR_TITLE].
Proof.
  unfold run_meta. rewrite validate_meta_of. eexists. split; [reflexivity|].
  intros e He. rewrite !in_app_iff in He.
  destruct He as [He | [He | He]].
  - destruct (Nat.eqb _ _); [destruct He|].
    destruct He as [<- | []]. left. reflexivity.
  - destruct (_ && _); [destruct He|].
    destruct He as [<- | []]. right. left. reflexivity.
  - destruct (negb _); [destruct He|].
    destruct He as [<- | []]. right. right. left. reflexivity.
Qed.

(** X9. [run_single] ends in one of two ways.  Either the topic is not
    empty and the Meta of the final article passes the rules: after the two
    or three calls to the backend it validates the Meta twice, creates
    [outputs/<date>/<slug>] and writes the article, the social text and
    the Meta there, and returns.  Or it raises [ValueError] with the errors
    of the rule-based validator, having written nothing.  It never raises
    the exception of the schema validator. *)
Theorem run_single_outcome (args : ContentBot.Args) (config : Writer.Config)
    (tr : list event) :
  exists article calls,
    Forall (fun e => is_backend_call e = true) calls
    /\ 2 <= length calls <= 3
    /\ let m := run_meta (ContentBot.topic args) (ContentBot.platform args) article in
       let dir := [py "outputs"; today; Utils.slugify (ContentBot.topic args)] in
       (ContentBot.topic args <> []
        /\ Writer.validate_meta m = Ok []
        /\ ContentBot.run_single args config tr
           = (Ok tt,
              tr ++ calls
              ++ item_events m dir article (Writer._extract_social article)))
       \/ (exists e es,
             Writer.validate_meta m = Ok (e :: es)
             /\ incl (e :: es)
                  [Writer.ERR_KEYWORDS; Writer.ERR_DESCRIPTION; Writer.ERR_TITLE]
             /\ ContentBot.run_single args config tr
                = (Raise (ValueError (e :: es)),
                   tr ++ calls ++ [CheckedRules m (e :: es)])).
Proof.
  unfold ContentBot.run_single. rewrite IO_bind_run.
  destruct (generate_package_of config (VStr (ContentBot.topic args))
              (ContentBot.audience args) (ContentBot.platform args)
              (ContentBot.words args) (ContentBot.tone args) tr)
    as (article & calls & -> & Hcalls & Hlen).
  exists article, calls. split; [exact Hcalls|]. split; [exact Hlen|]. cbv zeta.
  rewrite finish_package_of. cbv zeta.
  destruct (validate_run_meta (ContentBot.topic args) (ContentBot.platform args) article)
    as (errors & Ev & Hincl).
  rewrite Ev. destruct errors as [|e es].
  - left.
    assert (Ht : ContentBot.topic args <> []).
    { unfold run_meta in Ev. apply meta_rules_iff in Ev. tauto. }
    split; [exact Ht|]. split; [reflexivity|].
    unfold ContentBot.get_output_dir, item_events.
    destruct (ContentBot.topic args); [contradiction|].
    rewrite <- app_assoc. reflexivity.
  - right. exists e, es. split; [reflexivity|]. split; [exact Hincl|].
    rewrite <- app_assoc. reflexivity.
Qed.

(** An item makes at most three calls, at least two when it succeeds, and
    never fails on the schema validator. *)
Lemma calendar_item_run args config item tr :
  exists new,
    calendar_item args config item tr
      = ((calendar_item args config item tr).1, tr ++ new)
    /\ backend_calls new <= 3
    /\ match (calendar_item args config item tr).1 with
       | Ok _ => 2 <= backend_calls new
       | Raise _ => True
       end
    /\ raises_validation_error (calendar_item args config item tr).1 = false.
Proof.
  unfold calendar_item. rewrite IO_bind_run.
  destruct item as [| | | | |d];
    try (exists []; rewrite app_nil_r; cbn; repeat split; lia).
  cbn [ContentBot.item_title]. unfold mret, IO_ret. cbv beta iota.
  set (topic := dict_get d (py "title") (VStr (py "Untitled topic"))).
  rewrite IO_bind_run.
  destruct (generate_package_of config topic (ContentBot.audience args)
              (ContentBot.platform args) (ContentBot.words args)
              (ContentBot.tone args) tr)
    as (article & calls & -> & Hcalls & Hlen).
  pose proof (backend_calls_all calls Hcalls) as Hn.
  destruct topic as [| | |s| |];
    try (rewrite finish_package_run; exists calls; cbn; repeat split; lia).
  rewrite finish_package_of. cbv zeta.
  destruct (validate_run_meta s (ContentBot.platform args) article)
    as (errors & Ev & _).
  rewrite Ev. destruct errors as [|e es].
  - eexists. rewrite <- app_assoc. split; [reflexivity|].
    rewrite backend_calls_app, Hn. cbn. repeat split; lia.
  - eexists. rewrite <- app_assoc. split; [reflexivity|].
    rewrite backend_calls_app, Hn. cbn. repeat split; lia.
Qed.

Lemma calendar_items_run args config items tr :
  exists new,
    for_each items (calendar_item args config) tr
      = ((for_each items (calendar_item args config) tr).1, tr ++ new)
    /\ backend_calls new <= 3 * length items
    /\ match (for_each items (calendar_item args config) tr).1 with
       | Ok _ => 2 * length items <= backend_calls new
       | Raise _ => True
       end
    /\ raises_validation_error (for_each items (calendar_item args config) tr).1
       = false.
Proof.
  revert tr. induction items as [|item items IH]; intros tr.
  - exists []. rewrite app_nil_r. cbn. repeat split; lia.
  - cbn [for_each]. rewrite IO_bind_run.
    destruct (calendar_item_run args config item tr) as (new & E & Hmax & Hmin & Hve).
    rewrite E.
    destruct (calendar_item args config item tr).1 as [[]|e].
    + destruct (IH (tr ++ new)) as (new' & E' & Hmax' & Hmin' & Hve').
      exists (new ++ new'). rewrite app_assoc. split; [exact E'|].
      rewrite backend_calls_app. cbn [length].
      split; [lia|]. split; [|exact Hve'].
      destruct (for_each items (calendar_item args config) (tr ++ new)).1; [lia | exact I].
    + exists new. split; [reflexivity|]. cbn [length]. cbn [fst].
      split; [lia|]. split; [exact I | exact Hve].
Qed.

Lemma run_calendar_unfold args config tr :
  ContentBot.run_calendar args config tr =
  (Topics.generate_topics (Writer.content_pillars config) (ContentBot.count args)
     (Writer.model (Writer.generation config))
     (Writer.temperature (Writer.generation config))
   ≫= fun topics =>
   ContentBot.iterate topics ≫= fun items =>
   for_each items (calendar_item args config)) tr.
Proof. reflexivity. Qed.
End OutcomeFacts2.

Section CalendarFacts.
Context {db : UnicodeDB} {env : Env}.

Lemma generate_topics_trace pillars count model temperature tr :
  (Topics.generate_topics pillars count model temperature tr).2
  = tr ++ [BackendCall (Topics.topics_request pillars count model temperature)
             (backend tr (Topics.topics_request pillars count model temperature))].
Proof.
  rewrite generate_topics_run. cbv zeta.
  destruct (json_loads _) as [[]|]; try reflexivity.
  destruct (re_search _ _); [|reflexivity].
  destruct (json_loads _) as [[]|]; reflexivity.
Qed.

(** X10. A calendar run over a list of [n] topics calls the backend at most
    [1 + 3 n] times, and at least [1 + 2 n] times when it returns: one call
    for the topics, two or three for each article. *)
Theorem run_calendar_calls (args : ContentBot.Args) (config : Writer.Config)
    (tr : list event) (items : list pyval) :
  (Topics.generate_topics (Writer.content_pillars config) (ContentBot.count args)
     (Writer.model (Writer.generation config))
     (Writer.temperature (Writer.generation config)) tr).1 = Ok (VList items) ->
  backend_calls (ContentBot.run_calendar args config tr).2
    <= backend_calls tr + 1 + 3 * length items
  /\ match (ContentBot.run_calendar args config tr).1 with
     | Ok _ =>
         backend_calls tr + 1 + 2 * length items
           <= backend_calls (ContentBot.run_calendar args config tr).2
     | Raise _ => True
     end.
Proof.
  intros Ht. rewrite run_calendar_unfold, IO_bind_run.
  pose proof (generate_topics_trace (Writer.content_pillars config)
                (ContentBot.count args) (Writer.model (Writer.generation config))
                (Writer.temperature (Writer.generation config)) tr) as Htr.
  destruct (Topics.generate_topics _ _ _ _ tr) as [r tr1].
  cbn [fst snd] in Ht, Htr. subst r tr1.
  rewrite IO_bind_run. cbn [ContentBot.iterate]. unfold mret, IO_ret. cbv beta iota.
  destruct (calendar_items_run args config items
              (tr ++ [BackendCall
                        (Topics.topics_request (Writer.content_pillars config)
                           (ContentBot.count args)
                           (Writer.model (Writer.generation config))
                           (Writer.temperature (Writer.generation config)))
                        (backend tr
                           (Topics.topics_request (Writer.content_pillars config)
                              (ContentBot.count args)
                              (Writer.model (Writer.generation config))
                              (Writer.temperature (Writer.generation config))))]))
    as (new & E & Hmax & Hmin & _).
  rewrite E. cbn [fst snd]. rewrite !backend_calls_app. cbn [backend_calls List.filter
    is_backend_call length].
  split; [lia|].
  destruct (for_each items (calendar_item args config) _).1; [lia | exact I].
Qed.

(** X11. A calendar run never ends on the exception of the schema
    validator: a Meta that passes the rules always passes the schema. *)
Theorem run_calendar_never_fails_schema (args : ContentBot.Args)
    (config : Writer.Config) (tr : list event) :
  raises_validation_error (ContentBot.run_calendar args config tr).1 = false.
Proof.
  rewrite run_calendar_unfold, IO_bind_run.
  rewrite generate_topics_run. cbv zeta.
  set (tr1 := tr ++ [BackendCall _ _]).
  assert (Hp : forall payload,
             raises_validation_error
               (match Topics.payload_topics payload tr1 with
                | (Ok a, tr') =>
                    (ContentBot.iterate a ≫= fun items =>
                     for_each items (calendar_item args config)) tr'
                | (Raise e, tr') => (Raise e, tr')
                end).1 = false).
  { intros payload. destruct payload as [| | | | |d]; try reflexivity.
    cbn [Topics.payload_topics]. unfold mret at 1, IO_ret at 1. cbv beta iota.
    rewrite IO_bind_run.
    destruct (dict_get d (py "topics") (VList [])) as [| | |s|l|d'];
      try reflexivity; cbn [ContentBot.iterate]; unfold mret, IO_ret; cbv beta iota;
      match goal with
      | |- context [for_each ?items _ ?t] =>
          destruct (calendar_items_run args config items t) as (new & _ & _ & _ & Hve)
      end; exact Hve. }
  destruct (json_loads _) as [payload|]; [apply Hp|].
  destruct (re_search _ _) as [g|].
  - destruct (json_loads g) as [payload|]; [apply Hp | reflexivity].
  - cbv beta iota. rewrite IO_bind_run. cbn [ContentBot.iterate].
    unfold mret, IO_ret. reflexivity.
Qed.

(** X12. When the value stored under [topics] is not a list, the calendar
    run does nothing after asking for the topics: no article is generated
    and nothing is written. *)
Theorem run_calendar_not_a_list (args : ContentBot.Args) (config : Writer.Config)
    (tr : list event) (v : pyval) :
  (Topics.generate_topics (Writer.content_pillars config) (ContentBot.count args)
     (Writer.model (Writer.generation config))
     (Writer.temperature (Writer.generation config)) tr).1 = Ok v ->
  is_list v = false ->
  (ContentBot.run_calendar args config tr).2
  = (Topics.generate_topics (Writer.content_pillars config) (ContentBot.count args)
       (Writer.model (Writer.generation config))
       (Writer.temperature (Writer.generation config)) tr).2.
Proof.
  intros Ht Hv. rewrite run_calendar_unfold, IO_bind_run.
  destruct (Topics.generate_topics _ _ _ _ tr) as [r tr1].
  cbn [fst snd] in Ht |- *. subst r. rewrite IO_bind_run.
  destruct v as [| | |s|l|d]; try discriminate Hv; try reflexivity.
  - cbn [ContentBot.iterate]. unfold mret, IO_ret. cbv beta iota.
    destruct s as [|c s]; reflexivity.
  - cbn [ContentBot.iterate]. unfold mret, IO_ret. cbv beta iota.
    destruct (dict_keys d) as [|k ks]; reflexivity.
Qed.
End CalendarFacts.

Lemma run_calendar_calls_witness :
  backend_calls
    (ContentBot.run_calendar (db := ascii_db)
       (env := demo_env (calendar_backend two_topics sample_article))
       demo_args demo_config []).2
  <= backend_calls [] + 1 + 3 * length two_topic_items.
Proof.
  destruct (run_calendar_calls (db := ascii_db)
              (env := demo_env (calendar_backend two_topics sample_article))
              demo_args demo_config [] two_topic_items) as [H _].
  - vm_compute. reflexivity.
  - exact H.
Defined.

Lemma run_calendar_not_a_list_witness :
  backend_calls
    (ContentBot.run_calendar (db := ascii_db)
       (env := demo_env (calendar_backend
                           (py "{" ++ quoted (py "topics") ++ py ": "
                            ++ quoted (py "none") ++ py "}") sample_article))
       demo_args demo_config []).2 = 1.
Proof.
  rewrite (run_calendar_not_a_list (db := ascii_db)
             (env := demo_env (calendar_backend
                                 (py "{" ++ quoted (py "topics") ++ py ": "
                                  ++ quoted (py "none") ++ py "}") sample_article))
             demo_args demo_config [] (VStr (py "none"))).
  - vm_compute. reflexivity.
  - vm_compute. reflexivity.
  - reflexivity.
Defined.

(** ** writer.py: what the prompts carry *)



Lemma str_in_here sub pre post : str_in sub (pre ++ sub ++ post) = true.
Proof. apply str_in_spec. eauto. Qed.



(** ** utils.py: more on [slugify] *)

Lemma squeeze_length p h b s : length (squeeze p [h] b s) <= length s.
Proof.
  revert b. induction s as [|c s IH]; intros b; cbn [squeeze]; [reflexivity|].
  destruct (p c).
  - rewrite length_app. specialize (IH true). destruct b; cbn [length] in *; lia.
  - cbn [length]. specialize (IH false). lia.
Qed.

Lemma squeeze_shrinks p h b pre c1 c2 post :
  p c1 = true -> p c2 = true ->
  length (squeeze p [h] b (pre ++ c1 :: c2 :: post)) < length (pre ++ c1 :: c2 :: post).
Proof.
  intros H1 H2. revert b. induction pre as [|a pre IH]; intros b.
  - cbn [app squeeze]. rewrite H1, H2. cbn [app].
    pose proof (squeeze_length p h true post).
    rewrite length_app. destruct b; cbn [length] in *; lia.
  - cbn [app squeeze]. destruct (p a).
    + rewrite length_app. specialize (IH true). destruct b; cbn [length] in *; lia.
    + cbn [length]. specialize (IH false). lia.
Qed.

(** X14. A slug never holds two hyphens in a row: every run of blanks and
    hyphens of the input is one hyphen in the slug. *)
Theorem slugify_no_double_hyphen (x : pystr) :
  str_in (py "--") (Utils.slugify x) = false.
Proof.
  destruct (str_in (py "--") (Utils.slugify x)) eqn:E; [|reflexivity].
  exfalso. apply str_in_spec in E as (pre & post & E).
  destruct (slugify_shape x) as (_ & Hfix & _). cbv zeta in Hfix.
  rewrite E in Hfix. apply (f_equal length) in Hfix.
  pose proof (squeeze_shrinks Utils.slug_sep HYPHEN false pre HYPHEN HYPHEN post
                eq_refl eq_refl) as Hlt.
  change (py "-") with [HYPHEN] in Hfix.
  change (py "--" ++ post) with (HYPHEN :: HYPHEN :: post) in Hfix.
  lia.
Qed.

(** ** topics.py: the fallback on the span of braces *)

Lemma rmatch_star_any_last {A} (K : option char -> pystr -> option A) k prev s :
  (forall p t, K p t = k t) ->
  rmatch (Star re_any) prev s K = last_success k s.
Proof.
  intros HK. unfold re_any. revert prev.
  induction s as [|c s IH]; intros prev.
  - rewrite rmatch_star_cls_nil. apply HK.
  - rewrite rmatch_star_cls_step. cbn [last_success]. rewrite IH, HK. reflexivity.
Qed.

Lemma last_success_no_close (s : pystr) :
  forallb (fun c => negb (c =? CLOSE_BRACE)%N) s = true ->
  last_success after_close s = None.
Proof.
  induction s as [|c s IH]; [reflexivity|].
  cbn [forallb last_success]. rewrite andb_true_iff, negb_true_iff.
  intros [Hc Hs]. rewrite (IH Hs). unfold after_close. cbn [startswith].
  rewrite N.eqb_sym, Hc. reflexivity.
Qed.

Lemma last_success_close (mid post : pystr) :
  forallb (fun c => negb (c =? CLOSE_BRACE)%N) post = true ->
  last_success after_close (mid ++ CLOSE_BRACE :: post) = Some post.
Proof.
  intros Hpost. induction mid as [|c mid IH].
  - cbn [app last_success]. rewrite (last_success_no_close post Hpost).
    unfold after_close. cbn [startswith]. rewrite N.eqb_refl. reflexivity.
  - cbn [app last_success]. now rewrite IH.
Qed.

Lemma match_rest_braces prev t :
  match_rest Topics.re_braces prev t =
  match t with
  | c :: t' => if (c =? OPEN_BRACE)%N then last_success after_close t' else None
  | [] => None
  end.
Proof.
  unfold match_rest, Topics.re_braces.
  change (Seq [Lit (py "{"); Star re_any; Lit (py "}")])
    with (Cat (Lit [OPEN_BRACE]) (Cat (Star re_any) (Cat (Lit [CLOSE_BRACE]) Eps))).
  rewrite rmatch_Cat, rmatch_Lit. destruct t as [|c t]; [reflexivity|].
  cbn [startswith]. rewrite N.eqb_sym.
  destruct (c =? OPEN_BRACE)%N; [|reflexivity].
  cbn [andb length drop]. rewrite rmatch_Cat.
  apply rmatch_star_any_last. intros p s.
  rewrite rmatch_Cat, rmatch_Lit. reflexivity.
Qed.

Lemma str_find_first (c : char) (pre s : pystr) :
  forallb (fun a => negb (a =? c)%N) pre = true ->
  str_find [c] (pre ++ c :: s) = Some (length pre).
Proof.
  induction pre as [|a pre IH]; cbn [forallb app str_find startswith length].
  - intros _. now rewrite N.eqb_refl.
  - rewrite andb_true_iff, negb_true_iff. intros [Ha Hpre].
    rewrite N.eqb_sym, Ha. cbn [andb]. now rewrite (IH Hpre).
Qed.

(** The span of braces of a text: from its first [{] to its last [}]. *)
Lemma re_search_braces (pre mid post : pystr) :
  forallb (fun c => negb (c =? OPEN_BRACE)%N) pre = true ->
  forallb (fun c => negb (c =? CLOSE_BRACE)%N) post = true ->
  re_search Topics.re_braces (pre ++ OPEN_BRACE :: mid ++ CLOSE_BRACE :: post)
  = Some (OPEN_BRACE :: mid ++ [CLOSE_BRACE]).
Proof.
  intros Hpre Hpost. unfold re_search.
  apply (scan_find _ [OPEN_BRACE] _ (length pre)).
  - intros p t Hs. rewrite match_rest_braces. destruct t as [|c t]; [reflexivity|].
    cbn [startswith] in Hs. rewrite andb_true_r, N.eqb_sym in Hs. now rewrite Hs.
  - now apply str_find_first.
  - intros p. rewrite drop_app_length, match_rest_braces, N.eqb_refl.
    rewrite (last_success_close mid post Hpost). f_equal.
    replace (OPEN_BRACE :: mid ++ CLOSE_BRACE :: post)
      with ((OPEN_BRACE :: mid ++ [CLOSE_BRACE]) ++ post)
      by (cbn [app]; rewrite <- app_assoc; reflexivity).
    rewrite length_app, Nat.add_sub. apply take_app_length.
Qed.

(** X15. JSON buried in prose is recovered: when the answer as a whole is
    not JSON, the span from its first [{] to its last [}] is read instead,
    and when that span is a JSON object its topics are returned (the empty
    sequence when it has no [topics] entry). *)
Theorem generate_topics_recovers (env : Env) (pillars : list pystr) (count : Z)
    (model : pystr) (temperature : Q) (tr : list event)
    (pre mid post : pystr) (d : gmap pystr pyval) :
  strip (backend tr (Topics.topics_request pillars count model temperature))
    = pre ++ OPEN_BRACE :: mid ++ CLOSE_BRACE :: post ->
  forallb (fun c => negb (c =? OPEN_BRACE)%N) pre = true ->
  forallb (fun c => negb (c =? CLOSE_BRACE)%N) post = true ->
  json_loads (pre ++ OPEN_BRACE :: mid ++ CLOSE_BRACE :: post) = None ->
  json_loads (OPEN_BRACE :: mid ++ [CLOSE_BRACE]) = Some (VDict d) ->
  (Topics.generate_topics pillars count model temperature tr).1
  = Ok (dict_get d (py "topics") (VList [])).
Proof.
  intros Hraw Hpre Hpost Hbad Hgood. rewrite generate_topics_run. cbv zeta.
  rewrite Hraw, Hbad, (re_search_braces pre mid post Hpre Hpost), Hgood.
  reflexivity.
Qed.

Lemma generate_topics_recovers_witness :
  (Topics.generate_topics
     (env := demo_env (fun _ _ => py "Here you go: " ++ two_topics ++ py " Enjoy!"))
     [py "AI automation"] 2 (py "gpt-4o-mini") 0.7%Q []).1
  = Ok (VList two_topic_items).
Proof.
  refine (generate_topics_recovers
            (demo_env (fun _ _ => py "Here you go: " ++ two_topics ++ py " Enjoy!"))
            [py "AI automation"] 2 (py "gpt-4o-mini") 0.7%Q []
            (py "Here you go: ")
            (removelast (tail two_topics))
            (py " Enjoy!")
            (<[py "topics" := VList two_topic_items]> ∅) _ _ _ _ _);
    vm_compute; reflexivity.
Defined.

(** X16. An answer that is not JSON and holds no opening brace, or no
    closing brace, gives the empty sequence of topics. *)
Theorem generate_topics_without_braces (env : Env) (pillars : list pystr) (count : Z)
    (model : pystr) (temperature : Q) (tr : list event) :
  let raw := strip (backend tr (Topics.topics_request pillars count model temperature)) in
  json_loads raw = None ->
  str_in (py "{") raw && str_in (py "}") raw = false ->
  (Topics.generate_topics pillars count model temperature tr).1 = Ok (VList []).
Proof.
  cbv zeta. intros Hbad Hbr. rewrite generate_topics_run. cbv zeta. rewrite Hbad.
  destruct (re_search Topics.re_braces _) as [g|] eqn:E; [|reflexivity].
  exfalso. unfold re_search in E. apply scan_found in E as (p & t & Ht & E).
  destruct (match_rest Topics.re_braces p t) as [rest|] eqn:Em; [|discriminate].
  clear E. unfold match_rest, Topics.re_braces in Em.
  assert (Hopen : str_in (py "{") (strip (backend tr
            (Topics.topics_request pillars count model temperature))) = true).
  { change (Seq [Lit (py "{"); Star re_any; Lit (py "}")])
      with (Cat (Lit (py "{")) (Seq [Star re_any; Lit (py "}")])) in Em.
    rewrite rmatch_Cat, rmatch_Lit in Em.
    destruct (startswith (py "{") t) eqn:Es; [|discriminate].
    eapply suffix_str_in; eassumption. }
  assert (Hclose : str_in (py "}") (strip (backend tr
            (Topics.topics_request pillars count model temperature))) = true).
  { apply (rmatch_Seq_last [Lit (py "{"); Star re_any] (Lit (py "}"))) in Em
      as (p' & s' & Hs' & Em).
    rewrite rmatch_Lit in Em.
    destruct (startswith (py "}") s') eqn:Es; [|discriminate].
    eapply suffix_str_in; [|exact Es]. etrans; eassumption. }
  rewrite Hopen, Hclose in Hbr. discriminate Hbr.
Qed.

Lemma generate_topics_without_braces_witness :
  (Topics.generate_topics (env := demo_env (fun _ _ => py "no ideas } today"))
     [py "AI automation"] 4 (py "gpt-4o-mini") 0.7%Q []).1
  = Ok (VList []).
Proof.
  apply (generate_topics_without_braces
           (demo_env (fun _ _ => py "no ideas } today"))
           [py "AI automation"] 4 (py "gpt-4o-mini") 0.7%Q []);
    vm_compute; reflexivity.
Defined.

(** ** content_bot.py: the entry point *)

Section EntryFacts.
Context {db : UnicodeDB} {env : Env} {host : EntryPoint.Host}.

(** A run started between two items follows the order of validation. *)
Lemma run_calendar_steps_from args config ph tr :
  between_items ph ->
  exists new ph',
    ContentBot.run_calendar args config tr
      = ((ContentBot.run_calendar args config tr).1, tr ++ new)
    /\ steps ph new ph'
    /\ outcome_fits (ContentBot.run_calendar args config tr).1 ph'.
Proof.
  intros Hph.
  assert (Hcall : forall rq out, step ph (BackendCall rq out) Idle).
  { intros rq out. destruct ph; try contradiction; constructor. }
  unfold ContentBot.run_calendar. cbv zeta. rewrite IO_bind_run.
  destruct (generate_topics_calls (Writer.content_pillars config) (ContentBot.count args)
              (Writer.model (Writer.generation config))
              (Writer.temperature (Writer.generation config)) tr) as (rq & out & E).
  rewrite E.
  destruct (Topics.generate_topics _ _ _ _ tr).1 as [topics|e].
  - rewrite IO_bind_run.
    assert (Hiter : (exists items, ContentBot.iterate topics (tr ++ [BackendCall rq out])
                       = (Ok items, tr ++ [BackendCall rq out]))
                    \/ ContentBot.iterate topics (tr ++ [BackendCall rq out])
                       = (Raise TypeError, tr ++ [BackendCall rq out])).
    { destruct topics; cbn; eauto. }
    destruct Hiter as [(items & ->) | ->].
    + destruct (for_each_steps config args items Idle (tr ++ [BackendCall rq out]) I)
        as (new & ph' & E' & Hs & Hr).
      cbv zeta in E', Hr. exists (BackendCall rq out :: new), ph'.
      rewrite <- app_assoc in E'. cbn [app] in E'.
      split; [exact E'|]. split; [|exact Hr].
      econstructor; [apply Hcall | exact Hs].
    + exists [BackendCall rq out], Idle. split; [reflexivity|].
      split; [apply steps_one, Hcall | exact I].
  - exists [BackendCall rq out], Idle. split; [reflexivity|].
    split; [apply steps_one, Hcall | exact I].
Qed.

(** The two runs of [main], one after the other, follow the order of
    validation. *)
Lemma runs_steps args loaded tr :
  exists new ph,
    EntryPoint.runs args loaded tr = ((EntryPoint.runs args loaded tr).1, tr ++ new)
    /\ steps Idle new ph
    /\ outcome_fits (EntryPoint.runs args loaded tr).1 ph.
Proof.
  unfold EntryPoint.runs. rewrite IO_bind_run.
  set (single := if EntryPoint.topic_given args
                 then ContentBot.run_single (EntryPoint.run_args args) loaded
                 else mret tt).
  assert (H1 : exists new ph,
             single tr = ((single tr).1, tr ++ new)
             /\ steps Idle new ph
             /\ outcome_fits (single tr).1 ph).
  { subst single. destruct (EntryPoint.topic_given args).
    - apply run_single_steps.
    - exists [], Idle. rewrite app_nil_r. split; [reflexivity|].
      split; [constructor | exact I]. }
  destruct H1 as (new1 & ph1 & E1 & Hs1 & Hr1). rewrite E1.
  destruct (single tr).1 as [[]|e].
  - assert (Hph : between_items ph1) by (destruct ph1; cbn in Hr1 |- *; auto).
    destruct (EntryPoint.calendar_given args).
    + destruct (run_calendar_steps_from (EntryPoint.run_args args) loaded ph1
                  (tr ++ new1) Hph) as (new2 & ph2 & E2 & Hs2 & Hr2).
      exists (new1 ++ new2), ph2. rewrite app_assoc.
      split; [exact E2|]. split; [eapply steps_app; eassumption | exact Hr2].
    + exists new1, ph1. split; [reflexivity|]. split; [exact Hs1|].
      destruct ph1; cbn in Hph |- *; auto.
  - exists new1, ph1. split; [reflexivity|]. split; [exact Hs1 | exact Hr1].
Qed.

(** X17. With a file system that does not change under [main] (a file that
    could be opened exists), the message [Config file missing.] is never
    printed: when the configuration file does not exist, [load_config] has
    already raised, and [main] ends on that exception with nothing printed
    and nothing done, not with status 1. *)
Theorem main_missing_config_raises (args : EntryPoint.Namespace) (tr : list event) :
  (forall (p handle : pystr),
      EntryPoint.open_text p = Some handle -> EntryPoint.path_exists p = true) ->
  ~ In EntryPoint.MSG_MISSING (EntryPoint.printed (EntryPoint.main args tr))
  /\ (EntryPoint.path_exists (EntryPoint.config args) = false ->
      EntryPoint.main args tr
      = {| EntryPoint.outcome := EntryPoint.Uncaught EntryPoint.OSError;
           EntryPoint.printed := [];
           EntryPoint.trace := tr |}).
Proof.
  intros Hfs.
  assert (Hne : forall m : pystr,
             In m [EntryPoint.MSG_EMPTY; EntryPoint.MSG_NO_MODE; EntryPoint.MSG_NO_KEY] ->
             ~ In EntryPoint.MSG_MISSING [m]).
  { intros m Hm [E|[]]. subst m. cbn [In] in Hm.
    destruct Hm as [E|[E|[E|[]]]];
      apply (f_equal (@length char)) in E; vm_compute in E; discriminate E. }
  unfold EntryPoint.main, EntryPoint.load_config.
  destruct (EntryPoint.open_text (EntryPoint.config args)) as [handle|] eqn:Eo.
  - rewrite (Hfs _ _ Eo). split; [|discriminate].
    destruct (EntryPoint.yaml_safe_load handle) as [[loaded|]|];
      unfold EntryPoint.stop; cbn [EntryPoint.printed].
    + destruct (negb (EntryPoint.topic_given args) && negb (EntryPoint.calendar_given args)).
      { cbn [EntryPoint.printed]. apply Hne. cbn [In]. tauto. }
      cbn [negb]. destruct (negb EntryPoint.has_api_key).
      { cbn [EntryPoint.printed]. apply Hne. cbn [In]. tauto. }
      destruct (EntryPoint.runs args loaded tr) as [[[]|e] tr'];
        cbn [EntryPoint.printed In]; tauto.
    + apply Hne. cbn [In]. tauto.
    + cbn [In]. tauto.
  - split; [cbn [EntryPoint.printed In]; tauto | reflexivity].
Qed.

(** X18. The exit status of [main].  Status 1 means one of its four
    messages was printed and nothing else was done.  Status 0 means
    nothing was printed, a configuration was loaded, a mode was selected,
    the key is set, and every requested run returned.  There is no other
    status; and only an exception of [load_config], raised before anything
    was done, or an exception of a run, with the key set, ends [main]
    otherwise. *)
Theorem main_exit_status (args : EntryPoint.Namespace) (tr : list event) :
  let fin := EntryPoint.main args tr in
  match EntryPoint.outcome fin with
  | EntryPoint.Return status =>
      (status = 1%Z
       /\ EntryPoint.trace fin = tr
       /\ exists message,
            EntryPoint.printed fin = [message] /\ In message GUARD_MESSAGES)
      \/ (status = 0%Z
          /\ EntryPoint.printed fin = []
          /\ EntryPoint.has_api_key = true
          /\ EntryPoint.topic_given args || EntryPoint.calendar_given args = true
          /\ exists loaded,
               EntryPoint.load_config (EntryPoint.config args) = inr (Some loaded)
               /\ EntryPoint.runs args loaded tr = (Ok tt, EntryPoint.trace fin))
  | EntryPoint.Uncaught (EntryPoint.RunError e) =>
      EntryPoint.has_api_key = true /\ EntryPoint.printed fin = []
  | EntryPoint.Uncaught _ =>
      EntryPoint.trace fin = tr /\ EntryPoint.printed fin = []
  end.
Proof.
  cbv zeta. unfold EntryPoint.main.
  destruct (EntryPoint.load_config (EntryPoint.config args)) as [e|[loaded|]] eqn:El.
  - unfold EntryPoint.load_config in El.
    destruct (EntryPoint.open_text _); [|injection El as <-; cbn; auto].
    destruct (EntryPoint.yaml_safe_load _); [discriminate El|].
    injection El as <-. cbn. auto.
  - destruct (EntryPoint.topic_given args || EntryPoint.calendar_given args) eqn:Em.
    + replace (negb (EntryPoint.topic_given args) && negb (EntryPoint.calendar_given args))
        with false by (now rewrite <- negb_orb, Em).
      destruct (EntryPoint.path_exists _); cbn [negb].
      * destruct EntryPoint.has_api_key; cbn [negb].
        -- destruct (EntryPoint.runs args loaded tr) as [[[]|e] tr'] eqn:Er; cbn.
           ++ right. repeat split; eauto.
           ++ auto.
        -- cbn. left. repeat split. eexists. split; [reflexivity|]. cbn. tauto.
      * cbn. left. repeat split. eexists. split; [reflexivity|]. cbn. tauto.
    + replace (negb (EntryPoint.topic_given args) && negb (EntryPoint.calendar_given args))
        with true by (now rewrite <- negb_orb, Em).
      cbn. left. repeat split. eexists. split; [reflexivity|]. cbn. tauto.
  - cbn. left. repeat split. eexists. split; [reflexivity|]. cbn. tauto.
Qed.

(** X19. Whatever [main] is asked, with [--topic], [--calendar] or both, the
    events it adds follow the order of validation from the first to the
    last: with both modes the calendar starts after the single article was
    validated and written, every Meta written passed both validators just
    before, and a failed rule check is the last event of the whole call. *)
Theorem main_validates_before_writing (args : EntryPoint.Namespace) (tr : list event) :
  let fin := EntryPoint.main args tr in
  exists new ph,
    EntryPoint.trace fin = tr ++ new
    /\ steps Idle new ph
    /\ outcome_fits (run_result (EntryPoint.outcome fin)) ph
    /\ writes_validated new
    /\ rule_failure_is_final new (run_result (EntryPoint.outcome fin)).
Proof.
  cbv zeta.
  assert (Hnone : forall fin,
             EntryPoint.trace fin = tr ->
             run_result (EntryPoint.outcome fin) = Ok tt ->
             exists new ph,
               EntryPoint.trace fin = tr ++ new
               /\ steps Idle new ph
               /\ outcome_fits (run_result (EntryPoint.outcome fin)) ph
               /\ writes_validated new
               /\ rule_failure_is_final new (run_result (EntryPoint.outcome fin))).
  { intros fin Ht Hr. exists [], Idle. rewrite app_nil_r, Hr.
    split; [exact Ht|]. split; [constructor|]. split; [exact I|].
    split; [apply (steps_writes_validated [] Idle); constructor|].
    apply (steps_rule_failure Idle [] Idle); [constructor | exact I]. }
  unfold EntryPoint.main.
  destruct (EntryPoint.load_config (EntryPoint.config args)) as [e|[loaded|]] eqn:El.
  - apply Hnone; [reflexivity|].
    unfold EntryPoint.load_config in El.
    destruct (EntryPoint.open_text _); [|injection El as <-; reflexivity].
    destruct (EntryPoint.yaml_safe_load _); [discriminate El|].
    injection El as <-. reflexivity.
  - destruct (negb (EntryPoint.topic_given args) && negb (EntryPoint.calendar_given args));
      [apply Hnone; reflexivity|].
    destruct (negb (EntryPoint.path_exists _)); [apply Hnone; reflexivity|].
    destruct (negb EntryPoint.has_api_key); [apply Hnone; reflexivity|].
    destruct (runs_steps args loaded tr) as (new & ph & E & Hs & Hr).
    rewrite E. exists new, ph.
    destruct (EntryPoint.runs args loaded tr).1 as [[]|e];
      cbn [EntryPoint.trace EntryPoint.outcome run_result].
    + split; [reflexivity|]. split; [exact Hs|]. split; [exact Hr|].
      split; [eapply steps_writes_validated, Hs | eapply steps_rule_failure; eassumption].
    + split; [reflexivity|]. split; [exact Hs|]. split; [exact Hr|].
      split; [eapply steps_writes_validated, Hs | eapply steps_rule_failure; eassumption].
  - apply Hnone; reflexivity.
Qed.
(** The choice between [weekly] and [monthly] is only tested for presence:
    both give the same call. *)
Remark main_calendar_choice (args : EntryPoint.Namespace) (tr : list event)
    (choice : EntryPoint.calendar_choice) :
  EntryPoint.calendar args = Some choice ->
  forall other : EntryPoint.calendar_choice,
    EntryPoint.main args tr
    = EntryPoint.main
        {| EntryPoint.topic := EntryPoint.topic args;
           EntryPoint.audience := EntryPoint.audience args;
           EntryPoint.platform := EntryPoint.platform args;
           EntryPoint.words := EntryPoint.words args;
           EntryPoint.tone := EntryPoint.tone args;
           EntryPoint.calendar := Some other;
           EntryPoint.count := EntryPoint.count args;
           EntryPoint.config := EntryPoint.config args |} tr.
Proof.
  intros E other. unfold EntryPoint.main, EntryPoint.runs, EntryPoint.calendar_given,
    EntryPoint.topic_given, EntryPoint.run_args.
  cbn [EntryPoint.topic EntryPoint.audience EntryPoint.platform EntryPoint.words
       EntryPoint.tone EntryPoint.calendar EntryPoint.count EntryPoint.config].
  rewrite E. reflexivity.
Qed.
End EntryFacts.

Lemma main_missing_config_raises_witness :
  EntryPoint.main (db := ascii_db) (env := demo_env (scripted_backend sample_article))
    (host := demo_host) topic_without_config []
  = {| EntryPoint.outcome := EntryPoint.Uncaught EntryPoint.OSError;
       EntryPoint.printed := [];
       EntryPoint.trace := [] |}.
Proof.
  destruct (main_missing_config_raises (db := ascii_db)
              (env := demo_env (scripted_backend sample_article)) (host := demo_host)
              topic_without_config []) as [_ H].
  - intros p handle. cbn [EntryPoint.open_text EntryPoint.path_exists demo_host].
    destruct (bool_decide (p = py "config.yaml")); [reflexivity | discriminate].
  - apply H. vm_compute. reflexivity.
Defined.

(** ** content_bot.py: the files of a calendar *)

Section FilesFacts.
Context {db : UnicodeDB} {env : Env}.

Lemma written_files_app (a b : list event) :
  written_files (a ++ b) = written_files a ++ written_files b.
Proof. unfold written_files. apply flat_map_app. Qed.

Lemma written_files_calls (calls : list event) :
  Forall (fun e => is_backend_call e = true) calls -> written_files calls = [].
Proof.
  induction 1 as [|e calls He _ IH]; [reflexivity|].
  destruct e; try discriminate He. exact IH.
Qed.

(** An item that succeeds writes its three files under its slug; an item
    that fails writes nothing. *)
Lemma calendar_item_files args config item tr :
  exists new,
    calendar_item args config item tr
      = ((calendar_item args config item tr).1, tr ++ new)
    /\ written_files new
       = match (calendar_item args config item tr).1 with
         | Ok _ => item_files (item_slug item)
         | Raise _ => []
         end.
Proof.
  unfold calendar_item. rewrite IO_bind_run.
  destruct item as [| | | | |d];
    try (exists []; rewrite app_nil_r; split; reflexivity).
  cbn [ContentBot.item_title item_slug]. unfold mret, IO_ret. cbv beta iota.
  set (topic := dict_get d (py "title") (VStr (py "Untitled topic"))).
  rewrite IO_bind_run.
  destruct (generate_package_of config topic (ContentBot.audience args)
              (ContentBot.platform args) (ContentBot.words args)
              (ContentBot.tone args) tr)
    as (article & calls & -> & Hcalls & _).
  pose proof (written_files_calls calls Hcalls) as Hn.
  destruct topic as [| | |s| |];
    try (rewrite finish_package_run; exists calls; split; [reflexivity | exact Hn]).
  rewrite finish_package_of. cbv zeta.
  destruct (validate_run_meta s (ContentBot.platform args) article)
    as (errors & Ev & _).
  rewrite Ev. destruct errors as [|e es].
  - assert (Hs : s <> []).
    { unfold run_meta in Ev. apply meta_rules_iff in Ev. tauto. }
    eexists. rewrite <- app_assoc. split; [reflexivity|].
    rewrite written_files_app, Hn. cbn [fst app].
    unfold ContentBot.get_output_dir. destruct s; [contradiction|]. reflexivity.
  - eexists. rewrite <- app_assoc. split; [reflexivity|].
    rewrite written_files_app, Hn. reflexivity.
Qed.

Lemma calendar_items_files args config items tr :
  exists new k,
    for_each items (calendar_item args config) tr
      = ((for_each items (calendar_item args config) tr).1, tr ++ new)
    /\ k <= length items
    /\ written_files new
       = flat_map (fun item => item_files (item_slug item)) (take k items)
    /\ match (for_each items (calendar_item args config) tr).1 with
       | Ok _ => k = length items
       | Raise _ => k < length items
       end.
Proof.
  revert tr. induction items as [|item items IH]; intros tr.
  - exists [], 0. rewrite app_nil_r. cbn. repeat split; lia.
  - cbn [for_each]. rewrite IO_bind_run.
    destruct (calendar_item_files args config item tr) as (new & E & Hf).
    rewrite E.
    destruct (calendar_item args config item tr).1 as [[]|e].
    + destruct (IH (tr ++ new)) as (new' & k & E' & Hk & Hf' & Hr').
      exists (new ++ new'), (S k). rewrite app_assoc. split; [exact E'|].
      cbn [length take flat_map]. split; [lia|].
      rewrite written_files_app, Hf, Hf'. split; [reflexivity|].
      destruct (for_each items (calendar_item args config) (tr ++ new)).1; lia.
    + exists new, 0. split; [reflexivity|]. cbn [length take flat_map fst].
      split; [lia|]. split; [exact Hf | lia].
Qed.

(** X20. The files of a calendar.  Over a list of topics, the run writes
    the three files of each item in turn under [outputs/<date>/<slug of the
    title>], for all the items when it returns and for the items before
    the failing one when it raises: what was written stays written.  The
    directory depends on the slug only, so two titles with one slug share
    their files and the later item overwrites the earlier. *)
Theorem run_calendar_files (args : ContentBot.Args) (config : Writer.Config)
    (tr : list event) (items : list pyval) :
  (Topics.generate_topics (Writer.content_pillars config) (ContentBot.count args)
     (Writer.model (Writer.generation config))
     (Writer.temperature (Writer.generation config)) tr).1 = Ok (VList items) ->
  exists k,
    written_files (ContentBot.run_calendar args config tr).2
    = written_files tr
      ++ flat_map (fun item => item_files (item_slug item)) (take k items)
    /\ match (ContentBot.run_calendar args config tr).1 with
       | Ok _ => k = length items
       | Raise _ => k < length items
       end.
Proof.
  intros Ht. rewrite run_calendar_unfold, IO_bind_run.
  pose proof (generate_topics_trace (Writer.content_pillars config)
                (ContentBot.count args) (Writer.model (Writer.generation config))
                (Writer.temperature (Writer.generation config)) tr) as Htr.
  destruct (Topics.generate_topics _ _ _ _ tr) as [r tr1].
  cbn [fst snd] in Ht, Htr. subst r tr1.
  rewrite IO_bind_run. cbn [ContentBot.iterate]. unfold mret, IO_ret. cbv beta iota.
  match goal with
  | |- context [for_each items _ ?t] =>
      destruct (calendar_items_files args config items t) as (new & k & E & _ & Hf & Hr)
  end.
  exists k. rewrite E. cbn [fst snd]. split; [|exact Hr].
  rewrite !written_files_app, Hf. cbn [written_files flat_map app].
  now rewrite app_nil_r.
Qed.
End FilesFacts.

Lemma run_calendar_files_witness :
  exists k,
    written_files
      (ContentBot.run_calendar (db := ascii_db)
         (env := demo_env (calendar_backend clashing_topics sample_article))
         demo_args demo_config []).2
    = written_files []
      ++ flat_map (fun item =>
                     item_files (H := demo_env (calendar_backend clashing_topics
                                                  sample_article))
                       (item_slug item))
           (take k clashing_items)
    /\ item_slug <$> clashing_items = [py "ai-crm"; py "ai-crm"].
Proof.
  destruct (run_calendar_files (db := ascii_db)
              (env := demo_env (calendar_backend clashing_topics sample_article))
              demo_args demo_config [] clashing_items) as (k & H & _).
  - vm_compute. reflexivity.
  - exists k. split; [exact H | vm_compute; reflexivity].
Defined.

(** ** writer.py: the package as [generate_package] leaves it *)

Ltac lookup_key :=
  first [ reflexivity
        | discriminate
        | apply lookup_empty
        | match goal with H : ?x <> ?x |- _ => destruct (H eq_refl) end ].

(** X21. The package of [generate_package] is consistent and unfinished:
    its article is trimmed, its social text and its description are read
    from that very article (the revised one after a revision), its slug is
    empty and it has no date, so that its Meta never passes [META_SCHEMA]
    as it is: the caller has to complete it. *)
Theorem generate_package_unfinished (db : UnicodeDB) (env : Env) (config : Writer.Config)
    (topic : pyval) (audience platform : pystr) (words : Z) (tone : pystr)
    (tr : list event) :
  exists pkg tr',
    Writer.generate_package config topic audience platform words tone tr = (Ok pkg, tr')
    /\ strip (Writer.article pkg) = Writer.article pkg
    /\ Writer.social pkg = Writer._extract_social (Writer.article pkg)
    /\ Writer.meta pkg !! py "description"
       = Some (VStr (Writer._extract_meta (Writer.article pkg)).2)
    /\ Writer.meta pkg !! py "slug" = Some (VStr [])
    /\ Writer.meta pkg !! py "date" = None
    /\ valid UtilsSchema.META_SCHEMA (VDict (Writer.meta pkg)) = false.
Proof.
  assert (Hpkg : forall article : pystr,
             let pkg := package_of topic platform (strip article) in
             strip (Writer.article pkg) = Writer.article pkg
             /\ Writer.social pkg = Writer._extract_social (Writer.article pkg)
             /\ Writer.meta pkg !! py "description"
                = Some (VStr (Writer._extract_meta (Writer.article pkg)).2)
             /\ Writer.meta pkg !! py "slug" = Some (VStr [])
             /\ Writer.meta pkg !! py "date" = None
             /\ valid UtilsSchema.META_SCHEMA (VDict (Writer.meta pkg)) = false).
  { intros article. cbv zeta.
    assert (Hdate : Writer.meta (package_of topic platform (strip article)) !! py "date"
                    = None).
    { unfold package_of. cbn [Writer.meta]. rewrite !lookup_insert.
      repeat case_decide; lookup_key. }
    split; [apply strip_idem|]. split; [reflexivity|].
    split.
    { unfold package_of. cbn [Writer.meta Writer.article]. rewrite !lookup_insert.
      repeat case_decide; lookup_key. }
    split.
    { unfold package_of. cbn [Writer.meta]. rewrite !lookup_insert.
      repeat case_decide; lookup_key. }
    split; [exact Hdate|].
    destruct (valid _ _) eqn:Ev; [|reflexivity].
    apply valid_META_SCHEMA_iff in Ev as (t & k & d & p & dt & s & E & _).
    rewrite E in Hdate. unfold meta_of in Hdate. rewrite !lookup_insert in Hdate.
    repeat case_decide; lookup_key. }
  rewrite generate_package_run. cbv zeta.
  destruct (Writer.self_check _); eexists _, _; (split; [reflexivity | apply Hpkg]).
Qed.
